(** * aioairzone-cloud: the entity update/merge protocol

    A shallow embedding of [aioairzone_cloud/device.py] and
    [aioairzone_cloud/air_quality.py].  Python objects are records of
    attributes, methods are computations in a state-and-exception monad over
    the attributes of [self], payloads are values of Python's [Any] as
    [json.loads] builds them, and the references a [Device] keeps to an
    [AirQuality] object are resolved in a store of live objects. *)

From Stdlib Require Import ZArith String List Ascii DecimalString.
From Stdlib Require Import Floats.
From stdpp Require Import base option list gmap strings.

#[local] Set Warnings "-register-all".
#[local] Open Scope string_scope.
#[local] Open Scope list_scope.
#[local] Open Scope Z_scope.

(** ** Python values *)

(** A value of type [Any] as it reaches the library: what [json.loads]
    produces.  [dict] preserves insertion order, which iteration over a
    mapping exposes, so a mapping is its list of items. *)
Inductive Any : Type :=
| PNone
| PBool (b : bool)
| PInt (n : Z)
| PFloat (x : float)
| PStr (s : string)
| PList (l : list Any)
| PDict (d : list (string * Any)).

(** [dict[str, Any]] *)
Definition Dict : Type := list (string * Any).

(** The exceptions the modelled code can raise. *)
Inductive exn : Type :=
| AttributeError
| KeyError
| NameError
| OverflowError
| RecursionError
| TypeError
| ValueError.

(** The outcome of evaluating an expression: a value or a raised exception. *)
Inductive result (A : Type) : Type :=
| Ok (a : A)
| Raise (e : exn).
Arguments Ok {A} a.
Arguments Raise {A} e.

#[global] Instance result_ret : MRet result := fun _ a => Ok a.
#[global] Instance result_bind : MBind result := fun _ _ k r =>
  match r with
  | Ok a => k a
  | Raise e => Raise e
  end.

(** [x is not None] *)
Definition is_not_None (v : Any) : bool :=
  match v with
  | PNone => false
  | _ => true
  end.

(** [d.get(k)]: the first item stored under [k], [None] when there is none. *)
Fixpoint dict_get (d : Dict) (k : string) : Any :=
  match d with
  | [] => PNone
  | (k', v) :: d' => if String.eqb k k' then v else dict_get d' k
  end.

(** [k in d] for a mapping [d]. *)
Fixpoint dict_contains (k : string) (d : Dict) : bool :=
  match d with
  | [] => false
  | (k', _) :: d' => String.eqb k k' || dict_contains k d'
  end.

(** [d[k]] for a mapping [d]. *)
Fixpoint dict_getitem (d : Dict) (k : string) : result Any :=
  match d with
  | [] => Raise KeyError
  | (k', v) :: d' => if String.eqb k k' then Ok v else dict_getitem d' k
  end.

(** [s.startswith(p)] *)
Fixpoint str_startswith (p s : string) : bool :=
  match p, s with
  | EmptyString, _ => true
  | String a p', String b s' => Ascii.eqb a b && str_startswith p' s'
  | String _ _, EmptyString => false
  end.

(** [p in s] for two strings: [p] occurs in [s]. *)
Fixpoint str_contains (p s : string) : bool :=
  str_startswith p s ||
  match s with
  | EmptyString => false
  | String _ s' => str_contains p s'
  end.

(** The characters of a string, each a string of length one. *)
Fixpoint str_chars (s : string) : list Any :=
  match s with
  | EmptyString => []
  | String a s' => PStr (String a EmptyString) :: str_chars s'
  end.

(** [bool(v)]: the truth value that [v or {}] tests. *)
Definition py_truthy (v : Any) : bool :=
  match v with
  | PNone => false
  | PBool b => b
  | PInt n => negb (n =? 0)%Z
  | PFloat x => negb (PrimFloat.eqb x 0%float)
  | PStr s => negb (String.eqb s "")
  | PList l => negb (Nat.eqb (length l) 0)
  | PDict d => negb (Nat.eqb (length d) 0)
  end.

(** [v or {}] *)
Definition py_or_empty_dict (v : Any) : Any :=
  if py_truthy v then v else PDict [].

(** [v.get(k)]: only a mapping has a [get] method. *)
Definition py_get (v : Any) (k : string) : result Any :=
  match v with
  | PDict d => Ok (dict_get d k)
  | _ => Raise AttributeError
  end.

(** [k == v] for a string [k]. *)
Definition str_eq_any (k : string) (v : Any) : bool :=
  match v with
  | PStr s => String.eqb k s
  | _ => false
  end.

(** [k in v] for a string [k]: key membership in a mapping, element
    membership in a list, substring test in a string; other values are not
    containers. *)
Definition py_contains (k : string) (v : Any) : result bool :=
  match v with
  | PDict d => Ok (dict_contains k d)
  | PList l => Ok (existsb (str_eq_any k) l)
  | PStr s => Ok (str_contains k s)
  | _ => Raise TypeError
  end.

(** [v[k]] for a string [k]: sequences want integer indices, scalars are not
    subscriptable. *)
Definition py_getitem (v : Any) (k : string) : result Any :=
  match v with
  | PDict d => dict_getitem d k
  | _ => Raise TypeError
  end.

(** The items [for x in v] visits: elements of a list, characters of a
    string, keys of a mapping. *)
Definition py_iter (v : Any) : result (list Any) :=
  match v with
  | PList l => Ok l
  | PStr s => Ok (str_chars s)
  | PDict d => Ok (map (fun kv => PStr (fst kv)) d)
  | _ => Raise TypeError
  end.

(** [len(v)] *)
Definition py_len (v : Any) : result Z :=
  match v with
  | PList l => Ok (Z.of_nat (length l))
  | PStr s => Ok (Z.of_nat (String.length s))
  | PDict d => Ok (Z.of_nat (length d))
  | _ => Raise TypeError
  end.

(** *** [int(v)] *)

(** The white space [int] skips around a number.  A character of a string
    is its code point, so the strings of this model hold code points below
    256.  Of those [int] skips tab, line feed, vertical tab, form feed,
    carriage return and space, and the two non-ASCII spaces U+0085 and
    U+00A0; the separators U+001C to U+001F, which [str.strip] removes, are
    not skipped. *)
Definition is_space (a : ascii) : bool :=
  let n := nat_of_ascii a in
  ((9 <=? n) && (n <=? 13) || (n =? 32) || (n =? 133) || (n =? 160))%nat.

Definition digit_of (a : ascii) : option Z :=
  let n := nat_of_ascii a in
  if ((48 <=? n) && (n <=? 57))%nat then Some (Z.of_nat n - 48) else None.

Fixpoint lstrip (s : string) : string :=
  match s with
  | String a s' => if is_space a then lstrip s' else s
  | EmptyString => s
  end.

(** Whether only white space is left. *)
Fixpoint all_space (s : string) : bool :=
  match s with
  | String a s' => is_space a && all_space s'
  | EmptyString => true
  end.

(** Digits with single underscores between them, then optional white space.
    [after_digit] says that the previous character was a digit, [acc] is the
    value read so far. *)
Fixpoint int_digits (after_digit : bool) (acc : Z) (s : string) : option Z :=
  match s with
  | EmptyString => if after_digit then Some acc else None
  | String a s' =>
      match digit_of a with
      | Some d => int_digits true (10 * acc + d) s'
      | None =>
          if after_digit then
            if Ascii.eqb a "_"%char then
              match s' with
              | String b _ =>
                  match digit_of b with
                  | Some _ => int_digits false acc s'
                  | None => None
                  end
              | EmptyString => None
              end
            else if all_space s then Some acc else None
          else None
      end
  end.

(** The interpreter's limit on the digits of a string converted to an
    integer ([sys.int_info.default_max_str_digits]). *)
Definition int_max_str_digits : Z := 4300.

(** The decimal digits of a string; underscores, sign and white space do
    not count, leading zeros do. *)
Fixpoint count_digits (s : string) : Z :=
  match s with
  | String a s' =>
      (match digit_of a with Some _ => 1 | None => 0 end + count_digits s')%Z
  | EmptyString => 0%Z
  end.

(** [int(s)] for a string, base ten: [None] where [int] raises
    [ValueError].  Below code point 256 there is no decimal digit besides
    [0] to [9]. *)
Definition int_of_str (s : string) : option Z :=
  if (int_max_str_digits <? count_digits s)%Z then None
  else
    match lstrip s with
    | String "-"%char s' => Z.opp <$> int_digits false 0 s'
    | String "+"%char s' => int_digits false 0 s'
    | s' => int_digits false 0 s'
    end.

(** [int(x)] for a float: truncation towards zero. *)
Definition int_of_float (x : float) : result Z :=
  match Prim2SF x with
  | S754_zero _ => Ok 0
  | S754_infinity _ => Raise OverflowError
  | S754_nan => Raise ValueError
  | S754_finite sign m e =>
      let a := if (0 <=? e)%Z then Z.pos m * 2 ^ e else Z.pos m / 2 ^ (- e) in
      Ok (if sign then - a else a)
  end.

(** [int(v)] *)
Definition py_int (v : Any) : result Z :=
  match v with
  | PInt n => Ok n
  | PBool b => Ok (if b then 1 else 0)
  | PFloat x => int_of_float x
  | PStr s =>
      match int_of_str s with
      | Some n => Ok n
      | None => Raise ValueError
      end
  | PNone | PList _ | PDict _ => Raise TypeError
  end.

(** [f"{n}"] for an integer. *)
Definition format_int (n : Z) : string :=
  NilZero.string_of_int (Z.to_int n).

(** ** Methods: state and exceptions *)

(** A method body run on an object whose attributes are [S]: it leaves the
    attributes as the assignments made them, also when it raises. *)
Definition M (S A : Type) : Type := S -> S * result A.

#[global] Instance M_ret {S} : MRet (M S) := fun _ a s => (s, Ok a).
#[global] Instance M_bind {S} : MBind (M S) := fun _ _ k m s =>
  match m s with
  | (s', Ok a) => k a s'
  | (s', Raise e) => (s', Raise e)
  end.

(** An expression that may raise, evaluated inside a method. *)
Definition lift {S A} (r : result A) : M S A := fun s => (s, r).

(** [self.x] *)
Definition getattr {S A} (get : S -> A) : M S A := fun s => (s, Ok (get s)).

(** [self.x = v] *)
Definition setattr {S A} (set : A -> S -> S) (v : A) : M S unit :=
  fun s => (set v s, Ok tt).

(** [if x is not None: body] for an optional value [x]. *)
Definition if_not_None {S A} (x : option A) (body : A -> M S unit) : M S unit :=
  match x with
  | Some v => body v
  | None => mret tt
  end.

(** [if c: body] *)
Definition when {S} (c : bool) (body : M S unit) : M S unit :=
  if c then body else mret tt.

(** The body of a loop run over the items in order. *)
Fixpoint for_each {S A} (l : list A) (body : A -> M S unit) : M S unit :=
  match l with
  | [] => mret tt
  | x :: l' => body x ;; for_each l' body
  end.

(** [for x in v: body] *)
Definition for_in {S} (v : Any) (body : Any -> M S unit) : M S unit :=
  l ← lift (py_iter v); for_each l body.

(** A loop that threads a local variable through its body. *)
Fixpoint fold_result {A B} (f : B -> A -> result B) (acc : B) (l : list A) : result B :=
  match l with
  | [] => Ok acc
  | x :: l' => acc' ← f acc x; fold_result f acc' l'
  end.

(** [super().method(...)]: a method of the base class run on the base
    attributes of [self]. *)
Definition super {S T A} (get : T -> S) (set : S -> T -> T) (m : M S A) : M T A :=
  fun t => let '(s', r) := m (get t) in (set s' t, r).

(** [if v is not None: body] for a raw value [v]. *)
Definition if_is_not_None {S} (v : Any) (body : M S unit) : M S unit :=
  when (is_not_None v) body.

(** ** A program logic for methods *)

Section Hoare.
Context {S : Type}.

(** From a state satisfying [P], the method ends in a state satisfying [Q]
    when it returns and [E] when it raises. *)
Definition hoare {A} (P : S -> Prop) (m : M S A)
    (Q : A -> S -> Prop) (E : exn -> S -> Prop) : Prop :=
  forall s, P s ->
    match m s with
    | (s', Ok a) => Q a s'
    | (s', Raise e) => E e s'
    end.

(** The method keeps [I], whether it returns or raises. *)
Definition preserves {A} (I : S -> Prop) (m : M S A) : Prop :=
  hoare I m (fun _ => I) (fun _ => I).

Lemma hoare_conseq {A} (P P' : S -> Prop) (m : M S A) (Q Q' : A -> S -> Prop)
    (E E' : exn -> S -> Prop) :
  hoare P' m Q' E' ->
  (forall s, P s -> P' s) ->
  (forall a s, Q' a s -> Q a s) ->
  (forall e s, E' e s -> E e s) ->
  hoare P m Q E.
Proof.
  intros Hm HP HQ HE s Hs. specialize (Hm s (HP s Hs)).
  destruct (m s) as [s' [a|e]]; auto.
Qed.

Lemma hoare_ret {A} (P : S -> Prop) (a : A) Q E :
  (forall s, P s -> Q a s) -> hoare P (mret a) Q E.
Proof. intros H s Hs. exact (H s Hs). Qed.

Lemma hoare_lift {A} (P : S -> Prop) (r : result A) Q E :
  (forall s, P s -> match r with Ok a => Q a s | Raise e => E e s end) ->
  hoare P (lift r) Q E.
Proof. intros H s Hs. exact (H s Hs). Qed.

Lemma hoare_getattr {A} (P : S -> Prop) (get : S -> A) Q E :
  (forall s, P s -> Q (get s) s) -> hoare P (getattr get) Q E.
Proof. intros H s Hs. exact (H s Hs). Qed.

Lemma hoare_setattr {A} (P : S -> Prop) (set : A -> S -> S) (v : A) Q E :
  (forall s, P s -> Q tt (set v s)) -> hoare P (setattr set v) Q E.
Proof. intros H s Hs. exact (H s Hs). Qed.

Lemma hoare_bind {A B} (R : A -> S -> Prop) (P : S -> Prop) (m : M S A)
    (k : A -> M S B) Q E :
  hoare P m R E ->
  (forall a, hoare (R a) (k a) Q E) ->
  hoare P (m ≫= k) Q E.
Proof.
  intros Hm Hk s Hs. specialize (Hm s Hs).
  unfold mbind, M_bind. destruct (m s) as [s' [a|e]]; [|exact Hm].
  exact (Hk a s' Hm).
Qed.

(** An expression that may raise, then the rest: the rest runs knowing the
    value of the expression. *)
Lemma hoare_lift_bind {A B} (P : S -> Prop) (r : result A) (k : A -> M S B) Q E :
  (forall a, r = Ok a -> hoare P (k a) Q E) ->
  (forall e s, r = Raise e -> P s -> E e s) ->
  hoare P (lift r ≫= k) Q E.
Proof.
  intros Hk He. destruct r as [a|e].
  - intros s Hs. exact (Hk a eq_refl s Hs).
  - intros s Hs. exact (He e s eq_refl Hs).
Qed.

Lemma hoare_if_not_None {A} (P : S -> Prop) (x : option A) (body : A -> M S unit) Q E :
  (forall v, x = Some v -> hoare P (body v) Q E) ->
  (x = None -> forall s, P s -> Q tt s) ->
  hoare P (if_not_None x body) Q E.
Proof.
  intros Hsome Hnone. destruct x as [v|]; simpl.
  - exact (Hsome v eq_refl).
  - apply hoare_ret. exact (Hnone eq_refl).
Qed.

Lemma hoare_when (P : S -> Prop) (c : bool) (body : M S unit) Q E :
  (c = true -> hoare P body Q E) ->
  (c = false -> forall s, P s -> Q tt s) ->
  hoare P (when c body) Q E.
Proof.
  intros Ht Hf. destruct c; simpl.
  - exact (Ht eq_refl).
  - apply hoare_ret. exact (Hf eq_refl).
Qed.

Lemma hoare_if_is_not_None (P : S -> Prop) (v : Any) (body : M S unit) Q E :
  (v <> PNone -> hoare P body Q E) ->
  (v = PNone -> forall s, P s -> Q tt s) ->
  hoare P (if_is_not_None v body) Q E.
Proof.
  intros Hb Hn. apply hoare_when.
  - intros Hv. apply Hb. intros ->. discriminate Hv.
  - intros Hv. apply Hn. destruct v; try discriminate Hv. reflexivity.
Qed.

(** A loop keeps what its body keeps. *)
Lemma hoare_for_each {A} (I : S -> Prop) (l : list A) (body : A -> M S unit) E :
  (forall x, x ∈ l -> hoare I (body x) (fun _ => I) E) ->
  hoare I (for_each l body) (fun _ => I) E.
Proof.
  induction l as [|x l IH]; intros Hbody; simpl.
  - apply hoare_ret. auto.
  - apply (hoare_bind (fun _ => I)).
    + apply Hbody. left.
    + intros _. apply IH. intros y Hy. apply Hbody. right. exact Hy.
Qed.

Lemma hoare_for_in (I : S -> Prop) (v : Any) (body : Any -> M S unit)
    (E : exn -> S -> Prop) :
  (forall x, hoare I (body x) (fun _ => I) E) ->
  (forall e s, py_iter v = Raise e -> I s -> E e s) ->
  hoare I (for_in v body) (fun _ => I) E.
Proof.
  intros Hbody Hraise. unfold for_in.
  apply (hoare_bind (fun l s => I s)).
  - apply hoare_lift. intros s Hs. destruct (py_iter v) eqn:Hv; eauto.
  - intros l. apply hoare_for_each. auto.
Qed.

End Hoare.

(** A method of the base class, run through [super], acts on the base
    attributes and leaves the others alone. *)
Lemma hoare_super {S T A} (get : T -> S) (set : S -> T -> T) (m : M S A)
    (P : T -> Prop) Q E :
  (forall t, P t ->
     hoare (fun s => s = get t) m
       (fun a s' => Q a (set s' t)) (fun e s' => E e (set s' t))) ->
  hoare P (super get set m) Q E.
Proof.
  intros H t Ht. specialize (H t Ht (get t) eq_refl). unfold super.
  destruct (m (get t)) as [s' [a|e]]; exact H.
Qed.

(** ** Methods that only overwrite attributes *)

Section Overwrite.
Context {S : Type}.

(** A family of attribute writes: each write is idempotent, and a write
    absorbs an earlier copy of itself across any other write of the family. *)
Record write_family (W : (S -> S) -> Prop) : Prop := {
  write_idem : forall f, W f -> forall s, f (f s) = f s;
  write_absorb : forall f g, W f -> W g -> forall s, f (g (f s)) = f (g s)
}.

(** The writes of a list applied in order, the head first. *)
Definition apply_writes (ws : list (S -> S)) (s : S) : S :=
  fold_left (fun s w => w s) ws s.

(** The method performs a fixed list of writes of the family and ends with a
    fixed outcome, whatever the attributes were. *)
Definition overwrites (W : (S -> S) -> Prop) (m : M S unit) : Prop :=
  exists ws r, Forall W ws /\ forall s, m s = (apply_writes ws s, r).

Context (W : (S -> S) -> Prop) (HW : write_family W).

Lemma apply_writes_snoc ws w s :
  apply_writes (ws ++ [w]) s = w (apply_writes ws s).
Proof. unfold apply_writes. rewrite fold_left_app. reflexivity. Qed.

Lemma apply_writes_app ws ws' s :
  apply_writes (ws ++ ws') s = apply_writes ws' (apply_writes ws s).
Proof. unfold apply_writes. apply fold_left_app. Qed.

Lemma apply_writes_absorb ws f :
  Forall W ws -> W f ->
  forall s, f (apply_writes ws (f s)) = f (apply_writes ws s).
Proof.
  intros Hws Hf. induction ws as [|w ws IH] using rev_ind; intros s.
  - simpl. apply (write_idem W HW f Hf).
  - apply Forall_app in Hws as [Hws Hw]. apply Forall_inv in Hw.
    rewrite !apply_writes_snoc.
    rewrite <- (write_absorb W HW f w Hf Hw (apply_writes ws (f s))).
    rewrite (IH Hws s).
    apply (write_absorb W HW f w Hf Hw).
Qed.

Lemma apply_writes_idem ws :
  Forall W ws -> forall s, apply_writes ws (apply_writes ws s) = apply_writes ws s.
Proof.
  induction ws as [|w ws IH] using rev_ind; intros Hws s.
  - reflexivity.
  - apply Forall_app in Hws as [Hws Hw]. apply Forall_inv in Hw.
    rewrite !apply_writes_snoc.
    rewrite (apply_writes_absorb ws w Hws Hw).
    rewrite (IH Hws). reflexivity.
Qed.

(** Running such a method again changes nothing and ends the same way. *)
Lemma overwrites_idempotent m :
  overwrites W m -> forall s, m (m s).1 = m s.
Proof.
  intros (ws & r & Hws & Hm) s. rewrite !Hm. simpl.
  rewrite (apply_writes_idem ws Hws). reflexivity.
Qed.

Lemma overwrites_ret : overwrites W (mret tt).
Proof. exists [], (Ok tt). split; [constructor | reflexivity]. Qed.

Lemma overwrites_setattr {A} (set : A -> S -> S) (v : A) :
  W (set v) -> overwrites W (setattr set v).
Proof.
  intros Hw. exists [set v], (Ok tt). split; [repeat constructor; exact Hw | reflexivity].
Qed.

Lemma overwrites_bind (m : M S unit) (k : unit -> M S unit) :
  overwrites W m -> (forall a, overwrites W (k a)) -> overwrites W (m ≫= k).
Proof.
  intros (ws & r & Hws & Hm) Hk. destruct r as [[]|e].
  - destruct (Hk tt) as (ws' & r' & Hws' & Hk').
    exists (ws ++ ws'), r'. split; [apply Forall_app; auto|].
    intros s. unfold mbind, M_bind. rewrite Hm, Hk', apply_writes_app. reflexivity.
  - exists ws, (Raise e). split; [exact Hws|].
    intros s. unfold mbind, M_bind. rewrite Hm. reflexivity.
Qed.

Lemma overwrites_lift_bind {A} (r : result A) (k : A -> M S unit) :
  (forall a, r = Ok a -> overwrites W (k a)) -> overwrites W (lift r ≫= k).
Proof.
  intros Hk. destruct r as [a|e].
  - destruct (Hk a eq_refl) as (ws & r & Hws & Hm).
    exists ws, r. split; [exact Hws | exact Hm].
  - exists [], (Raise e). split; [constructor | reflexivity].
Qed.

Lemma overwrites_if_not_None {A} (x : option A) (body : A -> M S unit) :
  (forall v, x = Some v -> overwrites W (body v)) ->
  overwrites W (if_not_None x body).
Proof.
  intros H. destruct x as [v|]; simpl; [exact (H v eq_refl) | apply overwrites_ret].
Qed.

Lemma overwrites_when (c : bool) (body : M S unit) :
  overwrites W body -> overwrites W (when c body).
Proof. intros H. destruct c; simpl; [exact H | apply overwrites_ret]. Qed.

Lemma overwrites_if_is_not_None (v : Any) (body : M S unit) :
  overwrites W body -> overwrites W (if_is_not_None v body).
Proof. apply overwrites_when. Qed.

(** Clearing a list attribute and appending the items of [v] one by one
    writes the attribute once: the items when [v] can be iterated, the empty
    list (and [TypeError]) when it cannot. *)
Lemma for_each_append (get : S -> list Any) (set : list Any -> S -> S) :
  (forall a s, get (set a s) = a) ->
  (forall a b s, set a (set b s) = set a s) ->
  forall l acc s,
    for_each l (fun x => es ← getattr get; setattr set (es ++ [x])) (set acc s)
    = (set (acc ++ l) s, Ok tt).
Proof.
  intros Hgs Hss. induction l as [|x l IH]; intros acc s; simpl.
  - rewrite app_nil_r. reflexivity.
  - unfold mbind at 1, M_bind at 1. unfold mbind at 1, M_bind at 1.
    unfold getattr at 1, setattr at 1. rewrite Hgs, Hss, IH, <- app_assoc.
    reflexivity.
Qed.

Lemma overwrites_replace_list (get : S -> list Any) (set : list Any -> S -> S) (v : Any) :
  (forall a s, get (set a s) = a) ->
  (forall a b s, set a (set b s) = set a s) ->
  (forall a, W (set a)) ->
  overwrites W
    (setattr set [] ;;
     for_in v (fun x => es ← getattr get; setattr set (es ++ [x]))).
Proof.
  intros Hgs Hss Hw. destruct (py_iter v) as [l|e] eqn:Hv.
  - exists [set l], (Ok tt). split; [repeat constructor; apply Hw|].
    intros s. unfold mbind at 1, M_bind at 1, setattr at 1, for_in.
    unfold mbind at 1, M_bind at 1, lift. rewrite Hv.
    apply (for_each_append get set Hgs Hss l [] s).
  - exists [set []], (Raise e). split; [repeat constructor; apply Hw|].
    intros s. unfold mbind at 1, M_bind at 1, setattr at 1, for_in.
    unfold mbind at 1, M_bind at 1, lift. rewrite Hv. reflexivity.
Qed.

End Overwrite.

(** Overwriting base attributes through [super] overwrites attributes of the
    derived object. *)
Lemma overwrites_super {S T} (get : T -> S) (set : S -> T -> T)
    (W : (S -> S) -> Prop) (W' : (T -> T) -> Prop) (m : M S unit) :
  (forall s t, get (set s t) = s) ->
  (forall s s' t, set s (set s' t) = set s t) ->
  (forall t, set (get t) t = t) ->
  (forall f, W f -> W' (fun t => set (f (get t)) t)) ->
  overwrites W m -> overwrites W' (super get set m).
Proof.
  intros Hgs Hss Hsg HW (ws & r & Hws & Hm).
  exists (map (fun f t => set (f (get t)) t) ws), r. split.
  - apply Forall_map. eapply Forall_impl; [exact Hws|]. exact HW.
  - intros t. unfold super. rewrite Hm. f_equal.
    clear Hm Hws. induction ws as [|w ws IH] using rev_ind.
    + simpl. apply Hsg.
    + rewrite map_app. simpl. rewrite !apply_writes_snoc, <- IH, Hgs, Hss.
      reflexivity.
Qed.

(** ** const.py *)

(** Modelled from the spec: [const.py] is not among the sources.  The spec
    names the payload keys "meta", "config", "systemNumber", "zoneNumber",
    "name" and "errors"; the other keys are pairwise distinct strings. *)
Definition API_AQ_ACTIVE := "aqActive".
Definition API_AQ_PM_1 := "aqPm1".
Definition API_AQ_PM_2P5 := "aqPm2p5".
Definition API_AQ_PM_10 := "aqPm10".
Definition API_AQ_CO2 := "aqCo2".
Definition API_AQ_TVOC := "aqTvoc".
Definition API_AQ_HUMIDITY := "aqHumidity".
Definition API_AQ_TEMP := "aqTemp".
Definition API_AQ_TEMP_CELSIUS := "celsius".
Definition API_AQ_PRESSURE := "aqPressure".
Definition API_AQ_PRESENT := "aqPresent".
Definition API_AQ_VENT_ACTIVE := "aqVentActive".
Definition API_AQ_QUALITY := "aqQuality".
Definition API_AQ_SCORE := "aqScore".
Definition API_AQ_SENSOR_FW := "aqSensorFw".
Definition API_AUTO_MODE := "autoMode".
Definition API_CONFIG := "config".
Definition API_DEVICE_ID := "deviceId".
Definition API_DOUBLE_SET_POINT := "doubleSetPoint".
Definition API_DUAL_SP_CONF := "dualSpConf".
Definition API_ERRORS := "errors".
Definition API_IS_CONNECTED := "isConnected".
Definition API_META := "meta".
Definition API_MODE := "mode".
Definition API_MODE_AVAIL := "modeAvailable".
Definition API_NAME := "name".
Definition API_SIMULATOR_MODE := "simulatorMode".
Definition API_SYSTEM_NUMBER := "systemNumber".
Definition API_WARNINGS := "warnings".
Definition API_WS_CONNECTED := "wsConnected".
Definition API_ZONE_NUMBER := "zoneNumber".

(** Modelled from the spec: the output keys of [data()], "fixed normalized
    output identifiers"; the spec names [available], [doubleSetPoint], [id],
    [installation], [isConnected], [name], [problems], [webserver],
    [wsConnected] and [quality], the others are pairwise distinct strings. *)
Definition AZD_AQ_ACTIVE := "aqActive".
Definition AZD_AQ_QUALITY := "quality".
Definition AZD_AQ_SCORE := "aqScore".
Definition AZD_AQ_PM_1 := "aqPm1".
Definition AZD_AQ_PM_2P5 := "aqPm2p5".
Definition AZD_AQ_PM_10 := "aqPm10".
Definition AZD_AQ_CO2 := "aqCo2".
Definition AZD_AQ_TVOC := "aqTvoc".
Definition AZD_AQ_HUMIDITY := "aqHumidity".
Definition AZD_AQ_TEMP := "aqTemp".
Definition AZD_AQ_PRESSURE := "aqPressure".
Definition AZD_AQ_PRESENT := "aqPresent".
Definition AZD_AQ_VENT_ACTIVE := "aqVentActive".
Definition AZD_AVAILABLE := "available".
Definition AZD_DOUBLE_SET_POINT := "doubleSetPoint".
Definition AZD_DUAL_SP_CONF := "dualSpConf".
Definition AZD_ERRORS := "errors".
Definition AZD_FIRMWARE := "firmware".
Definition AZD_ID := "id".
Definition AZD_INSTALLATION := "installation".
Definition AZD_IS_CONNECTED := "isConnected".
Definition AZD_MODE := "mode".
Definition AZD_MODE_AUTO := "modeAuto".
Definition AZD_MODES := "modes".
Definition AZD_NAME := "name".
Definition AZD_PROBLEMS := "problems".
Definition AZD_SIMULATOR_MODE := "simulatorMode".
Definition AZD_SYSTEM := "system".
Definition AZD_WARNINGS := "warnings".
Definition AZD_WEBSERVER := "webserver".
Definition AZD_WS_CONNECTED := "wsConnected".
Definition AZD_ZONE := "zone".

(** Modelled from the spec: the table [API_AQ_QUALITY_LEVELS] of [const.py],
    "a fixed discrete level-name lookup table" from raw level codes to level
    names, as the items of the dictionary in order.  A dictionary holds a key
    once. *)
Class QualityLevels : Type := {
  API_AQ_QUALITY_LEVELS : list (string * string);
  API_AQ_QUALITY_LEVELS_keys : NoDup (API_AQ_QUALITY_LEVELS.*1)
}.

(** ** common.py *)

(** Modelled from the spec: [common.py] is not among the sources.
    [OperationMode] is "an enumeration of valid HVAC operating modes" whose
    construction from an unrecognized raw value fails; each field parser
    "takes an arbitrary raw value (possibly absent/null/wrong type) and
    returns a normalized optional value of one target type, or a well-defined
    absent sentinel -- never raises", and an absent value parses to absent. *)
Class Common : Type := {
  OperationMode : Type;
  OperationMode_eq_dec :: EqDecision OperationMode;
  (** the member a raw value denotes, if any *)
  OperationMode_member : Any -> option OperationMode;
  parse_bool : Any -> option bool;
  parse_int : Any -> option Z;
  parse_float : Any -> option float;
  parse_str : Any -> option string;
  parse_bool_None : parse_bool PNone = None;
  parse_int_None : parse_int PNone = None;
  parse_float_None : parse_float PNone = None;
  parse_str_None : parse_str PNone = None
}.

(** [OperationMode(v)]: the member for a raw value, [ValueError] when there is
    none. *)
Definition OperationMode_of_raw `{Common} (v : Any) : result OperationMode :=
  match OperationMode_member v with
  | Some m => Ok m
  | None => Raise ValueError
  end.

(** [OperationMode(mode)] for [mode: int | OperationMode]: a member is
    returned as it is. *)
Definition OperationMode_of `{Common} (mode : Any + OperationMode) : result OperationMode :=
  match mode with
  | inl v => OperationMode_of_raw v
  | inr m => Ok m
  end.

(** Python's [str(v)].  On a string it is the string itself; the text it
    builds for other values plays no role here and is left open. *)
Class Builtins : Type := {
  py_str : Any -> string;
  py_str_str : forall s, py_str (PStr s) = s
}.

(** ** entity.py *)

(** Modelled from the spec: [entity.py] is not among the sources.  The update
    envelope is an "opaque carrier exposing [getData()]", the raw fragment
    for one entity. *)
Record EntityUpdate : Type := { get_data : Dict }.

(** The identity of a live object; a store gives the attributes of the
    object a reference denotes. *)
Definition ref : Type := positive.

(** A value stored in the mapping that [data()] returns. *)
Inductive Value `{Common} : Type :=
| VBool (b : bool)
| VInt (n : Z)
| VFloat (x : float)
| VStr (s : string)
| VAny (v : Any)
| VList (l : list Any)
| VMode (m : OperationMode)
| VModes (l : list OperationMode).

(** [if x is not None: data[key] = x] *)
Definition store_if_not_None `{Common} {A} (key : string) (inj : A -> Value)
    (x : option A) (data : gmap string Value) : gmap string Value :=
  match x with
  | Some v => <[key := inj v]> data
  | None => data
  end.

(** [for key, value in API_AQ_QUALITY_LEVELS.items():
       if aq_quality == key: data[AZD_AQ_QUALITY] = value] *)
Definition store_quality `{Common} `{QualityLevels} (aq_quality : string)
    (data : gmap string Value) : gmap string Value :=
  fold_left
    (fun data '(key, value) =>
       if String.eqb aq_quality key then <[AZD_AQ_QUALITY := VStr value]> data
       else data)
    API_AQ_QUALITY_LEVELS data.

(** ** device.py *)

Module Device.
Section Device.
Context `{Common} `{QualityLevels} `{Builtins}.

(** The attributes of a [Device] object.  [aq_score] holds what [parse_str]
    returned, [errors] and [warnings] hold the raw items of the payload. *)
Record t : Type := {
  air_quality : option ref;
  auto_mode : option OperationMode;
  aq_active : option bool;
  aq_pm_1 : option Z;
  aq_pm_2p5 : option Z;
  aq_pm_10 : option Z;
  aq_co2 : option Z;
  aq_tvoc : option Z;
  aq_humidity : option Z;
  aq_temp : option float;
  aq_present : option bool;
  aq_quality : option string;
  aq_score : option string;
  double_set_point : option bool;
  dual_sp_conf : option bool;
  errors : list Any;
  id : string;
  installation_id : string;
  mode : option OperationMode;
  modes : list OperationMode;
  name : string;
  simulator_mode : option bool;
  warnings : list Any;
  webserver_id : string;
  ws_connected : bool;
  is_connected : bool
}.

(** The object rebuilt from its attributes. *)
Definition eta (s : t) : t :=
  {| air_quality := air_quality s; auto_mode := auto_mode s;
     aq_active := aq_active s; aq_pm_1 := aq_pm_1 s; aq_pm_2p5 := aq_pm_2p5 s;
     aq_pm_10 := aq_pm_10 s; aq_co2 := aq_co2 s; aq_tvoc := aq_tvoc s;
     aq_humidity := aq_humidity s; aq_temp := aq_temp s;
     aq_present := aq_present s; aq_quality := aq_quality s;
     aq_score := aq_score s; double_set_point := double_set_point s;
     dual_sp_conf := dual_sp_conf s; errors := errors s; id := id s;
     installation_id := installation_id s; mode := mode s; modes := modes s;
     name := name s; simulator_mode := simulator_mode s;
     warnings := warnings s; webserver_id := webserver_id s;
     ws_connected := ws_connected s; is_connected := is_connected s |}.

(** [with_x v s]: the object [s] after [self.x = v], built from [eta] by
    putting [v] in the place of [x s]. *)
Ltac make_with proj :=
  let v := fresh "v" in
  let s := fresh "s" in
  intros v s;
  let e := eval cbv delta [eta] beta in (eta s) in
  match eval pattern (proj s) in e with
  | ?F _ => let r := eval cbv beta in (F v) in exact r
  end.

Definition with_air_quality : option ref -> t -> t.
Proof. make_with air_quality. Defined.
Definition with_auto_mode : option OperationMode -> t -> t.
Proof. make_with auto_mode. Defined.
Definition with_aq_active : option bool -> t -> t.
Proof. make_with aq_active. Defined.
Definition with_aq_pm_1 : option Z -> t -> t.
Proof. make_with aq_pm_1. Defined.
Definition with_aq_pm_2p5 : option Z -> t -> t.
Proof. make_with aq_pm_2p5. Defined.
Definition with_aq_pm_10 : option Z -> t -> t.
Proof. make_with aq_pm_10. Defined.
Definition with_aq_co2 : option Z -> t -> t.
Proof. make_with aq_co2. Defined.
Definition with_aq_tvoc : option Z -> t -> t.
Proof. make_with aq_tvoc. Defined.
Definition with_aq_humidity : option Z -> t -> t.
Proof. make_with aq_humidity. Defined.
Definition with_aq_temp : option float -> t -> t.
Proof. make_with aq_temp. Defined.
Definition with_aq_present : option bool -> t -> t.
Proof. make_with aq_present. Defined.
Definition with_aq_quality : option string -> t -> t.
Proof. make_with aq_quality. Defined.
Definition with_aq_score : option string -> t -> t.
Proof. make_with aq_score. Defined.
Definition with_double_set_point : option bool -> t -> t.
Proof. make_with double_set_point. Defined.
Definition with_dual_sp_conf : option bool -> t -> t.
Proof. make_with dual_sp_conf. Defined.
Definition with_errors : list Any -> t -> t.
Proof. make_with errors. Defined.
Definition with_mode : option OperationMode -> t -> t.
Proof. make_with mode. Defined.
Definition with_modes : list OperationMode -> t -> t.
Proof. make_with modes. Defined.
Definition with_name : string -> t -> t.
Proof. make_with name. Defined.
Definition with_simulator_mode : option bool -> t -> t.
Proof. make_with simulator_mode. Defined.
Definition with_warnings : list Any -> t -> t.
Proof. make_with warnings. Defined.
Definition with_ws_connected : bool -> t -> t.
Proof. make_with ws_connected. Defined.
Definition with_is_connected : bool -> t -> t.
Proof. make_with is_connected. Defined.

(** The attribute writes of a [Device]. *)
Inductive is_write : (t -> t) -> Prop :=
| write_air_quality v : is_write (with_air_quality v)
| write_auto_mode v : is_write (with_auto_mode v)
| write_aq_active v : is_write (with_aq_active v)
| write_aq_pm_1 v : is_write (with_aq_pm_1 v)
| write_aq_pm_2p5 v : is_write (with_aq_pm_2p5 v)
| write_aq_pm_10 v : is_write (with_aq_pm_10 v)
| write_aq_co2 v : is_write (with_aq_co2 v)
| write_aq_tvoc v : is_write (with_aq_tvoc v)
| write_aq_humidity v : is_write (with_aq_humidity v)
| write_aq_temp v : is_write (with_aq_temp v)
| write_aq_present v : is_write (with_aq_present v)
| write_aq_quality v : is_write (with_aq_quality v)
| write_aq_score v : is_write (with_aq_score v)
| write_double_set_point v : is_write (with_double_set_point v)
| write_dual_sp_conf v : is_write (with_dual_sp_conf v)
| write_errors v : is_write (with_errors v)
| write_mode v : is_write (with_mode v)
| write_modes v : is_write (with_modes v)
| write_name v : is_write (with_name v)
| write_simulator_mode v : is_write (with_simulator_mode v)
| write_warnings v : is_write (with_warnings v)
| write_ws_connected v : is_write (with_ws_connected v)
| write_is_connected v : is_write (with_is_connected v).

(** The live [AirQuality] objects a [Device] may refer to, seen through the
    attributes they inherit from [Device]. *)
Definition Store : Type := ref -> t.

(** [Device.__init__] *)
Definition init (inst_id ws_id : string) (device_data : Dict) : result t :=
  device_id ← dict_getitem device_data API_DEVICE_ID;
  let is_connected' := parse_bool (dict_get device_data API_IS_CONNECTED) in
  mret
    {| air_quality := None; auto_mode := None; aq_active := None;
       aq_pm_1 := None; aq_pm_2p5 := None; aq_pm_10 := None; aq_co2 := None;
       aq_tvoc := None; aq_humidity := None; aq_temp := None;
       aq_present := None; aq_quality := None; aq_score := None;
       double_set_point := None; dual_sp_conf := None; errors := [];
       id := py_str device_id; installation_id := inst_id; mode := None;
       modes := []; name := "Device"; simulator_mode := None; warnings := [];
       webserver_id := ws_id; ws_connected := true;
       is_connected :=
         match is_connected' with
         | Some is_connected' => is_connected'
         | None => true
         end |}.

(** [Device.sub_data] *)
Definition sub_data (device_data : Dict) : result Any :=
  found ←
    (if dict_contains API_META device_data then
       let meta := py_or_empty_dict (dict_get device_data API_META) in
       c ← py_contains API_SYSTEM_NUMBER meta;
       mret (if c : bool then Some meta else None)
     else mret None);
  match found with
  | Some meta => mret meta
  | None =>
      found ←
        (if dict_contains API_CONFIG device_data then
           let config := py_or_empty_dict (dict_get device_data API_CONFIG) in
           c ← py_contains API_SYSTEM_NUMBER config;
           mret (if c : bool then Some config else None)
         else mret None);
      match found with
      | Some config => mret config
      | None => mret (PDict device_data)
      end
  end.

(** [Device.get_aq_active] *)
Definition get_aq_active (h : Store) : M t (option bool) :=
  air_quality' ← getattr air_quality;
  match air_quality' with
  | Some r => mret (aq_active (h r))
  | None => getattr aq_active
  end.

(** [Device.get_aq_quality] *)
Definition get_aq_quality (h : Store) : M t (option string) :=
  air_quality' ← getattr air_quality;
  match air_quality' with
  | Some r => mret (aq_quality (h r))
  | None => getattr aq_quality
  end.

(** [Device.get_aq_status]: the method calls itself first.  [limit] is the
    interpreter's recursion limit, at which the call raises
    [RecursionError]; [API_AQ_STATUS] is not a name of the module. *)
Fixpoint get_aq_status (limit : nat) : M t (option Z) :=
  match limit with
  | O => lift (Raise RecursionError)
  | S limit' =>
      aq_status ← get_aq_status limit';
      match aq_status with
      | Some _ => lift (Raise NameError)
      | None => mret None
      end
  end.

(** [Device.get_aq_score] *)
Definition get_aq_score (h : Store) : M t (option string) :=
  air_quality' ← getattr air_quality;
  match air_quality' with
  | Some r => mret (aq_score (h r))
  | None => getattr aq_score
  end.

(** [Device.get_aq_pm_1] *)
Definition get_aq_pm_1 (h : Store) : M t (option Z) :=
  air_quality' ← getattr air_quality;
  match air_quality' with
  | Some r => mret (aq_pm_1 (h r))
  | None => getattr aq_pm_1
  end.

(** [Device.get_aq_pm_2p5] *)
Definition get_aq_pm_2p5 (h : Store) : M t (option Z) :=
  air_quality' ← getattr air_quality;
  match air_quality' with
  | Some r => mret (aq_pm_2p5 (h r))
  | None => getattr aq_pm_2p5
  end.

(** [Device.get_aq_pm_10] *)
Definition get_aq_pm_10 (h : Store) : M t (option Z) :=
  air_quality' ← getattr air_quality;
  match air_quality' with
  | Some r => mret (aq_pm_10 (h r))
  | None => getattr aq_pm_10
  end.

(** [Device.get_aq_co2] *)
Definition get_aq_co2 (h : Store) : M t (option Z) :=
  air_quality' ← getattr air_quality;
  match air_quality' with
  | Some r => mret (aq_co2 (h r))
  | None => getattr aq_co2
  end.

(** [Device.get_aq_tvoc] *)
Definition get_aq_tvoc (h : Store) : M t (option Z) :=
  air_quality' ← getattr air_quality;
  match air_quality' with
  | Some r => mret (aq_tvoc (h r))
  | None => getattr aq_tvoc
  end.

(** [Device.get_aq_temp] *)
Definition get_aq_temp (h : Store) : M t (option float) :=
  air_quality' ← getattr air_quality;
  match air_quality' with
  | Some r => mret (aq_temp (h r))
  | None => getattr aq_temp
  end.

(** [Device.get_aq_humidity] *)
Definition get_aq_humidity (h : Store) : M t (option Z) :=
  air_quality' ← getattr air_quality;
  match air_quality' with
  | Some r => mret (aq_humidity (h r))
  | None => getattr aq_humidity
  end.

(** [Device.get_aq_present] *)
Definition get_aq_present (h : Store) : M t (option bool) :=
  air_quality' ← getattr air_quality;
  match air_quality' with
  | Some r => mret (aq_present (h r))
  | None => getattr aq_present
  end.

(** [Device.get_available] *)
Definition get_available : M t bool :=
  is_connected' ← getattr is_connected;
  if is_connected' : bool then getattr ws_connected else mret is_connected'.

(** [Device.get_double_set_point] *)
Definition get_double_set_point : M t bool :=
  double_set_point' ← getattr double_set_point;
  match double_set_point' with
  | Some b => mret b
  | None => mret false
  end.

(** [Device.get_dual_sp_conf] *)
Definition get_dual_sp_conf : M t (option bool) := getattr dual_sp_conf.

(** [Device.get_errors] *)
Definition get_errors : M t (list Any) := getattr errors.

(** [Device.get_id] *)
Definition get_id : M t string := getattr id.

(** [Device.get_installation] *)
Definition get_installation : M t string := getattr installation_id.

(** [Device.get_is_connected] *)
Definition get_is_connected : M t bool := getattr is_connected.

(** [Device.get_mode] *)
Definition get_mode : M t (option OperationMode) := getattr mode.

(** [Device.get_mode_auto] *)
Definition get_mode_auto : M t (option OperationMode) := getattr auto_mode.

(** [Device.get_modes] *)
Definition get_modes : M t (option (list OperationMode)) :=
  modes' ← getattr modes;
  if (0 <? Z.of_nat (length (modes' : list OperationMode)))%Z then mret (Some modes')
  else mret None.

(** [Device.get_name] *)
Definition get_name : M t string := getattr name.

(** [bool(l)] for a list. *)
Definition list_truthy {A} (l : list A) : bool :=
  match l with
  | [] => false
  | _ :: _ => true
  end.

(** [Device.get_problems] *)
Definition get_problems : M t bool :=
  errors' ← getattr errors;
  if list_truthy (errors' : list Any) then mret true
  else warnings' ← getattr warnings; mret (list_truthy warnings').

(** [Device.get_simulator_mode] *)
Definition get_simulator_mode : M t (option bool) := getattr simulator_mode.

(** [Device.get_warnings] *)
Definition get_warnings : M t (list Any) := getattr warnings.

(** [Device.get_webserver] *)
Definition get_webserver : M t string := getattr webserver_id.

(** [Device.get_ws_connected] *)
Definition get_ws_connected : M t bool := getattr ws_connected.

(** [Device.set_air_quality] *)
Definition set_air_quality (air_quality' : ref) : M t unit :=
  setattr with_air_quality (Some air_quality').

(** [Device.set_mode]; the rejected mode is logged. *)
Definition set_mode (mode' : Any + OperationMode) : M t unit :=
  _mode ← lift (OperationMode_of mode');
  modes' ← getattr modes;
  if bool_decide (_mode ∈ modes') then setattr with_mode (Some _mode)
  else mret tt.

(** A dictionary display [{k1: v1, ...}]: the items stored in order. *)
Definition dict_display (items : list (string * Value)) : gmap string Value :=
  fold_left (fun d '(k, v) => <[k := v]> d) items ∅.

(** [Device.data] *)
Definition data (h : Store) : M t (gmap string Value) :=
  available ← get_available;
  double_set_point' ← get_double_set_point;
  id' ← get_id;
  installation ← get_installation;
  is_connected' ← get_is_connected;
  name' ← get_name;
  problems ← get_problems;
  webserver ← get_webserver;
  ws_connected' ← get_ws_connected;
  let data :=
    dict_display
      [ (AZD_AVAILABLE, VBool available);
        (AZD_DOUBLE_SET_POINT, VBool double_set_point');
        (AZD_ID, VStr id');
        (AZD_INSTALLATION, VStr installation);
        (AZD_IS_CONNECTED, VBool is_connected');
        (AZD_NAME, VStr name');
        (AZD_PROBLEMS, VBool problems);
        (AZD_WEBSERVER, VStr webserver);
        (AZD_WS_CONNECTED, VBool ws_connected') ] in

  aq_active' ← get_aq_active h;
  let data := store_if_not_None AZD_AQ_ACTIVE VBool aq_active' data in

  aq_quality' ← get_aq_quality h;
  let data :=
    match aq_quality' with
    | Some aq_quality' => store_quality aq_quality' data
    | None => data
    end in

  aq_score' ← get_aq_score h;
  let data := store_if_not_None AZD_AQ_SCORE VStr aq_score' data in

  aq_pm_1' ← get_aq_pm_1 h;
  let data := store_if_not_None AZD_AQ_PM_1 VInt aq_pm_1' data in

  aq_pm_2p5' ← get_aq_pm_2p5 h;
  let data := store_if_not_None AZD_AQ_PM_2P5 VInt aq_pm_2p5' data in

  aq_pm_10' ← get_aq_pm_10 h;
  let data := store_if_not_None AZD_AQ_PM_10 VInt aq_pm_10' data in

  aq_co2' ← get_aq_co2 h;
  let data := store_if_not_None AZD_AQ_CO2 VInt aq_co2' data in

  aq_tvoc' ← get_aq_tvoc h;
  let data := store_if_not_None AZD_AQ_TVOC VInt aq_tvoc' data in

  aq_humidity' ← get_aq_humidity h;
  let data := store_if_not_None AZD_AQ_HUMIDITY VInt aq_humidity' data in

  aq_temp' ← get_aq_temp h;
  let data := store_if_not_None AZD_AQ_TEMP VFloat aq_temp' data in

  aq_present' ← get_aq_present h;
  let data := store_if_not_None AZD_AQ_PRESENT VBool aq_present' data in

  dual_sp_conf' ← get_dual_sp_conf;
  let data := store_if_not_None AZD_DUAL_SP_CONF VBool dual_sp_conf' data in

  errors' ← get_errors;
  let data :=
    if (0 <? Z.of_nat (length (errors' : list Any)))%Z
    then <[AZD_ERRORS := VList errors']> data else data in

  mode' ← get_mode;
  let data := store_if_not_None AZD_MODE VMode mode' data in

  mode_auto ← get_mode_auto;
  let data := store_if_not_None AZD_MODE_AUTO VMode mode_auto data in

  modes' ← get_modes;
  let data := store_if_not_None AZD_MODES VModes modes' data in

  simulator_mode' ← get_simulator_mode;
  let data := store_if_not_None AZD_SIMULATOR_MODE VBool simulator_mode' data in

  warnings' ← get_warnings;
  let data :=
    if (0 <? Z.of_nat (length (warnings' : list Any)))%Z
    then <[AZD_WARNINGS := VList warnings']> data else data in

  mret data.

(** [Device.update_data] *)
Definition update_data (update : EntityUpdate) : M t unit :=
  let data := get_data update in

  let is_connected' := parse_bool (dict_get data API_IS_CONNECTED) in
  if_not_None is_connected' (setattr with_is_connected) ;;
  let ws_connected' := parse_bool (dict_get data API_WS_CONNECTED) in
  if_not_None ws_connected' (setattr with_ws_connected) ;;

  let aq_active' := parse_bool (dict_get data API_AQ_ACTIVE) in
  if_not_None aq_active' (fun aq_active' => setattr with_aq_active (Some aq_active')) ;;

  let aq_pm_1' := parse_int (dict_get data API_AQ_PM_1) in
  if_not_None aq_pm_1' (fun aq_pm_1' => setattr with_aq_pm_1 (Some aq_pm_1')) ;;

  let aq_pm_2p5' := parse_int (dict_get data API_AQ_PM_2P5) in
  if_not_None aq_pm_2p5' (fun aq_pm_2p5' => setattr with_aq_pm_2p5 (Some aq_pm_2p5')) ;;

  let aq_pm_10' := parse_int (dict_get data API_AQ_PM_10) in
  if_not_None aq_pm_10' (fun aq_pm_10' => setattr with_aq_pm_10 (Some aq_pm_10')) ;;

  let aq_co2' := parse_int (dict_get data API_AQ_CO2) in
  if_not_None aq_co2' (fun aq_co2' => setattr with_aq_co2 (Some aq_co2')) ;;

  let aq_tvoc' := parse_int (dict_get data API_AQ_TVOC) in
  if_not_None aq_tvoc' (fun aq_tvoc' => setattr with_aq_tvoc (Some aq_tvoc')) ;;

  let aq_humidity' := parse_int (dict_get data API_AQ_HUMIDITY) in
  if_not_None aq_humidity' (fun aq_humidity' => setattr with_aq_humidity (Some aq_humidity')) ;;

  let aq_temp' := dict_get data API_AQ_TEMP in
  if_is_not_None aq_temp' (
    celsius ← lift (py_get aq_temp' API_AQ_TEMP_CELSIUS);
    let aq_temp' := parse_float celsius in
    setattr with_aq_temp aq_temp') ;;

  let aq_present' := parse_bool (dict_get data API_AQ_PRESENT) in
  if_not_None aq_present' (fun aq_present' => setattr with_aq_present (Some aq_present')) ;;

  let aq_quality' := parse_str (dict_get data API_AQ_QUALITY) in
  if_not_None aq_quality' (fun aq_quality' => setattr with_aq_quality (Some aq_quality')) ;;

  let aq_score' := parse_str (dict_get data API_AQ_SCORE) in
  if_not_None aq_score' (fun aq_score' => setattr with_aq_score (Some aq_score')) ;;

  let auto_mode' := dict_get data API_AUTO_MODE in
  if_is_not_None auto_mode' (
    member ← lift (OperationMode_of_raw auto_mode');
    setattr with_auto_mode (Some member)) ;;

  let double_set_point' := parse_bool (dict_get data API_DOUBLE_SET_POINT) in
  if_not_None double_set_point'
    (fun double_set_point' => setattr with_double_set_point (Some double_set_point')) ;;

  let dual_sp_conf' := parse_bool (dict_get data API_DUAL_SP_CONF) in
  if_not_None dual_sp_conf' (fun dual_sp_conf' => setattr with_dual_sp_conf (Some dual_sp_conf')) ;;

  let errors' := dict_get data API_ERRORS in
  if_is_not_None errors' (
    setattr with_errors [] ;;
    for_in errors' (fun error =>
      self_errors ← getattr errors; setattr with_errors (self_errors ++ [error]))) ;;

  let mode' := dict_get data API_MODE in
  if_is_not_None mode' (
    member ← lift (OperationMode_of_raw mode');
    setattr with_mode (Some member)) ;;
  let mode_avail := dict_get data API_MODE_AVAIL in
  nonempty ← lift
    (if is_not_None mode_avail
     then n ← py_len mode_avail; mret (0 <? n)%Z
     else mret false);
  when nonempty (
    modes' ← lift
      (items ← py_iter mode_avail;
       fold_result
         (fun modes' mode' => member ← OperationMode_of_raw mode'; mret (modes' ++ [member]))
         [] items);
    setattr with_modes modes') ;;

  let simulator_mode' := parse_bool (dict_get data API_SIMULATOR_MODE) in
  if_not_None simulator_mode'
    (fun simulator_mode' => setattr with_simulator_mode (Some simulator_mode')) ;;

  let warnings' := dict_get data API_WARNINGS in
  if_is_not_None warnings' (
    setattr with_warnings [] ;;
    for_in warnings' (fun warning =>
      self_warnings ← getattr warnings; setattr with_warnings (self_warnings ++ [warning]))).

End Device.
End Device.

(** ** air_quality.py *)

Module AirQuality.
Section AirQuality.
Context `{Common} `{QualityLevels} `{Builtins}.

(** The attributes of an [AirQuality] object: those it inherits from
    [Device], in [base], and its own.  [aq_pressure] holds the raw value of
    the payload, [systems] and [zones] refer to objects by id. *)
Record t : Type := {
  base : Device.t;
  aq_sensor_fw : option string;
  systems : gmap string ref;
  zones : gmap string ref;
  aq_vent_active : option bool;
  aq_pressure : Any;
  system_number : Z;
  zone_number : Z
}.

Definition with_base (v : Device.t) (s : t) : t :=
  {| base := v; aq_sensor_fw := aq_sensor_fw s; systems := systems s;
     zones := zones s; aq_vent_active := aq_vent_active s;
     aq_pressure := aq_pressure s; system_number := system_number s;
     zone_number := zone_number s |}.

Definition with_aq_sensor_fw (v : option string) (s : t) : t :=
  {| base := base s; aq_sensor_fw := v; systems := systems s;
     zones := zones s; aq_vent_active := aq_vent_active s;
     aq_pressure := aq_pressure s; system_number := system_number s;
     zone_number := zone_number s |}.

Definition with_aq_vent_active (v : option bool) (s : t) : t :=
  {| base := base s; aq_sensor_fw := aq_sensor_fw s; systems := systems s;
     zones := zones s; aq_vent_active := v;
     aq_pressure := aq_pressure s; system_number := system_number s;
     zone_number := zone_number s |}.

Definition with_aq_pressure (v : Any) (s : t) : t :=
  {| base := base s; aq_sensor_fw := aq_sensor_fw s; systems := systems s;
     zones := zones s; aq_vent_active := aq_vent_active s;
     aq_pressure := v; system_number := system_number s;
     zone_number := zone_number s |}.

(** [self.x] for an attribute [x] inherited from [Device]. *)
Definition inherited {A} (x : Device.t -> A) (s : t) : A := x (base s).

(** [self.x = v] for an attribute [x] inherited from [Device]. *)
Definition with_inherited {A} (with_x : A -> Device.t -> Device.t) (v : A) (s : t) : t :=
  with_base (with_x v (base s)) s.

(** The attribute writes of an [AirQuality]. *)
Inductive is_write : (t -> t) -> Prop :=
| write_base f : Device.is_write f -> is_write (fun s => with_base (f (base s)) s)
| write_aq_sensor_fw v : is_write (with_aq_sensor_fw v)
| write_aq_vent_active v : is_write (with_aq_vent_active v)
| write_aq_pressure v : is_write (with_aq_pressure v).

(** The live [AirQuality] objects. *)
Definition Store : Type := ref -> t.

(** The store as the methods of [Device] see it. *)
Definition as_devices (h : Store) : Device.Store := fun r => base (h r).

(** [AirQuality.__init__] *)
Definition init (inst_id ws_id : string) (device_data : Dict) : result t :=
  self ← Device.init inst_id ws_id device_data;

  let self := Device.with_aq_pm_1 None self in
  let self := Device.with_aq_pm_2p5 None self in
  let self := Device.with_aq_pm_10 None self in
  let self := Device.with_aq_co2 None self in
  let self := Device.with_aq_tvoc None self in
  let self := Device.with_aq_humidity None self in
  let self := Device.with_aq_temp None self in
  let self := Device.with_aq_present None self in
  let self := Device.with_aq_quality None self in
  let self := Device.with_aq_score None self in

  sub_data ← Device.sub_data device_data;
  system_number_raw ← py_getitem sub_data API_SYSTEM_NUMBER;
  system_number' ← py_int system_number_raw;
  zone_number_raw ← py_getitem sub_data API_ZONE_NUMBER;
  zone_number' ← py_int zone_number_raw;

  let device_name := parse_str (dict_get device_data API_NAME) in
  let name' :=
    match device_name with
    | Some device_name => device_name
    | None =>
        ("Air Quality " ++ format_int system_number' ++ ":" ++ format_int zone_number')%string
    end in
  mret
    {| base := Device.with_name name' self; aq_sensor_fw := None;
       systems := ∅; zones := ∅; aq_vent_active := None; aq_pressure := PNone;
       system_number := system_number'; zone_number := zone_number' |}.

(** [AirQuality.get_aq_vent_active] *)
Definition get_aq_vent_active (h : Store) : M t (option bool) :=
  air_quality' ← getattr (inherited Device.air_quality);
  match air_quality' with
  | Some r => mret (aq_vent_active (h r))
  | None => getattr aq_vent_active
  end.

(** [AirQuality.get_aq_quality] *)
Definition get_aq_quality (h : Store) : M t (option string) :=
  air_quality' ← getattr (inherited Device.air_quality);
  match air_quality' with
  | Some r => mret (inherited Device.aq_quality (h r))
  | None => getattr (inherited Device.aq_quality)
  end.

(** [AirQuality.get_aq_score] *)
Definition get_aq_score (h : Store) : M t (option string) :=
  air_quality' ← getattr (inherited Device.air_quality);
  match air_quality' with
  | Some r => mret (inherited Device.aq_score (h r))
  | None => getattr (inherited Device.aq_score)
  end.

(** [AirQuality.get_aq_pm_1] *)
Definition get_aq_pm_1 (h : Store) : M t (option Z) :=
  air_quality' ← getattr (inherited Device.air_quality);
  match air_quality' with
  | Some r => mret (inherited Device.aq_pm_1 (h r))
  | None => getattr (inherited Device.aq_pm_1)
  end.

(** [AirQuality.get_aq_pm_2p5] *)
Definition get_aq_pm_2p5 (h : Store) : M t (option Z) :=
  air_quality' ← getattr (inherited Device.air_quality);
  match air_quality' with
  | Some r => mret (inherited Device.aq_pm_2p5 (h r))
  | None => getattr (inherited Device.aq_pm_2p5)
  end.

(** [AirQuality.get_aq_pm_10] *)
Definition get_aq_pm_10 (h : Store) : M t (option Z) :=
  air_quality' ← getattr (inherited Device.air_quality);
  match air_quality' with
  | Some r => mret (inherited Device.aq_pm_10 (h r))
  | None => getattr (inherited Device.aq_pm_10)
  end.

(** [AirQuality.get_aq_co2] *)
Definition get_aq_co2 (h : Store) : M t (option Z) :=
  air_quality' ← getattr (inherited Device.air_quality);
  match air_quality' with
  | Some r => mret (inherited Device.aq_co2 (h r))
  | None => getattr (inherited Device.aq_co2)
  end.

(** [AirQuality.get_aq_tvoc] *)
Definition get_aq_tvoc (h : Store) : M t (option Z) :=
  air_quality' ← getattr (inherited Device.air_quality);
  match air_quality' with
  | Some r => mret (inherited Device.aq_tvoc (h r))
  | None => getattr (inherited Device.aq_tvoc)
  end.

(** [AirQuality.get_aq_temp] *)
Definition get_aq_temp (h : Store) : M t (option float) :=
  air_quality' ← getattr (inherited Device.air_quality);
  match air_quality' with
  | Some r => mret (inherited Device.aq_temp (h r))
  | None => getattr (inherited Device.aq_temp)
  end.

(** [AirQuality.get_aq_pressure] *)
Definition get_aq_pressure (h : Store) : M t Any :=
  air_quality' ← getattr (inherited Device.air_quality);
  match air_quality' with
  | Some r => mret (aq_pressure (h r))
  | None => getattr aq_pressure
  end.

(** [AirQuality.get_aq_humidity] *)
Definition get_aq_humidity (h : Store) : M t (option Z) :=
  air_quality' ← getattr (inherited Device.air_quality);
  match air_quality' with
  | Some r => mret (inherited Device.aq_humidity (h r))
  | None => getattr (inherited Device.aq_humidity)
  end.

(** [AirQuality.get_aq_present] *)
Definition get_aq_present (h : Store) : M t (option bool) :=
  air_quality' ← getattr (inherited Device.air_quality);
  match air_quality' with
  | Some r => mret (inherited Device.aq_present (h r))
  | None => getattr (inherited Device.aq_present)
  end.

(** [AirQuality.get_aq_sensor_fw] *)
Definition get_aq_sensor_fw : M t (option string) := getattr aq_sensor_fw.

(** [AirQuality.get_system_num] *)
Definition get_system_num : M t Z := getattr system_number.

(** [AirQuality.get_zone_num] *)
Definition get_zone_num : M t Z := getattr zone_number.

(** [AirQuality.set_param] *)
Definition set_param (param : string) (data : Dict) : M t unit := mret tt.

(** [AirQuality.data].  [super().data()] runs [Device.data] on [self]; the
    getters it calls that [AirQuality] overrides have the bodies of the
    inherited ones. *)
Definition data (h : Store) : M t (gmap string Value) :=
  data ← super base with_base (Device.data (as_devices h));

  aq_vent_active' ← get_aq_vent_active h;
  let data := store_if_not_None AZD_AQ_VENT_ACTIVE VBool aq_vent_active' data in

  aq_quality' ← get_aq_quality h;
  let data :=
    match aq_quality' with
    | Some aq_quality' => store_quality aq_quality' data
    | None => data
    end in

  aq_score' ← get_aq_score h;
  let data := store_if_not_None AZD_AQ_SCORE VStr aq_score' data in

  aq_pm_1' ← get_aq_pm_1 h;
  let data := store_if_not_None AZD_AQ_PM_1 VInt aq_pm_1' data in

  aq_pm_2p5' ← get_aq_pm_2p5 h;
  let data := store_if_not_None AZD_AQ_PM_2P5 VInt aq_pm_2p5' data in

  aq_pm_10' ← get_aq_pm_10 h;
  let data := store_if_not_None AZD_AQ_PM_10 VInt aq_pm_10' data in

  aq_co2' ← get_aq_co2 h;
  let data := store_if_not_None AZD_AQ_CO2 VInt aq_co2' data in

  aq_tvoc' ← get_aq_tvoc h;
  let data := store_if_not_None AZD_AQ_TVOC VInt aq_tvoc' data in

  aq_humidity' ← get_aq_humidity h;
  let data := store_if_not_None AZD_AQ_HUMIDITY VInt aq_humidity' data in

  aq_temp' ← get_aq_temp h;
  let data := store_if_not_None AZD_AQ_TEMP VFloat aq_temp' data in

  aq_pressure' ← get_aq_pressure h;
  let data :=
    if is_not_None aq_pressure' then <[AZD_AQ_PRESSURE := VAny aq_pressure']> data
    else data in

  aq_present' ← get_aq_present h;
  let data := store_if_not_None AZD_AQ_PRESENT VBool aq_present' data in

  system_num ← get_system_num;
  let data := <[AZD_SYSTEM := VInt system_num]> data in
  zone_num ← get_zone_num;
  let data := <[AZD_ZONE := VInt zone_num]> data in

  aq_sensor_fw' ← get_aq_sensor_fw;
  let data := store_if_not_None AZD_FIRMWARE VStr aq_sensor_fw' data in

  mret data.

(** [AirQuality.update_data] *)
Definition update_data (update : EntityUpdate) : M t unit :=
  super base with_base (Device.update_data update) ;;

  let data := get_data update in

  let aq_vent_active' := parse_bool (dict_get data API_AQ_VENT_ACTIVE) in
  if_not_None aq_vent_active'
    (fun aq_vent_active' => setattr with_aq_vent_active (Some aq_vent_active')) ;;

  let aq_pm_1' := parse_int (dict_get data API_AQ_PM_1) in
  if_not_None aq_pm_1'
    (fun aq_pm_1' => setattr (with_inherited Device.with_aq_pm_1) (Some aq_pm_1')) ;;

  let aq_pm_2p5' := parse_int (dict_get data API_AQ_PM_2P5) in
  if_not_None aq_pm_2p5'
    (fun aq_pm_2p5' => setattr (with_inherited Device.with_aq_pm_2p5) (Some aq_pm_2p5')) ;;

  let aq_pm_10' := parse_int (dict_get data API_AQ_PM_10) in
  if_not_None aq_pm_10'
    (fun aq_pm_10' => setattr (with_inherited Device.with_aq_pm_10) (Some aq_pm_10')) ;;

  let aq_co2' := parse_int (dict_get data API_AQ_CO2) in
  if_not_None aq_co2'
    (fun aq_co2' => setattr (with_inherited Device.with_aq_co2) (Some aq_co2')) ;;

  let aq_tvoc' := parse_int (dict_get data API_AQ_TVOC) in
  if_not_None aq_tvoc'
    (fun aq_tvoc' => setattr (with_inherited Device.with_aq_tvoc) (Some aq_tvoc')) ;;

  let aq_humidity' := parse_int (dict_get data API_AQ_HUMIDITY) in
  if_not_None aq_humidity'
    (fun aq_humidity' => setattr (with_inherited Device.with_aq_humidity) (Some aq_humidity')) ;;

  let aq_temp' := dict_get data API_AQ_TEMP in
  if_is_not_None aq_temp' (
    celsius ← lift (py_get aq_temp' API_AQ_TEMP_CELSIUS);
    let aq_temp' := parse_float celsius in
    setattr (with_inherited Device.with_aq_temp) aq_temp') ;;

  let aq_pressure' := dict_get data API_AQ_PRESSURE in
  if_is_not_None aq_pressure' (setattr with_aq_pressure aq_pressure') ;;

  let aq_present' := parse_bool (dict_get data API_AQ_PRESENT) in
  if_not_None aq_present'
    (fun aq_present' => setattr (with_inherited Device.with_aq_present) (Some aq_present')) ;;

  let aq_quality' := parse_str (dict_get data API_AQ_QUALITY) in
  if_not_None aq_quality'
    (fun aq_quality' => setattr (with_inherited Device.with_aq_quality) (Some aq_quality')) ;;

  let aq_score' := parse_str (dict_get data API_AQ_SCORE) in
  if_not_None aq_score'
    (fun aq_score' => setattr (with_inherited Device.with_aq_score) (Some aq_score')) ;;

  let aq_sensor_fw' := parse_str (dict_get data API_AQ_SENSOR_FW) in
  if_not_None aq_sensor_fw'
    (fun aq_sensor_fw' => setattr with_aq_sensor_fw (Some aq_sensor_fw')).


Definition with_systems (v : gmap string ref) (s : t) : t :=
  {| base := base s; aq_sensor_fw := aq_sensor_fw s; systems := v;
     zones := zones s; aq_vent_active := aq_vent_active s;
     aq_pressure := aq_pressure s; system_number := system_number s;
     zone_number := zone_number s |}.

Definition with_zones (v : gmap string ref) (s : t) : t :=
  {| base := base s; aq_sensor_fw := aq_sensor_fw s; systems := systems s;
     zones := v; aq_vent_active := aq_vent_active s;
     aq_pressure := aq_pressure s; system_number := system_number s;
     zone_number := zone_number s |}.

(** [AirQuality.add_system].  Modelled from the spec: [System] is not among
    the sources, a system is "referenced by id"; [system] is a reference to
    the object and [get_id] gives the id the object's [get_id()] returns. *)
Definition add_system (get_id : ref -> string) (system : ref) : M t unit :=
  let system_id := get_id system in
  systems' ← getattr systems;
  match (systems' : gmap string ref) !! system_id with
  | None => setattr with_systems (<[system_id := system]> systems')
  | Some _ => mret tt
  end.

(** [AirQuality.add_zone], with [Zone] as [System] in [add_system]. *)
Definition add_zone (get_id : ref -> string) (zone : ref) : M t unit :=
  let zone_id := get_id zone in
  zones' ← getattr zones;
  match (zones' : gmap string ref) !! zone_id with
  | None => setattr with_zones (<[zone_id := zone]> zones')
  | Some _ => mret tt
  end.

End AirQuality.
End AirQuality.

(** ** Instances for the examples *)

(** Modelled from the spec: the operating modes the spec lists, "stop, auto,
    cooling, heating, fan, dry, ventilation", numbered in that order. *)
Inductive ExampleMode : Type :=
| STOP | AUTO | COOLING | HEATING | FAN | DRY | VENTILATION.

#[global] Instance ExampleMode_eq_dec : EqDecision ExampleMode.
Proof. solve_decision. Defined.

Definition ExampleMode_member (v : Any) : option ExampleMode :=
  match v with
  | PInt 0 => Some STOP
  | PInt 1 => Some AUTO
  | PInt 2 => Some COOLING
  | PInt 3 => Some HEATING
  | PInt 4 => Some FAN
  | PInt 5 => Some DRY
  | PInt 6 => Some VENTILATION
  | _ => None
  end.

(** Modelled from the spec: parsers under which "values that are already the
    target type pass through; compatible representations (e.g., numeric
    string to int) are coerced; anything else yields absent". *)
Definition example_parse_bool (v : Any) : option bool :=
  match v with
  | PBool b => Some b
  | _ => None
  end.

Definition example_parse_int (v : Any) : option Z :=
  match v with
  | PInt n => Some n
  | PStr s => int_of_str s
  | _ => None
  end.

Definition example_parse_float (v : Any) : option float :=
  match v with
  | PFloat x => Some x
  | _ => None
  end.

Definition example_parse_str (v : Any) : option string :=
  match v with
  | PStr s => Some s
  | _ => None
  end.

Definition example_common : Common :=
  {| OperationMode := ExampleMode;
     OperationMode_member := ExampleMode_member;
     parse_bool := example_parse_bool;
     parse_int := example_parse_int;
     parse_float := example_parse_float;
     parse_str := example_parse_str;
     parse_bool_None := eq_refl;
     parse_int_None := eq_refl;
     parse_float_None := eq_refl;
     parse_str_None := eq_refl |}.

(** A table of three quality levels. *)
Definition example_levels : list (string * string) :=
  [("1", "good"); ("2", "regular"); ("3", "bad")].

Lemma example_levels_keys : NoDup (example_levels.*1).
Proof. apply (bool_decide_unpack _). vm_compute. reflexivity. Qed.

Definition example_quality_levels : QualityLevels :=
  {| API_AQ_QUALITY_LEVELS := example_levels;
     API_AQ_QUALITY_LEVELS_keys := example_levels_keys |}.

(** [str] on the scalars whose text is plain; the text of the other values
    is not used. *)
Definition example_py_str (v : Any) : string :=
  match v with
  | PStr s => s
  | PInt n => format_int n
  | PBool true => "True"
  | PBool false => "False"
  | _ => "None"
  end.

Definition example_builtins : Builtins :=
  {| py_str := example_py_str; py_str_str := fun _ => eq_refl |}.

(** * Properties *)

Section Properties.
Context `{Common} `{QualityLevels} `{Builtins}.

(** ** Attribute writes *)

Lemma Device_write_family : write_family Device.is_write.
Proof.
  split.
  - intros f []; intros []; reflexivity.
  - intros f g [] []; intros []; reflexivity.
Qed.

Lemma AirQuality_write_family : write_family AirQuality.is_write.
Proof.
  split.
  - intros f [g Hg| | |]; intros []; try reflexivity.
    unfold AirQuality.with_base; simpl. f_equal.
    apply (write_idem _ Device_write_family g Hg).
  - intros f g [f' Hf| | |] [g' Hg| | |]; intros []; try reflexivity;
      unfold AirQuality.with_base; simpl; f_equal.
    + apply (write_absorb _ Device_write_family f' g' Hf Hg).
    + apply (write_idem _ Device_write_family f' Hf).
    + apply (write_idem _ Device_write_family f' Hf).
    + apply (write_idem _ Device_write_family f' Hf).
Qed.

(** ** [update_data] only overwrites attributes *)

Ltac overwrite_steps :=
  repeat first
    [ apply overwrites_ret
    | apply overwrites_replace_list;
        [ intros ? []; reflexivity | intros ? ? []; reflexivity | intros ?; constructor ]
    | apply overwrites_lift_bind; intros ? _
    | apply overwrites_bind; [| intros _]
    | apply overwrites_if_not_None; intros ? _
    | apply overwrites_if_is_not_None
    | apply overwrites_when
    | apply overwrites_setattr; constructor ].

Lemma Device_update_data_overwrites (update : EntityUpdate) :
  overwrites Device.is_write (Device.update_data update).
Proof. unfold Device.update_data. cbv zeta. overwrite_steps. Qed.

Lemma AirQuality_write_inherited {A} (with_x : A -> Device.t -> Device.t) (v : A) :
  Device.is_write (with_x v) ->
  AirQuality.is_write (AirQuality.with_inherited with_x v).
Proof. intros Hw. exact (AirQuality.write_base _ Hw). Qed.

Lemma AirQuality_update_data_overwrites (update : EntityUpdate) :
  overwrites AirQuality.is_write (AirQuality.update_data update).
Proof.
  unfold AirQuality.update_data. cbv zeta.
  apply overwrites_bind.
  - apply (overwrites_super _ _ Device.is_write).
    + reflexivity.
    + reflexivity.
    + intros []. reflexivity.
    + intros f Hf. exact (AirQuality.write_base f Hf).
    + apply Device_update_data_overwrites.
  - intros _.
    repeat first
      [ apply overwrites_setattr;
          first [ apply AirQuality_write_inherited; constructor | constructor ]
      | apply overwrites_lift_bind; intros ? _
      | apply overwrites_bind; [| intros _]
      | apply overwrites_if_not_None; intros ? _
      | apply overwrites_if_is_not_None ].
Qed.

(** ** Frame reasoning *)

(** A key that is not in the mapping reads as [None]. *)
Lemma dict_get_absent (d : Dict) (k : string) :
  dict_contains k d = false -> dict_get d k = PNone.
Proof.
  induction d as [|[k' v] d IH]; simpl; [reflexivity|].
  destruct (String.eqb k k'); simpl; [discriminate | exact IH].
Qed.

(** Walks a method body whose steps all keep the invariant of the goal.  A
    guarded statement whose guard is known to fail is skipped. *)
Ltac frame_close Hs := first [ exact Hs | exact I | discriminate ].

Ltac frame_step :=
  lazymatch goal with
  | |- hoare _ (mbind _ (lift _)) _ _ =>
      apply hoare_lift_bind;
      [ intros ? ?
      | let Hraise := fresh in let Hs := fresh in
        intros ? ? Hraise Hs; first [ frame_close Hs | cbn in Hraise; congruence ] ]
  | |- hoare ?I (mbind _ _) _ _ => apply (hoare_bind (fun _ => I)); [| intros ?]
  | |- hoare _ (mret _) _ _ =>
      let Hs := fresh in apply hoare_ret; intros ? Hs; frame_close Hs
  | |- hoare _ (setattr _ _) _ _ =>
      let Hs := fresh in apply hoare_setattr; intros ? Hs; frame_close Hs
  | |- hoare _ (getattr _) _ _ =>
      let Hs := fresh in apply hoare_getattr; intros ? Hs; frame_close Hs
  | |- hoare _ (lift ?r) _ _ =>
      let Hs := fresh in
      apply hoare_lift; intros ? Hs;
      first [ solve [cbn; frame_close Hs] | destruct r; frame_close Hs ]
  | |- hoare _ (if_not_None _ _) _ _ =>
      let Hs := fresh in
      apply hoare_if_not_None;
      [ intros ? ?; try congruence | intros _ ? Hs; frame_close Hs ]
  | |- hoare _ (if_is_not_None _ _) _ _ =>
      let Hs := fresh in
      apply hoare_if_is_not_None;
      [ intros ?; try congruence | intros _ ? Hs; frame_close Hs ]
  | |- hoare _ (when ?c _) _ _ =>
      let Hs := fresh in
      let Hc := fresh in
      apply hoare_when;
      [ intros Hc;
        try (subst c;
             match goal with
             | Hl : _ = Ok true |- _ => cbn in Hl; discriminate Hl
             end)
      | intros _ ? Hs; frame_close Hs ]
  | |- hoare _ (for_in _ _) _ _ =>
      let Hs := fresh in
      let Hraise := fresh in
      apply hoare_for_in;
      [ intros ?
      | intros ? ? Hraise Hs; first [ frame_close Hs | cbn in Hraise; congruence ] ]
  end.

Ltac frame := repeat frame_step.

(** What [Device.update_data] leaves alone.  [parsed] is what the field
    parser made of the value under the key of the attribute [attr]. *)
Definition Device_sticky {A B} (update : EntityUpdate) (parsed : option B)
    (attr : Device.t -> A) : Prop :=
  parsed = None ->
  forall s, attr (Device.update_data update s).1 = attr s.

Lemma preserves_fst {S A B} (m : M S A) (attr : S -> B) :
  (forall c, preserves (fun s => attr s = c) m) ->
  forall s, attr (m s).1 = attr s.
Proof.
  intros Hm s. specialize (Hm (attr s) s eq_refl).
  destruct (m s) as [s' [a|e]]; exact Hm.
Qed.

Ltac sticky_device :=
  intros Hnone; apply preserves_fst; intros c;
  unfold preserves, Device.update_data; cbv zeta; frame.

Lemma Device_update_data_sticky (update : EntityUpdate) :
  let data := get_data update in
  Device_sticky update (parse_bool (dict_get data API_IS_CONNECTED)) Device.is_connected /\
  Device_sticky update (parse_bool (dict_get data API_WS_CONNECTED)) Device.ws_connected /\
  Device_sticky update (parse_bool (dict_get data API_AQ_ACTIVE)) Device.aq_active /\
  Device_sticky update (parse_int (dict_get data API_AQ_PM_1)) Device.aq_pm_1 /\
  Device_sticky update (parse_int (dict_get data API_AQ_PM_2P5)) Device.aq_pm_2p5 /\
  Device_sticky update (parse_int (dict_get data API_AQ_PM_10)) Device.aq_pm_10 /\
  Device_sticky update (parse_int (dict_get data API_AQ_CO2)) Device.aq_co2 /\
  Device_sticky update (parse_int (dict_get data API_AQ_TVOC)) Device.aq_tvoc /\
  Device_sticky update (parse_int (dict_get data API_AQ_HUMIDITY)) Device.aq_humidity /\
  Device_sticky update (parse_bool (dict_get data API_AQ_PRESENT)) Device.aq_present /\
  Device_sticky update (parse_str (dict_get data API_AQ_QUALITY)) Device.aq_quality /\
  Device_sticky update (parse_str (dict_get data API_AQ_SCORE)) Device.aq_score /\
  Device_sticky update (parse_bool (dict_get data API_DOUBLE_SET_POINT)) Device.double_set_point /\
  Device_sticky update (parse_bool (dict_get data API_DUAL_SP_CONF)) Device.dual_sp_conf /\
  Device_sticky update (parse_bool (dict_get data API_SIMULATOR_MODE)) Device.simulator_mode.
Proof.
  cbv zeta. repeat split; sticky_device.
Qed.

(** ** What a returning [update_data] has merged *)

Lemma hoare_run {S A} (P : S -> Prop) (m : M S A) Q E s s' a :
  hoare P m Q E -> P s -> m s = (s', Ok a) -> Q a s'.
Proof. intros Hm Hs Hrun. specialize (Hm s Hs). rewrite Hrun in Hm. exact Hm. Qed.

(** A guarded assignment of a parsed value. *)
Lemma hoare_assign_parsed {S A B} (attr : S -> A) (with_attr : A -> S -> S)
    (inj : B -> A) (parsed : option B) (a : A) E :
  (forall v s, attr (with_attr v s) = v) ->
  hoare (fun s => attr s = a)
    (if_not_None parsed (fun v => setattr with_attr (inj v)))
    (fun _ s => attr s = match parsed with Some v => inj v | None => a end) E.
Proof.
  intros Hgs. apply hoare_if_not_None.
  - intros v ->. apply hoare_setattr. intros s _. apply Hgs.
  - intros ->. intros s Hs. exact Hs.
Qed.

(** Walks a method body: a step that [own] proves is taken with what it
    establishes, the other steps must keep the current assertion. *)
Ltac walk own :=
  repeat lazymatch goal with
  | |- hoare _ (mbind _ (lift _)) _ _ => frame_step
  | |- hoare ?P (mbind _ _) _ _ =>
      first [ eapply hoare_bind; [ solve [own] | intros ? ]
            | apply (hoare_bind (fun _ => P)); [ solve [repeat frame_step] | intros ? ] ]
  | |- hoare _ _ _ _ => first [ solve [own] | solve [repeat frame_step] ]
  end.

(** What [Device.update_data] makes of an attribute with a field parser when
    it returns: the parsed value when there is one, the old value
    otherwise. *)
Definition Device_merges {A B} (update : EntityUpdate) (parsed : option B)
    (inj : B -> A) (attr : Device.t -> A) : Prop :=
  forall a,
    hoare (fun s => attr s = a) (Device.update_data update)
      (fun _ s' => attr s' = match parsed with Some v => inj v | None => a end)
      (fun _ _ => True).

Ltac merges_device :=
  intros ?; unfold Device.update_data; cbv zeta;
  walk ltac:(first
    [ apply (hoare_assign_parsed _ _ (fun v => v)); intros ? []; reflexivity
    | apply (hoare_assign_parsed _ _ Some); intros ? []; reflexivity ]).

Lemma Device_update_data_merges (update : EntityUpdate) :
  let data := get_data update in
  Device_merges update (parse_bool (dict_get data API_IS_CONNECTED)) id Device.is_connected /\
  Device_merges update (parse_bool (dict_get data API_WS_CONNECTED)) id Device.ws_connected /\
  Device_merges update (parse_bool (dict_get data API_AQ_ACTIVE)) Some Device.aq_active /\
  Device_merges update (parse_int (dict_get data API_AQ_PM_1)) Some Device.aq_pm_1 /\
  Device_merges update (parse_int (dict_get data API_AQ_PM_2P5)) Some Device.aq_pm_2p5 /\
  Device_merges update (parse_int (dict_get data API_AQ_PM_10)) Some Device.aq_pm_10 /\
  Device_merges update (parse_int (dict_get data API_AQ_CO2)) Some Device.aq_co2 /\
  Device_merges update (parse_int (dict_get data API_AQ_TVOC)) Some Device.aq_tvoc /\
  Device_merges update (parse_int (dict_get data API_AQ_HUMIDITY)) Some Device.aq_humidity /\
  Device_merges update (parse_bool (dict_get data API_AQ_PRESENT)) Some Device.aq_present /\
  Device_merges update (parse_str (dict_get data API_AQ_QUALITY)) Some Device.aq_quality /\
  Device_merges update (parse_str (dict_get data API_AQ_SCORE)) Some Device.aq_score /\
  Device_merges update (parse_bool (dict_get data API_DOUBLE_SET_POINT)) Some Device.double_set_point /\
  Device_merges update (parse_bool (dict_get data API_DUAL_SP_CONF)) Some Device.dual_sp_conf /\
  Device_merges update (parse_bool (dict_get data API_SIMULATOR_MODE)) Some Device.simulator_mode.
Proof.
  cbv zeta. repeat split; merges_device.
Qed.

(** ** List attributes *)

(** Clearing a list attribute and appending the items of [v] leaves the
    items of [v] in the attribute. *)
Lemma replace_list_run {S} (get : S -> list Any) (set : list Any -> S -> S)
    (v : Any) (l : list Any) :
  (forall a s, get (set a s) = a) ->
  (forall a b s, set a (set b s) = set a s) ->
  py_iter v = Ok l ->
  forall s,
    (setattr set [] ;;
     for_in v (fun x => es ← getattr get; setattr set (es ++ [x]))) s
    = (set l s, Ok tt).
Proof.
  intros Hgs Hss Hv s.
  unfold mbind at 1, M_bind at 1, setattr at 1, for_in.
  unfold mbind at 1, M_bind at 1, lift. rewrite Hv.
  apply (for_each_append get set Hgs Hss l [] s).
Qed.

Lemma hoare_replace_list {S} (get : S -> list Any) (set : list Any -> S -> S)
    (l : list Any) (P : S -> Prop) E :
  (forall a s, get (set a s) = a) ->
  (forall a b s, set a (set b s) = set a s) ->
  hoare P
    (if_is_not_None (PList l)
       (setattr set [] ;;
        for_in (PList l) (fun x => es ← getattr get; setattr set (es ++ [x]))))
    (fun _ s => get s = l) E.
Proof.
  intros Hgs Hss s _. unfold if_is_not_None, when. simpl is_not_None. cbv iota.
  rewrite (replace_list_run get set (PList l) l Hgs Hss eq_refl). apply Hgs.
Qed.

(** The loop that collects the available modes: it returns the members the
    items denote, and raises as soon as an item denotes none. *)
Lemma collect_modes_Ok (l : list Any) (acc r : list OperationMode) :
  fold_result
    (fun modes' mode' => member ← OperationMode_of_raw mode'; mret (modes' ++ [member]))
    acc l = Ok r ->
  exists ms, mapM OperationMode_member l = Some ms /\ r = acc ++ ms.
Proof.
  revert acc. induction l as [|x l IH]; intros acc; simpl.
  - intros [= <-]. exists []. rewrite app_nil_r. split; reflexivity.
  - unfold OperationMode_of_raw. unfold mbind at 1, result_bind at 1.
    destruct (OperationMode_member x) as [m|]; simpl; [|discriminate].
    intros Hr. destruct (IH _ Hr) as (ms & Hms & ->).
    exists (m :: ms). rewrite Hms. simpl. rewrite <- app_assoc. split; reflexivity.
Qed.

Lemma collect_modes_mapM (l : list Any) (acc ms : list OperationMode) :
  mapM OperationMode_member l = Some ms ->
  fold_result
    (fun modes' mode' => member ← OperationMode_of_raw mode'; mret (modes' ++ [member]))
    acc l = Ok (acc ++ ms).
Proof.
  revert acc ms. induction l as [|x l IH]; intros acc ms; simpl.
  - intros [= <-]. rewrite app_nil_r. reflexivity.
  - unfold OperationMode_of_raw. unfold mbind at 2, result_bind at 1.
    destruct (OperationMode_member x) as [m|]; simpl; [|discriminate].
    destruct (mapM OperationMode_member l) as [ms'|] eqn:Hms; simpl; [|discriminate].
    intros [= <-]. rewrite (IH _ ms' eq_refl), <- app_assoc. reflexivity.
Qed.

(** The available modes after the update, given the list [l] under the key:
    unchanged for an empty list, the members the items denote otherwise. *)
Definition modes_after (l : list Any) (before after : list OperationMode) : Prop :=
  match l with
  | [] => after = before
  | _ :: _ => mapM OperationMode_member l = Some after
  end.

Lemma hoare_replace_modes (l : list Any) (nonempty : bool) (a : list OperationMode) :
  (if is_not_None (PList l)
   then n ← py_len (PList l); mret (0 <? n)%Z
   else mret false) = Ok nonempty ->
  hoare (fun s => Device.modes s = a)
    (when nonempty
       (modes' ← lift
          (items ← py_iter (PList l);
           fold_result
             (fun modes' mode' =>
                member ← OperationMode_of_raw mode'; mret (modes' ++ [member]))
             [] items);
        setattr Device.with_modes modes'))
    (fun _ s => modes_after l a (Device.modes s))
    (fun _ _ => True).
Proof.
  intros Hne. destruct l as [|x l]; cbn in Hne; injection Hne as <-;
    unfold when; cbv iota.
  - apply hoare_ret. intros s Hs. exact Hs.
  - apply hoare_lift_bind; [|intros; exact I].
    intros r Hr.
    destruct (collect_modes_Ok (x :: l) [] r Hr) as (ms & Hms & ->).
    apply hoare_setattr. intros s _. exact Hms.
Qed.

Lemma Device_replaces_errors (update : EntityUpdate) (l : list Any) :
  dict_get (get_data update) API_ERRORS = PList l ->
  hoare (fun _ => True) (Device.update_data update)
    (fun _ s => Device.errors s = l) (fun _ _ => True).
Proof.
  intros Hv. unfold Device.update_data. cbv zeta. rewrite Hv.
  walk ltac:(apply (hoare_replace_list Device.errors Device.with_errors);
             [ intros ? []; reflexivity | intros ? ? []; reflexivity ]).
Qed.

Lemma Device_replaces_warnings (update : EntityUpdate) (l : list Any) :
  dict_get (get_data update) API_WARNINGS = PList l ->
  hoare (fun _ => True) (Device.update_data update)
    (fun _ s => Device.warnings s = l) (fun _ _ => True).
Proof.
  intros Hv. unfold Device.update_data. cbv zeta. rewrite Hv.
  walk ltac:(apply (hoare_replace_list Device.warnings Device.with_warnings);
             [ intros ? []; reflexivity | intros ? ? []; reflexivity ]).
Qed.

Lemma Device_replaces_modes (update : EntityUpdate) (l : list Any)
    (a : list OperationMode) :
  dict_get (get_data update) API_MODE_AVAIL = PList l ->
  hoare (fun s => Device.modes s = a) (Device.update_data update)
    (fun _ s => modes_after l a (Device.modes s)) (fun _ _ => True).
Proof.
  intros Hv. unfold Device.update_data. cbv zeta. rewrite Hv.
  walk ltac:(apply hoare_replace_modes; eassumption).
Qed.

(** A list attribute whose key reads as [None] is kept, whether the update
    returns or raises. *)
Lemma Device_keeps_errors (update : EntityUpdate) (c : list Any) :
  dict_get (get_data update) API_ERRORS = PNone ->
  preserves (fun s => Device.errors s = c) (Device.update_data update).
Proof.
  intros Hv. unfold preserves, Device.update_data. cbv zeta. rewrite Hv.
  repeat frame_step.
Qed.

Lemma Device_keeps_warnings (update : EntityUpdate) (c : list Any) :
  dict_get (get_data update) API_WARNINGS = PNone ->
  preserves (fun s => Device.warnings s = c) (Device.update_data update).
Proof.
  intros Hv. unfold preserves, Device.update_data. cbv zeta. rewrite Hv.
  repeat frame_step.
Qed.

Lemma Device_keeps_modes (update : EntityUpdate) (c : list OperationMode) :
  dict_get (get_data update) API_MODE_AVAIL = PNone ->
  preserves (fun s => Device.modes s = c) (Device.update_data update).
Proof.
  intros Hv. unfold preserves, Device.update_data. cbv zeta. rewrite Hv.
  walk ltac:(idtac;
             match goal with
             | Hl : _ = Ok ?b |- hoare _ (when ?b _) _ _ =>
                 cbn in Hl; injection Hl as <-; apply hoare_ret;
                 let Hs := fresh in intros ? Hs; exact Hs
             end).
Qed.

(** ** When [update_data] returns *)

(** The values [update_data] does not hand to a field parser, in the shape
    the code expects: the temperature is a mapping, the current and the
    automatic mode denote members, the errors and the warnings are lists, the
    available modes are a list of values that denote members; each may be
    missing or [None]. *)
Definition mapping_or_None (v : Any) : Prop :=
  v = PNone \/ exists d, v = PDict d.

Definition mode_or_None (v : Any) : Prop :=
  v = PNone \/ exists m, OperationMode_member v = Some m.

Definition list_or_None (v : Any) : Prop :=
  v = PNone \/ exists l, v = PList l.

Definition modes_or_None (v : Any) : Prop :=
  v = PNone \/ exists l ms, v = PList l /\ mapM OperationMode_member l = Some ms.

Record well_shaped (data : Dict) : Prop := {
  shape_aq_temp : mapping_or_None (dict_get data API_AQ_TEMP);
  shape_auto_mode : mode_or_None (dict_get data API_AUTO_MODE);
  shape_errors : list_or_None (dict_get data API_ERRORS);
  shape_mode : mode_or_None (dict_get data API_MODE);
  shape_mode_avail : modes_or_None (dict_get data API_MODE_AVAIL);
  shape_warnings : list_or_None (dict_get data API_WARNINGS)
}.

Lemma OperationMode_of_raw_member (v : Any) (m : OperationMode) :
  OperationMode_member v = Some m -> OperationMode_of_raw v = Ok m.
Proof. intros Hm. unfold OperationMode_of_raw. rewrite Hm. reflexivity. Qed.

Lemma collect_modes_list (l : list Any) (ms : list OperationMode) :
  mapM OperationMode_member l = Some ms ->
  (items ← py_iter (PList l);
   fold_result
     (fun modes' mode' => member ← OperationMode_of_raw mode'; mret (modes' ++ [member]))
     [] items) = Ok ms.
Proof. intros Hms. exact (collect_modes_mapM l [] ms Hms). Qed.

(** The method returns. *)
Definition returns {S} (m : M S unit) : Prop :=
  hoare (fun _ => True) m (fun _ _ => True) (fun _ _ => False).

Lemma returns_run {S} (m : M S unit) (s : S) :
  returns m -> exists s', m s = (s', Ok tt).
Proof.
  intros Hm. specialize (Hm s I). destruct (m s) as [s' [[]|e]]; [|destruct Hm].
  exists s'. reflexivity.
Qed.

Lemma Device_update_data_returns (update : EntityUpdate) :
  well_shaped (get_data update) -> returns (Device.update_data update).
Proof.
  intros [Htemp Hauto Herrors Hmode Havail Hwarnings].
  unfold returns, Device.update_data. cbv zeta.
  destruct Htemp as [-> | [d ->]];
  (destruct Hauto as [-> | [m1 Hm1%OperationMode_of_raw_member]];
     [| rewrite Hm1]);
  (destruct Herrors as [-> | [l1 ->]]);
  (destruct Hmode as [-> | [m2 Hm2%OperationMode_of_raw_member]];
     [| rewrite Hm2]);
  (destruct Havail as [-> | (l2 & ms & -> & Hms%collect_modes_list)];
     [| rewrite Hms]);
  (destruct Hwarnings as [-> | [l3 ->]]);
  repeat frame_step.
Qed.

(** ** The same for [AirQuality.update_data] *)

(** A triple of a base method is a triple of the derived object's base
    attributes. *)
Lemma hoare_super_base {S T A} (get : T -> S) (set : S -> T -> T) (m : M S A)
    (P : S -> Prop) Q E :
  (forall s t, get (set s t) = s) ->
  hoare P m Q E ->
  hoare (fun t => P (get t)) (super get set m)
    (fun a t' => Q a (get t')) (fun e t' => E e (get t')).
Proof.
  intros Hgs Hm. apply hoare_super. intros t Ht.
  apply (hoare_conseq _ P m _ Q _ E Hm).
  - intros s ->. exact Ht.
  - intros a s Hq. rewrite Hgs. exact Hq.
  - intros e s He. rewrite Hgs. exact He.
Qed.

(** A base method leaves the attributes of the derived class alone. *)
Lemma preserves_super_own {S T A B} (get : T -> S) (set : S -> T -> T) (m : M S A)
    (attr : T -> B) (c : B) :
  (forall s t, attr (set s t) = attr t) ->
  preserves (fun t => attr t = c) (super get set m).
Proof.
  intros Hset. apply hoare_super. intros t Ht s _.
  destruct (m s) as [s' [a|e]]; rewrite Hset; exact Ht.
Qed.

Lemma fst_preserves {S A B} (m : M S A) (attr : S -> B) (c : B) :
  (forall s, attr (m s).1 = attr s) -> preserves (fun s => attr s = c) m.
Proof.
  intros Hm s Hs. specialize (Hm s). destruct (m s) as [s' [a|e]]; simpl in Hm; congruence.
Qed.

Lemma AirQuality_base_with_base (s : Device.t) (t : AirQuality.t) :
  AirQuality.base (AirQuality.with_base s t) = s.
Proof. reflexivity. Qed.

(** What [AirQuality.update_data] leaves alone. *)
Definition AirQuality_sticky {A B} (update : EntityUpdate) (parsed : option B)
    (attr : AirQuality.t -> A) : Prop :=
  parsed = None ->
  forall s, attr (AirQuality.update_data update s).1 = attr s.

Lemma preserves_super_inherited {A} (x : Device.t -> A) (c : A) (m : M Device.t unit) :
  preserves (fun s => x s = c) m ->
  preserves (fun t => AirQuality.inherited x t = c)
    (super AirQuality.base AirQuality.with_base m).
Proof.
  intros Hm.
  exact (hoare_super_base AirQuality.base AirQuality.with_base m
           (fun s => x s = c) (fun _ s => x s = c) (fun _ s => x s = c)
           AirQuality_base_with_base Hm).
Qed.

(** Finds, among the attributes [Device.update_data] leaves alone, the one
    of the goal. *)
Ltac device_sticky Hnone :=
  lazymatch goal with
  | |- forall s, _ (Device.update_data ?u s).1 = _ =>
      let Hd := fresh in
      pose proof (Device_update_data_sticky u) as Hd; cbv zeta in Hd;
      repeat (let H' := fresh in destruct Hd as [H' Hd]);
      match goal with Hi : Device_sticky _ _ _ |- _ => exact (Hi Hnone) end
  end.

Ltac sticky_air_quality :=
  let Hnone := fresh in
  intros Hnone; apply preserves_fst; intros ?;
  unfold preserves, AirQuality.update_data; cbv zeta;
  frame_step;
  [ first
      [ apply preserves_super_own; reflexivity
      | apply preserves_super_inherited; apply fst_preserves; device_sticky Hnone ]
  | repeat frame_step ].

Lemma AirQuality_update_data_sticky (update : EntityUpdate) :
  let data := get_data update in
  AirQuality_sticky update (parse_bool (dict_get data API_IS_CONNECTED))
    (AirQuality.inherited Device.is_connected) /\
  AirQuality_sticky update (parse_bool (dict_get data API_WS_CONNECTED))
    (AirQuality.inherited Device.ws_connected) /\
  AirQuality_sticky update (parse_bool (dict_get data API_AQ_ACTIVE))
    (AirQuality.inherited Device.aq_active) /\
  AirQuality_sticky update (parse_int (dict_get data API_AQ_PM_1))
    (AirQuality.inherited Device.aq_pm_1) /\
  AirQuality_sticky update (parse_int (dict_get data API_AQ_PM_2P5))
    (AirQuality.inherited Device.aq_pm_2p5) /\
  AirQuality_sticky update (parse_int (dict_get data API_AQ_PM_10))
    (AirQuality.inherited Device.aq_pm_10) /\
  AirQuality_sticky update (parse_int (dict_get data API_AQ_CO2))
    (AirQuality.inherited Device.aq_co2) /\
  AirQuality_sticky update (parse_int (dict_get data API_AQ_TVOC))
    (AirQuality.inherited Device.aq_tvoc) /\
  AirQuality_sticky update (parse_int (dict_get data API_AQ_HUMIDITY))
    (AirQuality.inherited Device.aq_humidity) /\
  AirQuality_sticky update (parse_bool (dict_get data API_AQ_PRESENT))
    (AirQuality.inherited Device.aq_present) /\
  AirQuality_sticky update (parse_str (dict_get data API_AQ_QUALITY))
    (AirQuality.inherited Device.aq_quality) /\
  AirQuality_sticky update (parse_str (dict_get data API_AQ_SCORE))
    (AirQuality.inherited Device.aq_score) /\
  AirQuality_sticky update (parse_bool (dict_get data API_DOUBLE_SET_POINT))
    (AirQuality.inherited Device.double_set_point) /\
  AirQuality_sticky update (parse_bool (dict_get data API_DUAL_SP_CONF))
    (AirQuality.inherited Device.dual_sp_conf) /\
  AirQuality_sticky update (parse_bool (dict_get data API_SIMULATOR_MODE))
    (AirQuality.inherited Device.simulator_mode) /\
  AirQuality_sticky update (parse_bool (dict_get data API_AQ_VENT_ACTIVE))
    AirQuality.aq_vent_active /\
  AirQuality_sticky update (parse_str (dict_get data API_AQ_SENSOR_FW))
    AirQuality.aq_sensor_fw.
Proof.
  cbv zeta. repeat split; sticky_air_quality.
Qed.

(** What [AirQuality.update_data] makes of an attribute with a field parser
    when it returns. *)
Definition AirQuality_merges {A B} (update : EntityUpdate) (parsed : option B)
    (inj : B -> A) (attr : AirQuality.t -> A) : Prop :=
  forall a,
    hoare (fun t => attr t = a) (AirQuality.update_data update)
      (fun _ t' => attr t' = match parsed with Some v => inj v | None => a end)
      (fun _ _ => True).

Lemma super_own_keeps {S T A B} (get : T -> S) (set : S -> T -> T) (m : M S A)
    (attr : T -> B) (c : B) :
  (forall s t, attr (set s t) = attr t) ->
  hoare (fun t => attr t = c) (super get set m)
    (fun _ t => attr t = c) (fun _ _ => True).
Proof.
  intros Hset.
  apply (hoare_conseq _ _ _ _ _ _ _ (preserves_super_own get set m attr c Hset)); auto.
Qed.

Lemma super_inherited_merges {A} (x : Device.t -> A) (m : M Device.t unit) (a b : A) :
  hoare (fun s => x s = a) m (fun _ s' => x s' = b) (fun _ _ => True) ->
  hoare (fun t => AirQuality.inherited x t = a)
    (super AirQuality.base AirQuality.with_base m)
    (fun _ t' => AirQuality.inherited x t' = b) (fun _ _ => True).
Proof.
  intros Hm.
  exact (hoare_super_base AirQuality.base AirQuality.with_base m
           (fun s => x s = a) (fun _ s => x s = b) (fun _ _ => True)
           AirQuality_base_with_base Hm).
Qed.

(** Assigning the parsed value a second time changes nothing. *)
Lemma hoare_assign_parsed_again {S A B} (attr : S -> A) (with_attr : A -> S -> S)
    (inj : B -> A) (parsed : option B) (a : A) E :
  (forall v s, attr (with_attr v s) = v) ->
  hoare (fun s => attr s = match parsed with Some v => inj v | None => a end)
    (if_not_None parsed (fun v => setattr with_attr (inj v)))
    (fun _ s => attr s = match parsed with Some v => inj v | None => a end) E.
Proof.
  intros Hgs. apply hoare_if_not_None.
  - intros v ->. apply hoare_setattr. intros s _. apply Hgs.
  - intros ->. intros s Hs. exact Hs.
Qed.

(** Finds, among the attributes [Device.update_data] merges, the one of the
    goal. *)
Ltac device_merges :=
  lazymatch goal with
  | |- hoare _ (Device.update_data ?u) _ _ =>
      let Hd := fresh in
      pose proof (Device_update_data_merges u) as Hd; cbv zeta in Hd;
      repeat (let H' := fresh in destruct Hd as [H' Hd]);
      match goal with Hi : Device_merges _ _ _ _ |- _ => exact (Hi _) end
  end.

Ltac merges_air_quality :=
  intros ?; unfold AirQuality.update_data; cbv zeta;
  eapply hoare_bind;
  [ first
      [ apply super_own_keeps; reflexivity
      | apply super_inherited_merges; device_merges ]
  | intros ?;
    walk ltac:(first
      [ apply (hoare_assign_parsed_again _ _ Some); intros ? []; reflexivity
      | apply (hoare_assign_parsed _ _ Some); intros ? []; reflexivity ]) ].

Lemma AirQuality_update_data_merges (update : EntityUpdate) :
  let data := get_data update in
  AirQuality_merges update (parse_bool (dict_get data API_IS_CONNECTED)) id
    (AirQuality.inherited Device.is_connected) /\
  AirQuality_merges update (parse_bool (dict_get data API_WS_CONNECTED)) id
    (AirQuality.inherited Device.ws_connected) /\
  AirQuality_merges update (parse_bool (dict_get data API_AQ_ACTIVE)) Some
    (AirQuality.inherited Device.aq_active) /\
  AirQuality_merges update (parse_int (dict_get data API_AQ_PM_1)) Some
    (AirQuality.inherited Device.aq_pm_1) /\
  AirQuality_merges update (parse_int (dict_get data API_AQ_PM_2P5)) Some
    (AirQuality.inherited Device.aq_pm_2p5) /\
  AirQuality_merges update (parse_int (dict_get data API_AQ_PM_10)) Some
    (AirQuality.inherited Device.aq_pm_10) /\
  AirQuality_merges update (parse_int (dict_get data API_AQ_CO2)) Some
    (AirQuality.inherited Device.aq_co2) /\
  AirQuality_merges update (parse_int (dict_get data API_AQ_TVOC)) Some
    (AirQuality.inherited Device.aq_tvoc) /\
  AirQuality_merges update (parse_int (dict_get data API_AQ_HUMIDITY)) Some
    (AirQuality.inherited Device.aq_humidity) /\
  AirQuality_merges update (parse_bool (dict_get data API_AQ_PRESENT)) Some
    (AirQuality.inherited Device.aq_present) /\
  AirQuality_merges update (parse_str (dict_get data API_AQ_QUALITY)) Some
    (AirQuality.inherited Device.aq_quality) /\
  AirQuality_merges update (parse_str (dict_get data API_AQ_SCORE)) Some
    (AirQuality.inherited Device.aq_score) /\
  AirQuality_merges update (parse_bool (dict_get data API_DOUBLE_SET_POINT)) Some
    (AirQuality.inherited Device.double_set_point) /\
  AirQuality_merges update (parse_bool (dict_get data API_DUAL_SP_CONF)) Some
    (AirQuality.inherited Device.dual_sp_conf) /\
  AirQuality_merges update (parse_bool (dict_get data API_SIMULATOR_MODE)) Some
    (AirQuality.inherited Device.simulator_mode) /\
  AirQuality_merges update (parse_bool (dict_get data API_AQ_VENT_ACTIVE)) Some
    AirQuality.aq_vent_active /\
  AirQuality_merges update (parse_str (dict_get data API_AQ_SENSOR_FW)) Some
    AirQuality.aq_sensor_fw.
Proof.
  cbv zeta. repeat split; merges_air_quality.
Qed.

Lemma AirQuality_update_data_returns (update : EntityUpdate) :
  well_shaped (get_data update) -> returns (AirQuality.update_data update).
Proof.
  intros Hshape. pose proof (Device_update_data_returns update Hshape) as Hd.
  destruct Hshape as [Htemp _ _ _ _ _].
  unfold returns, AirQuality.update_data. cbv zeta.
  apply (hoare_bind (fun _ _ => True)).
  - exact (hoare_super_base AirQuality.base AirQuality.with_base _
             (fun _ => True) (fun _ _ => True) (fun _ _ => False)
             AirQuality_base_with_base Hd).
  - intros _. destruct Htemp as [-> | [d ->]]; repeat frame_step.
Qed.

(** ** Getters *)

(** The getter reads through the associated [AirQuality] object when there
    is one and the object's own attribute otherwise, and leaves the object as
    it was. *)
Definition delegates {S A} (air_quality : S -> option ref) (remote : ref -> A)
    (local : S -> A) (getter : M S A) : Prop :=
  forall s,
    getter s =
    (s, Ok match air_quality s with
           | Some r => remote r
           | None => local s
           end).

Ltac delegation :=
  let s := fresh "s" in
  intros s; cbv -[Device.air_quality AirQuality.base];
  destruct (Device.air_quality _); reflexivity.

Lemma Device_get_aq_active_delegates (h : Device.Store) :
  delegates Device.air_quality (fun r => Device.aq_active (h r)) Device.aq_active
    (Device.get_aq_active h).
Proof. delegation. Qed.

Lemma Device_get_aq_quality_delegates (h : Device.Store) :
  delegates Device.air_quality (fun r => Device.aq_quality (h r)) Device.aq_quality
    (Device.get_aq_quality h).
Proof. delegation. Qed.

Lemma Device_get_aq_score_delegates (h : Device.Store) :
  delegates Device.air_quality (fun r => Device.aq_score (h r)) Device.aq_score
    (Device.get_aq_score h).
Proof. delegation. Qed.

Lemma Device_get_aq_pm_1_delegates (h : Device.Store) :
  delegates Device.air_quality (fun r => Device.aq_pm_1 (h r)) Device.aq_pm_1
    (Device.get_aq_pm_1 h).
Proof. delegation. Qed.

Lemma Device_get_aq_pm_2p5_delegates (h : Device.Store) :
  delegates Device.air_quality (fun r => Device.aq_pm_2p5 (h r)) Device.aq_pm_2p5
    (Device.get_aq_pm_2p5 h).
Proof. delegation. Qed.

Lemma Device_get_aq_pm_10_delegates (h : Device.Store) :
  delegates Device.air_quality (fun r => Device.aq_pm_10 (h r)) Device.aq_pm_10
    (Device.get_aq_pm_10 h).
Proof. delegation. Qed.

Lemma Device_get_aq_co2_delegates (h : Device.Store) :
  delegates Device.air_quality (fun r => Device.aq_co2 (h r)) Device.aq_co2
    (Device.get_aq_co2 h).
Proof. delegation. Qed.

Lemma Device_get_aq_tvoc_delegates (h : Device.Store) :
  delegates Device.air_quality (fun r => Device.aq_tvoc (h r)) Device.aq_tvoc
    (Device.get_aq_tvoc h).
Proof. delegation. Qed.

Lemma Device_get_aq_temp_delegates (h : Device.Store) :
  delegates Device.air_quality (fun r => Device.aq_temp (h r)) Device.aq_temp
    (Device.get_aq_temp h).
Proof. delegation. Qed.

Lemma Device_get_aq_humidity_delegates (h : Device.Store) :
  delegates Device.air_quality (fun r => Device.aq_humidity (h r)) Device.aq_humidity
    (Device.get_aq_humidity h).
Proof. delegation. Qed.

Lemma Device_get_aq_present_delegates (h : Device.Store) :
  delegates Device.air_quality (fun r => Device.aq_present (h r)) Device.aq_present
    (Device.get_aq_present h).
Proof. delegation. Qed.

(** The getters [AirQuality] overrides have the bodies of the inherited
    ones: on the base attributes they are the getters of [Device]. *)
Lemma AirQuality_overrides_as_inherited (h : AirQuality.Store) (t : AirQuality.t) :
  let via_super {A} (m : M Device.t A) :=
    super AirQuality.base AirQuality.with_base m t in
  let h' := AirQuality.as_devices h in
  AirQuality.get_aq_quality h t = via_super (Device.get_aq_quality h') /\
  AirQuality.get_aq_score h t = via_super (Device.get_aq_score h') /\
  AirQuality.get_aq_pm_1 h t = via_super (Device.get_aq_pm_1 h') /\
  AirQuality.get_aq_pm_2p5 h t = via_super (Device.get_aq_pm_2p5 h') /\
  AirQuality.get_aq_pm_10 h t = via_super (Device.get_aq_pm_10 h') /\
  AirQuality.get_aq_co2 h t = via_super (Device.get_aq_co2 h') /\
  AirQuality.get_aq_tvoc h t = via_super (Device.get_aq_tvoc h') /\
  AirQuality.get_aq_temp h t = via_super (Device.get_aq_temp h') /\
  AirQuality.get_aq_humidity h t = via_super (Device.get_aq_humidity h') /\
  AirQuality.get_aq_present h t = via_super (Device.get_aq_present h').
Proof.
  destruct t as [b ? ? ? ? ? ? ?]. cbv zeta.
  repeat split;
    cbv -[Device.air_quality]; destruct (Device.air_quality b); reflexivity.
Qed.

Ltac delegation_air_quality :=
  let t := fresh "t" in
  intros t; cbv -[Device.air_quality AirQuality.base];
  destruct (Device.air_quality (AirQuality.base t)); reflexivity.

Lemma AirQuality_get_aq_vent_active_delegates (h : AirQuality.Store) :
  delegates (AirQuality.inherited Device.air_quality)
    (fun r => AirQuality.aq_vent_active (h r)) AirQuality.aq_vent_active
    (AirQuality.get_aq_vent_active h).
Proof. delegation_air_quality. Qed.

Lemma AirQuality_get_aq_pressure_delegates (h : AirQuality.Store) :
  delegates (AirQuality.inherited Device.air_quality)
    (fun r => AirQuality.aq_pressure (h r)) AirQuality.aq_pressure
    (AirQuality.get_aq_pressure h).
Proof. delegation_air_quality. Qed.

Lemma AirQuality_get_aq_quality_delegates (h : AirQuality.Store) :
  delegates (AirQuality.inherited Device.air_quality)
    (fun r => AirQuality.inherited Device.aq_quality (h r))
    (AirQuality.inherited Device.aq_quality) (AirQuality.get_aq_quality h).
Proof. delegation_air_quality. Qed.

Lemma AirQuality_get_aq_score_delegates (h : AirQuality.Store) :
  delegates (AirQuality.inherited Device.air_quality)
    (fun r => AirQuality.inherited Device.aq_score (h r))
    (AirQuality.inherited Device.aq_score) (AirQuality.get_aq_score h).
Proof. delegation_air_quality. Qed.

Lemma AirQuality_get_aq_pm_1_delegates (h : AirQuality.Store) :
  delegates (AirQuality.inherited Device.air_quality)
    (fun r => AirQuality.inherited Device.aq_pm_1 (h r))
    (AirQuality.inherited Device.aq_pm_1) (AirQuality.get_aq_pm_1 h).
Proof. delegation_air_quality. Qed.

Lemma AirQuality_get_aq_pm_2p5_delegates (h : AirQuality.Store) :
  delegates (AirQuality.inherited Device.air_quality)
    (fun r => AirQuality.inherited Device.aq_pm_2p5 (h r))
    (AirQuality.inherited Device.aq_pm_2p5) (AirQuality.get_aq_pm_2p5 h).
Proof. delegation_air_quality. Qed.

Lemma AirQuality_get_aq_pm_10_delegates (h : AirQuality.Store) :
  delegates (AirQuality.inherited Device.air_quality)
    (fun r => AirQuality.inherited Device.aq_pm_10 (h r))
    (AirQuality.inherited Device.aq_pm_10) (AirQuality.get_aq_pm_10 h).
Proof. delegation_air_quality. Qed.

Lemma AirQuality_get_aq_co2_delegates (h : AirQuality.Store) :
  delegates (AirQuality.inherited Device.air_quality)
    (fun r => AirQuality.inherited Device.aq_co2 (h r))
    (AirQuality.inherited Device.aq_co2) (AirQuality.get_aq_co2 h).
Proof. delegation_air_quality. Qed.

Lemma AirQuality_get_aq_tvoc_delegates (h : AirQuality.Store) :
  delegates (AirQuality.inherited Device.air_quality)
    (fun r => AirQuality.inherited Device.aq_tvoc (h r))
    (AirQuality.inherited Device.aq_tvoc) (AirQuality.get_aq_tvoc h).
Proof. delegation_air_quality. Qed.

Lemma AirQuality_get_aq_temp_delegates (h : AirQuality.Store) :
  delegates (AirQuality.inherited Device.air_quality)
    (fun r => AirQuality.inherited Device.aq_temp (h r))
    (AirQuality.inherited Device.aq_temp) (AirQuality.get_aq_temp h).
Proof. delegation_air_quality. Qed.

Lemma AirQuality_get_aq_humidity_delegates (h : AirQuality.Store) :
  delegates (AirQuality.inherited Device.air_quality)
    (fun r => AirQuality.inherited Device.aq_humidity (h r))
    (AirQuality.inherited Device.aq_humidity) (AirQuality.get_aq_humidity h).
Proof. delegation_air_quality. Qed.

Lemma AirQuality_get_aq_present_delegates (h : AirQuality.Store) :
  delegates (AirQuality.inherited Device.air_quality)
    (fun r => AirQuality.inherited Device.aq_present (h r))
    (AirQuality.inherited Device.aq_present) (AirQuality.get_aq_present h).
Proof. delegation_air_quality. Qed.

(** * The claims *)

(** The delegating accessors.  Each of the eleven [get_aq_*] accessors of a
    [Device] that tests [air_quality] (and each of the twelve of an
    [AirQuality]) returns the attribute of the associated [AirQuality] object
    when [air_quality] is set, whatever the local attribute holds, and the
    local attribute when [air_quality] is [None]; the call leaves the
    attributes of the object as they were.  [get_aq_status] is not one of
    them: it never tests [air_quality]. *)
Theorem air_quality_delegation (h : AirQuality.Store) :
  let h' := AirQuality.as_devices h in
  let remote {A} (x : Device.t -> A) := fun r => AirQuality.inherited x (h r) in
  let own := AirQuality.inherited Device.air_quality in
  (delegates Device.air_quality (remote Device.aq_active) Device.aq_active
     (Device.get_aq_active h') /\
   delegates Device.air_quality (remote Device.aq_quality) Device.aq_quality
     (Device.get_aq_quality h') /\
   delegates Device.air_quality (remote Device.aq_score) Device.aq_score
     (Device.get_aq_score h') /\
   delegates Device.air_quality (remote Device.aq_pm_1) Device.aq_pm_1
     (Device.get_aq_pm_1 h') /\
   delegates Device.air_quality (remote Device.aq_pm_2p5) Device.aq_pm_2p5
     (Device.get_aq_pm_2p5 h') /\
   delegates Device.air_quality (remote Device.aq_pm_10) Device.aq_pm_10
     (Device.get_aq_pm_10 h') /\
   delegates Device.air_quality (remote Device.aq_co2) Device.aq_co2
     (Device.get_aq_co2 h') /\
   delegates Device.air_quality (remote Device.aq_tvoc) Device.aq_tvoc
     (Device.get_aq_tvoc h') /\
   delegates Device.air_quality (remote Device.aq_temp) Device.aq_temp
     (Device.get_aq_temp h') /\
   delegates Device.air_quality (remote Device.aq_humidity) Device.aq_humidity
     (Device.get_aq_humidity h') /\
   delegates Device.air_quality (remote Device.aq_present) Device.aq_present
     (Device.get_aq_present h')) /\
  (delegates own (fun r => AirQuality.aq_vent_active (h r)) AirQuality.aq_vent_active
     (AirQuality.get_aq_vent_active h) /\
   delegates own (remote Device.aq_quality) (AirQuality.inherited Device.aq_quality)
     (AirQuality.get_aq_quality h) /\
   delegates own (remote Device.aq_score) (AirQuality.inherited Device.aq_score)
     (AirQuality.get_aq_score h) /\
   delegates own (remote Device.aq_pm_1) (AirQuality.inherited Device.aq_pm_1)
     (AirQuality.get_aq_pm_1 h) /\
   delegates own (remote Device.aq_pm_2p5) (AirQuality.inherited Device.aq_pm_2p5)
     (AirQuality.get_aq_pm_2p5 h) /\
   delegates own (remote Device.aq_pm_10) (AirQuality.inherited Device.aq_pm_10)
     (AirQuality.get_aq_pm_10 h) /\
   delegates own (remote Device.aq_co2) (AirQuality.inherited Device.aq_co2)
     (AirQuality.get_aq_co2 h) /\
   delegates own (remote Device.aq_tvoc) (AirQuality.inherited Device.aq_tvoc)
     (AirQuality.get_aq_tvoc h) /\
   delegates own (remote Device.aq_temp) (AirQuality.inherited Device.aq_temp)
     (AirQuality.get_aq_temp h) /\
   delegates own (fun r => AirQuality.aq_pressure (h r)) AirQuality.aq_pressure
     (AirQuality.get_aq_pressure h) /\
   delegates own (remote Device.aq_humidity) (AirQuality.inherited Device.aq_humidity)
     (AirQuality.get_aq_humidity h) /\
   delegates own (remote Device.aq_present) (AirQuality.inherited Device.aq_present)
     (AirQuality.get_aq_present h)).
Proof.
  cbv zeta. split.
  - repeat split;
      first
        [ apply Device_get_aq_active_delegates | apply Device_get_aq_quality_delegates
        | apply Device_get_aq_score_delegates | apply Device_get_aq_pm_1_delegates
        | apply Device_get_aq_pm_2p5_delegates | apply Device_get_aq_pm_10_delegates
        | apply Device_get_aq_co2_delegates | apply Device_get_aq_tvoc_delegates
        | apply Device_get_aq_temp_delegates | apply Device_get_aq_humidity_delegates
        | apply Device_get_aq_present_delegates ].
  - repeat split;
      first
        [ apply AirQuality_get_aq_vent_active_delegates
        | apply AirQuality_get_aq_pressure_delegates
        | apply AirQuality_get_aq_quality_delegates
        | apply AirQuality_get_aq_score_delegates
        | apply AirQuality_get_aq_pm_1_delegates
        | apply AirQuality_get_aq_pm_2p5_delegates
        | apply AirQuality_get_aq_pm_10_delegates
        | apply AirQuality_get_aq_co2_delegates
        | apply AirQuality_get_aq_tvoc_delegates
        | apply AirQuality_get_aq_temp_delegates
        | apply AirQuality_get_aq_humidity_delegates
        | apply AirQuality_get_aq_present_delegates ].
Qed.

(** A device that differs from another in nothing but [mode]. *)
Definition same_but_mode (s s' : Device.t) : Prop :=
  Device.air_quality s' = Device.air_quality s /\
  Device.auto_mode s' = Device.auto_mode s /\
  Device.aq_active s' = Device.aq_active s /\
  Device.aq_pm_1 s' = Device.aq_pm_1 s /\
  Device.aq_pm_2p5 s' = Device.aq_pm_2p5 s /\
  Device.aq_pm_10 s' = Device.aq_pm_10 s /\
  Device.aq_co2 s' = Device.aq_co2 s /\
  Device.aq_tvoc s' = Device.aq_tvoc s /\
  Device.aq_humidity s' = Device.aq_humidity s /\
  Device.aq_temp s' = Device.aq_temp s /\
  Device.aq_present s' = Device.aq_present s /\
  Device.aq_quality s' = Device.aq_quality s /\
  Device.aq_score s' = Device.aq_score s /\
  Device.double_set_point s' = Device.double_set_point s /\
  Device.dual_sp_conf s' = Device.dual_sp_conf s /\
  Device.errors s' = Device.errors s /\
  Device.id s' = Device.id s /\
  Device.installation_id s' = Device.installation_id s /\
  Device.modes s' = Device.modes s /\
  Device.name s' = Device.name s /\
  Device.simulator_mode s' = Device.simulator_mode s /\
  Device.warnings s' = Device.warnings s /\
  Device.webserver_id s' = Device.webserver_id s /\
  Device.ws_connected s' = Device.ws_connected s /\
  Device.is_connected s' = Device.is_connected s.

(** C6, as amended.  Mode-setter guard: [set_mode(m)] with a member [m] of
    the device's [modes] list returns, and afterwards the [mode] attribute is
    [m] and every other attribute is as it was; with a member that is not in
    the list it returns and changes nothing.  A raw value that denotes the
    member [m] behaves as [m].  A raw value that denotes no member makes
    [OperationMode(mode)] raise [ValueError] to the caller, and nothing is
    changed. *)
Theorem set_mode_guard (s : Device.t) (m : OperationMode) :
  (m ∈ Device.modes s ->
   exists s',
     Device.set_mode (inr m) s = (s', Ok tt) /\
     Device.mode s' = Some m /\
     same_but_mode s s') /\
  (m ∉ Device.modes s -> Device.set_mode (inr m) s = (s, Ok tt)) /\
  (forall v, OperationMode_member v = Some m ->
     Device.set_mode (inl v) s = Device.set_mode (inr m) s) /\
  (forall v, OperationMode_member v = None ->
     Device.set_mode (inl v) s = (s, Raise ValueError)).
Proof.
  unfold Device.set_mode, mbind, M_bind, lift, getattr. simpl OperationMode_of.
  split; [| split; [| split]].
  - intros Hin. rewrite bool_decide_eq_true_2 by exact Hin.
    eexists. split; [reflexivity|]. split; [reflexivity|].
    unfold same_but_mode. repeat apply conj; reflexivity.
  - intros Hnot. rewrite bool_decide_eq_false_2 by exact Hnot. reflexivity.
  - intros v Hv. unfold OperationMode_of_raw. rewrite Hv. reflexivity.
  - intros v Hv. unfold OperationMode_of_raw. rewrite Hv. reflexivity.
Qed.

(** C9.  [Device.get_aq_status] never returns: the call re-enters itself
    before anything else, so whatever the recursion limit of the interpreter,
    it ends in [RecursionError] and the branch after the recursive call is
    never reached. *)
Theorem get_aq_status_never_returns (limit : nat) (s : Device.t) :
  Device.get_aq_status limit s = (s, Raise RecursionError).
Proof.
  induction limit as [|limit IH]; simpl.
  - reflexivity.
  - unfold mbind, M_bind. rewrite IH. reflexivity.
Qed.

(** C10.  Derived status getters: [get_available()] returns
    [is_connected and ws_connected], [get_problems()] returns whether
    [errors] or [warnings] is non-empty, and neither changes an attribute. *)
Theorem derived_status_getters (s : Device.t) :
  Device.get_available s =
    (s, Ok (Device.is_connected s && Device.ws_connected s)) /\
  exists problems : bool,
    Device.get_problems s = (s, Ok problems) /\
    (problems = true <-> Device.errors s <> [] \/ Device.warnings s <> []).
Proof.
  split.
  - cbv -[Device.is_connected Device.ws_connected andb].
    destruct (Device.is_connected s); reflexivity.
  - cbv -[Device.errors Device.warnings].
    destruct (Device.errors s) as [|e es], (Device.warnings s) as [|w ws];
      eexists; (split; [reflexivity|]); split; intros Hp;
      first
        [ discriminate Hp | reflexivity | left; discriminate | right; discriminate
        | destruct Hp as [Hp|Hp]; congruence ].
Qed.

(** C4.  Idempotence of [update_data]: run again on the object the first
    run left, with the same envelope, [Device.update_data] and
    [AirQuality.update_data] leave the object as it is and end as the first
    run ended; so two runs yield the state one run yields. *)
Theorem update_data_idempotent (update : EntityUpdate) :
  (forall s : Device.t,
     Device.update_data update (Device.update_data update s).1
     = Device.update_data update s) /\
  (forall t : AirQuality.t,
     AirQuality.update_data update (AirQuality.update_data update t).1
     = AirQuality.update_data update t).
Proof.
  split.
  - intros s.
    apply (overwrites_idempotent _ Device_write_family).
    apply Device_update_data_overwrites.
  - intros t.
    apply (overwrites_idempotent _ AirQuality_write_family).
    apply AirQuality_update_data_overwrites.
Qed.

(** The temperature block on a mapping: the attribute takes what the parser
    makes of the Celsius entry, be it [None]. *)
Lemma hoare_assign_celsius {S} (attr : S -> option float)
    (with_attr : option float -> S -> S) (d : Dict) (P : S -> Prop) E :
  (forall v s, attr (with_attr v s) = v) ->
  hoare P
    (if_is_not_None (PDict d)
       (celsius ← lift (py_get (PDict d) API_AQ_TEMP_CELSIUS);
        setattr with_attr (parse_float celsius)))
    (fun _ s => attr s = parse_float (dict_get d API_AQ_TEMP_CELSIUS)) E.
Proof. intros Hgs s _. cbn. apply Hgs. Qed.

(** The temperature is the one parsed attribute that is not sticky: a
    temperature mapping whose Celsius entry is missing or does not parse
    clears [aq_temp], whether the update then returns or raises. *)
Lemma update_data_clears_aq_temp (update : EntityUpdate) (d : Dict) :
  dict_get (get_data update) API_AQ_TEMP = PDict d ->
  parse_float (dict_get d API_AQ_TEMP_CELSIUS) = None ->
  (forall s, Device.aq_temp (Device.update_data update s).1 = None) /\
  (forall t,
     AirQuality.inherited Device.aq_temp (AirQuality.update_data update t).1 = None).
Proof.
  intros Hv Hnone.
  assert (Hd : hoare (fun _ => True) (Device.update_data update)
                 (fun _ s => Device.aq_temp s = None)
                 (fun _ s => Device.aq_temp s = None)).
  { unfold Device.update_data. cbv zeta. rewrite Hv, <- Hnone.
    walk ltac:(apply (hoare_assign_celsius Device.aq_temp Device.with_aq_temp);
               intros ? []; reflexivity). }
  split.
  - intros s. specialize (Hd s I).
    destruct (Device.update_data update s) as [s' [[]|e]]; exact Hd.
  - assert (Ht : hoare (fun _ => True) (AirQuality.update_data update)
                   (fun _ t => AirQuality.inherited Device.aq_temp t = None)
                   (fun _ t => AirQuality.inherited Device.aq_temp t = None)).
    { unfold AirQuality.update_data. cbv zeta. rewrite Hv.
      apply (hoare_bind (fun _ t => AirQuality.inherited Device.aq_temp t = None)).
      - exact (hoare_super_base AirQuality.base AirQuality.with_base _
                 (fun _ => True) (fun _ s => Device.aq_temp s = None)
                 (fun _ s => Device.aq_temp s = None)
                 AirQuality_base_with_base Hd).
      - intros _. rewrite <- Hnone.
        walk ltac:(apply (hoare_assign_celsius (AirQuality.inherited Device.aq_temp)
                            (AirQuality.with_inherited Device.with_aq_temp));
                   intros ? [[]]; reflexivity). }
    intros t. specialize (Ht t I).
    destruct (AirQuality.update_data update t) as [t' [[]|e]]; exact Ht.
Qed.

(** The attributes [Device.update_data] fills through a field parser, after
    an update that went from [s] to [s']: each holds the parsed value when
    there is one and what it held before otherwise. *)
Definition merged {S A B} (parsed : option B) (inj : B -> A) (attr : S -> A)
    (s s' : S) : Prop :=
  attr s' = match parsed with Some v => inj v | None => attr s end.

Definition Device_fields_merged (data : Dict) (s s' : Device.t) : Prop :=
  merged (parse_bool (dict_get data API_IS_CONNECTED)) id Device.is_connected s s' /\
  merged (parse_bool (dict_get data API_WS_CONNECTED)) id Device.ws_connected s s' /\
  merged (parse_bool (dict_get data API_AQ_ACTIVE)) Some Device.aq_active s s' /\
  merged (parse_int (dict_get data API_AQ_PM_1)) Some Device.aq_pm_1 s s' /\
  merged (parse_int (dict_get data API_AQ_PM_2P5)) Some Device.aq_pm_2p5 s s' /\
  merged (parse_int (dict_get data API_AQ_PM_10)) Some Device.aq_pm_10 s s' /\
  merged (parse_int (dict_get data API_AQ_CO2)) Some Device.aq_co2 s s' /\
  merged (parse_int (dict_get data API_AQ_TVOC)) Some Device.aq_tvoc s s' /\
  merged (parse_int (dict_get data API_AQ_HUMIDITY)) Some Device.aq_humidity s s' /\
  merged (parse_bool (dict_get data API_AQ_PRESENT)) Some Device.aq_present s s' /\
  merged (parse_str (dict_get data API_AQ_QUALITY)) Some Device.aq_quality s s' /\
  merged (parse_str (dict_get data API_AQ_SCORE)) Some Device.aq_score s s' /\
  merged (parse_bool (dict_get data API_DOUBLE_SET_POINT)) Some Device.double_set_point s s' /\
  merged (parse_bool (dict_get data API_DUAL_SP_CONF)) Some Device.dual_sp_conf s s' /\
  merged (parse_bool (dict_get data API_SIMULATOR_MODE)) Some Device.simulator_mode s s'.

Definition AirQuality_fields_merged (data : Dict) (t t' : AirQuality.t) : Prop :=
  let inherited {A} (x : Device.t -> A) := AirQuality.inherited x in
  merged (parse_bool (dict_get data API_IS_CONNECTED)) id (inherited Device.is_connected) t t' /\
  merged (parse_bool (dict_get data API_WS_CONNECTED)) id (inherited Device.ws_connected) t t' /\
  merged (parse_bool (dict_get data API_AQ_ACTIVE)) Some (inherited Device.aq_active) t t' /\
  merged (parse_int (dict_get data API_AQ_PM_1)) Some (inherited Device.aq_pm_1) t t' /\
  merged (parse_int (dict_get data API_AQ_PM_2P5)) Some (inherited Device.aq_pm_2p5) t t' /\
  merged (parse_int (dict_get data API_AQ_PM_10)) Some (inherited Device.aq_pm_10) t t' /\
  merged (parse_int (dict_get data API_AQ_CO2)) Some (inherited Device.aq_co2) t t' /\
  merged (parse_int (dict_get data API_AQ_TVOC)) Some (inherited Device.aq_tvoc) t t' /\
  merged (parse_int (dict_get data API_AQ_HUMIDITY)) Some (inherited Device.aq_humidity) t t' /\
  merged (parse_bool (dict_get data API_AQ_PRESENT)) Some (inherited Device.aq_present) t t' /\
  merged (parse_str (dict_get data API_AQ_QUALITY)) Some (inherited Device.aq_quality) t t' /\
  merged (parse_str (dict_get data API_AQ_SCORE)) Some (inherited Device.aq_score) t t' /\
  merged (parse_bool (dict_get data API_DOUBLE_SET_POINT)) Some
    (inherited Device.double_set_point) t t' /\
  merged (parse_bool (dict_get data API_DUAL_SP_CONF)) Some (inherited Device.dual_sp_conf) t t' /\
  merged (parse_bool (dict_get data API_SIMULATOR_MODE)) Some
    (inherited Device.simulator_mode) t t' /\
  merged (parse_bool (dict_get data API_AQ_VENT_ACTIVE)) Some AirQuality.aq_vent_active t t' /\
  merged (parse_str (dict_get data API_AQ_SENSOR_FW)) Some AirQuality.aq_sensor_fw t t'.

(** A returning update has merged every attribute it assigns behind a guard
    on the parsed value. *)
Lemma Device_update_data_fields_merged (update : EntityUpdate) (s s' : Device.t) :
  Device.update_data update s = (s', Ok tt) ->
  Device_fields_merged (get_data update) s s'.
Proof.
  intros Hrun.
  pose proof (Device_update_data_merges update) as Hd. cbv zeta in Hd.
  repeat (let H' := fresh in destruct Hd as [H' Hd]).
  unfold Device_fields_merged.
  repeat split;
    match goal with
    | Hi : Device_merges _ _ _ ?attr |- merged _ _ ?attr _ _ =>
        exact (hoare_run _ _ _ _ s s' tt (Hi (attr s)) eq_refl Hrun)
    end.
Qed.

Lemma AirQuality_update_data_fields_merged (update : EntityUpdate)
    (t t' : AirQuality.t) :
  AirQuality.update_data update t = (t', Ok tt) ->
  AirQuality_fields_merged (get_data update) t t'.
Proof.
  intros Hrun.
  pose proof (AirQuality_update_data_merges update) as Hd. cbv zeta in Hd.
  repeat (let H' := fresh in destruct Hd as [H' Hd]).
  unfold AirQuality_fields_merged. cbv zeta.
  repeat split;
    match goal with
    | Hi : AirQuality_merges _ _ _ ?attr |- merged _ _ ?attr _ _ =>
        exact (hoare_run _ _ _ _ t t' tt (Hi (attr t)) eq_refl Hrun)
    end.
Qed.

(** C3, as amended.  List attributes of [Device.update_data]: when the update
    returns, a list under the errors key, or under the warnings key, has
    replaced the prior list, also when it is empty; a list under the
    available-modes key has replaced [modes], by the members its items
    denote, only when it is not empty, and an empty list leaves [modes] as it
    was ([modes_after]).  Whether the update returns or raises, a list
    attribute whose key is absent is as it was. *)
Theorem list_fields_replaced (update : EntityUpdate) :
  let data := get_data update in
  (forall s s', Device.update_data update s = (s', Ok tt) ->
     (forall l, dict_get data API_ERRORS = PList l -> Device.errors s' = l) /\
     (forall l, dict_get data API_WARNINGS = PList l -> Device.warnings s' = l) /\
     (forall l, dict_get data API_MODE_AVAIL = PList l ->
        modes_after l (Device.modes s) (Device.modes s'))) /\
  (forall s,
     let s' := (Device.update_data update s).1 in
     (dict_contains API_ERRORS data = false -> Device.errors s' = Device.errors s) /\
     (dict_contains API_WARNINGS data = false -> Device.warnings s' = Device.warnings s) /\
     (dict_contains API_MODE_AVAIL data = false -> Device.modes s' = Device.modes s)).
Proof.
  cbv zeta. split.
  - intros s s' Hrun. repeat split; intros l Hl.
    + exact (hoare_run _ _ _ _ s s' tt (Device_replaces_errors update l Hl) I Hrun).
    + exact (hoare_run _ _ _ _ s s' tt (Device_replaces_warnings update l Hl) I Hrun).
    + exact (hoare_run _ _ _ _ s s' tt
               (Device_replaces_modes update l (Device.modes s) Hl) eq_refl Hrun).
  - intros s. repeat split; intros Habsent%dict_get_absent.
    + apply (preserves_fst _ Device.errors).
      intros c. apply Device_keeps_errors. exact Habsent.
    + apply (preserves_fst _ Device.warnings).
      intros c. apply Device_keeps_warnings. exact Habsent.
    + apply (preserves_fst _ Device.modes).
      intros c. apply Device_keeps_modes. exact Habsent.
Qed.

(** ** [data()] *)

Lemma run_bind {S A B} (m : M S A) (k : A -> M S B) (s s' : S) (a : A) :
  m s = (s', Ok a) -> (m ≫= k) s = k a s'.
Proof. intros Hm. unfold mbind, M_bind. rewrite Hm. reflexivity. Qed.

Lemma Device_get_available_run (s : Device.t) :
  Device.get_available s = (s, Ok (Device.is_connected s && Device.ws_connected s)).
Proof.
  cbv -[Device.is_connected Device.ws_connected andb].
  destruct (Device.is_connected s); reflexivity.
Qed.

Lemma Device_get_double_set_point_run (s : Device.t) :
  Device.get_double_set_point s = (s, Ok (default false (Device.double_set_point s))).
Proof.
  cbv -[Device.double_set_point]. destruct (Device.double_set_point s); reflexivity.
Qed.

Lemma Device_get_problems_run (s : Device.t) :
  Device.get_problems s =
  (s, Ok (Device.list_truthy (Device.errors s) || Device.list_truthy (Device.warnings s))).
Proof.
  cbv -[Device.errors Device.warnings].
  destruct (Device.errors s), (Device.warnings s); reflexivity.
Qed.

Lemma Device_get_modes_run (s : Device.t) :
  Device.get_modes s =
  (s, Ok (if Device.list_truthy (Device.modes s) then Some (Device.modes s) else None)).
Proof.
  unfold Device.get_modes, mbind, M_bind, getattr.
  destruct (Device.modes s); reflexivity.
Qed.

(** The level name the table gives for a raw level. *)
Definition level_name (q : string) : option string :=
  snd <$> find (fun kv => String.eqb q kv.1) API_AQ_QUALITY_LEVELS.

Lemma store_quality_other (q : string) (table : list (string * string))
    (d : gmap string Value) :
  q ∉ table.*1 ->
  fold_left
    (fun data '(key, value) =>
       if String.eqb q key then <[AZD_AQ_QUALITY := VStr value]> data else data)
    table d = d.
Proof.
  revert d. induction table as [|[k v] table IH]; intros d Hq; simpl; [reflexivity|].
  destruct (String.eqb_spec q k) as [->|Hne].
  - exfalso. apply Hq. left.
  - apply IH. intros Hin. apply Hq. right. exact Hin.
Qed.

Lemma store_quality_lookup (q : string) (d : gmap string Value) :
  store_quality q d !! AZD_AQ_QUALITY =
  match level_name q with
  | Some name => Some (VStr name)
  | None => d !! AZD_AQ_QUALITY
  end.
Proof.
  unfold store_quality, level_name.
  pose proof API_AQ_QUALITY_LEVELS_keys as Hkeys.
  revert d. induction API_AQ_QUALITY_LEVELS as [|[k v] table IH]; intros d; simpl.
  - reflexivity.
  - apply NoDup_cons in Hkeys as [Hk Hkeys]. simpl in Hk.
    destruct (String.eqb_spec q k) as [->|Hne]; simpl.
    + rewrite (store_quality_other k table _ Hk). apply lookup_insert_eq.
    + apply (IH Hkeys).
Qed.

Lemma level_name_elem_of (q name : string) :
  (q, name) ∈ API_AQ_QUALITY_LEVELS -> level_name q = Some name.
Proof.
  unfold level_name. pose proof API_AQ_QUALITY_LEVELS_keys as Hkeys.
  induction API_AQ_QUALITY_LEVELS as [|[k v] table IH]; intros Hin.
  - inversion Hin.
  - apply NoDup_cons in Hkeys as [Hk Hkeys]. simpl in *.
    destruct (String.eqb_spec q k) as [->|Hne]; simpl.
    + apply elem_of_cons in Hin as [[= ->]|Hin]; [reflexivity|].
      exfalso. apply Hk. apply (list_elem_of_fmap_2 fst _ _ Hin).
    + apply elem_of_cons in Hin as [[= -> ->]|Hin]; [contradiction|].
      apply (IH Hkeys Hin).
Qed.

Lemma level_name_not_elem_of (q : string) :
  q ∉ API_AQ_QUALITY_LEVELS.*1 -> level_name q = None.
Proof.
  unfold level_name.
  induction API_AQ_QUALITY_LEVELS as [|[k v] table IH]; intros Hq; simpl.
  - reflexivity.
  - destruct (String.eqb_spec q k) as [->|Hne]; simpl.
    + exfalso. apply Hq. left.
    + apply IH. intros Hin. apply Hq. right. exact Hin.
Qed.

(** What [data()] holds under the quality key, given the raw level the
    getter resolved: the name of the level when the table has it, nothing
    when there is no level or the table does not have it. *)
Definition quality_translated (level : option string) (d : gmap string Value) : Prop :=
  (forall q name,
     level = Some q -> (q, name) ∈ API_AQ_QUALITY_LEVELS ->
     d !! AZD_AQ_QUALITY = Some (VStr name)) /\
  (level = None -> d !! AZD_AQ_QUALITY = None) /\
  (forall q,
     level = Some q -> q ∉ API_AQ_QUALITY_LEVELS.*1 ->
     d !! AZD_AQ_QUALITY = None).

Lemma quality_translated_intro (level : option string) (d : gmap string Value) :
  d !! AZD_AQ_QUALITY = VStr <$> (level ≫= level_name) ->
  quality_translated level d.
Proof.
  intros Hd. repeat split.
  - intros q name -> Hin. rewrite Hd. simpl.
    rewrite (level_name_elem_of q name Hin). reflexivity.
  - intros ->. exact Hd.
  - intros q -> Hq. rewrite Hd. simpl.
    rewrite (level_name_not_elem_of q Hq). reflexivity.
Qed.

Lemma lookup_store_if_not_None {A} (key k : string) (inj : A -> Value)
    (x : option A) (d : gmap string Value) :
  key <> k -> store_if_not_None key inj x d !! k = d !! k.
Proof.
  intros Hne. destruct x; simpl; [apply lookup_insert_ne; exact Hne | reflexivity].
Qed.

Lemma lookup_if_insert (c : bool) (key k : string) (v : Value) (d : gmap string Value) :
  key <> k -> (if c then <[key := v]> d else d) !! k = d !! k.
Proof.
  intros Hne. destruct c; [apply lookup_insert_ne; exact Hne | reflexivity].
Qed.

(** Looks up the quality key through the stores of the other keys. *)
Ltac lookup_quality :=
  repeat first
    [ rewrite lookup_store_if_not_None by discriminate
    | rewrite lookup_if_insert by discriminate
    | rewrite lookup_insert_ne by discriminate ].

Lemma Device_data_quality (h : Device.Store) (s : Device.t) :
  exists d,
    Device.data h s = (s, Ok d) /\
    d !! AZD_AQ_QUALITY =
      VStr <$> (match Device.air_quality s with
                | Some r => Device.aq_quality (h r)
                | None => Device.aq_quality s
                end ≫= level_name).
Proof.
  unfold Device.data.
  rewrite (run_bind _ _ s s _ (Device_get_available_run s)).
  rewrite (run_bind _ _ s s _ (Device_get_double_set_point_run s)).
  rewrite (run_bind _ _ s s _ (eq_refl : Device.get_id s = (s, Ok _))).
  rewrite (run_bind _ _ s s _ (eq_refl : Device.get_installation s = (s, Ok _))).
  rewrite (run_bind _ _ s s _ (eq_refl : Device.get_is_connected s = (s, Ok _))).
  rewrite (run_bind _ _ s s _ (eq_refl : Device.get_name s = (s, Ok _))).
  rewrite (run_bind _ _ s s _ (Device_get_problems_run s)).
  rewrite (run_bind _ _ s s _ (eq_refl : Device.get_webserver s = (s, Ok _))).
  rewrite (run_bind _ _ s s _ (eq_refl : Device.get_ws_connected s = (s, Ok _))).
  cbv zeta.
  rewrite (run_bind _ _ s s _ (Device_get_aq_active_delegates h s)).
  rewrite (run_bind _ _ s s _ (Device_get_aq_quality_delegates h s)).
  rewrite (run_bind _ _ s s _ (Device_get_aq_score_delegates h s)).
  rewrite (run_bind _ _ s s _ (Device_get_aq_pm_1_delegates h s)).
  rewrite (run_bind _ _ s s _ (Device_get_aq_pm_2p5_delegates h s)).
  rewrite (run_bind _ _ s s _ (Device_get_aq_pm_10_delegates h s)).
  rewrite (run_bind _ _ s s _ (Device_get_aq_co2_delegates h s)).
  rewrite (run_bind _ _ s s _ (Device_get_aq_tvoc_delegates h s)).
  rewrite (run_bind _ _ s s _ (Device_get_aq_humidity_delegates h s)).
  rewrite (run_bind _ _ s s _ (Device_get_aq_temp_delegates h s)).
  rewrite (run_bind _ _ s s _ (Device_get_aq_present_delegates h s)).
  rewrite (run_bind _ _ s s _ (eq_refl : Device.get_dual_sp_conf s = (s, Ok _))).
  rewrite (run_bind _ _ s s _ (eq_refl : Device.get_errors s = (s, Ok _))).
  rewrite (run_bind _ _ s s _ (eq_refl : Device.get_mode s = (s, Ok _))).
  rewrite (run_bind _ _ s s _ (eq_refl : Device.get_mode_auto s = (s, Ok _))).
  rewrite (run_bind _ _ s s _ (Device_get_modes_run s)).
  rewrite (run_bind _ _ s s _ (eq_refl : Device.get_simulator_mode s = (s, Ok _))).
  rewrite (run_bind _ _ s s _ (eq_refl : Device.get_warnings s = (s, Ok _))).
  eexists. split; [reflexivity|].
  lookup_quality.
  destruct (match Device.air_quality s with
            | Some r => Device.aq_quality (h r)
            | None => Device.aq_quality s
            end) as [q|]; simpl.
  - rewrite store_quality_lookup. lookup_quality.
    unfold Device.dict_display. simpl fold_left. lookup_quality.
    rewrite lookup_empty. destruct (level_name q); reflexivity.
  - lookup_quality. unfold Device.dict_display. simpl fold_left. lookup_quality.
    apply lookup_empty.
Qed.

Lemma super_run {S T A} (get : T -> S) (set : S -> T -> T) (m : M S A)
    (t : T) (s' : S) (a : A) :
  m (get t) = (s', Ok a) -> super get set m t = (set s' t, Ok a).
Proof. intros Hm. unfold super. rewrite Hm. reflexivity. Qed.

Lemma AirQuality_data_quality (h : AirQuality.Store) (t : AirQuality.t) :
  exists d,
    AirQuality.data h t = (t, Ok d) /\
    d !! AZD_AQ_QUALITY =
      VStr <$> (match AirQuality.inherited Device.air_quality t with
                | Some r => AirQuality.inherited Device.aq_quality (h r)
                | None => AirQuality.inherited Device.aq_quality t
                end ≫= level_name).
Proof.
  destruct (Device_data_quality (AirQuality.as_devices h) (AirQuality.base t))
    as (d0 & Hrun & Hq).
  apply (super_run AirQuality.base AirQuality.with_base) in Hrun.
  replace (AirQuality.with_base (AirQuality.base t) t) with t in Hrun
    by (destruct t; reflexivity).
  unfold AirQuality.data.
  rewrite (run_bind _ _ t t _ Hrun).
  rewrite (run_bind _ _ t t _ (AirQuality_get_aq_vent_active_delegates h t)).
  rewrite (run_bind _ _ t t _ (AirQuality_get_aq_quality_delegates h t)).
  rewrite (run_bind _ _ t t _ (AirQuality_get_aq_score_delegates h t)).
  rewrite (run_bind _ _ t t _ (AirQuality_get_aq_pm_1_delegates h t)).
  rewrite (run_bind _ _ t t _ (AirQuality_get_aq_pm_2p5_delegates h t)).
  rewrite (run_bind _ _ t t _ (AirQuality_get_aq_pm_10_delegates h t)).
  rewrite (run_bind _ _ t t _ (AirQuality_get_aq_co2_delegates h t)).
  rewrite (run_bind _ _ t t _ (AirQuality_get_aq_tvoc_delegates h t)).
  rewrite (run_bind _ _ t t _ (AirQuality_get_aq_humidity_delegates h t)).
  rewrite (run_bind _ _ t t _ (AirQuality_get_aq_temp_delegates h t)).
  rewrite (run_bind _ _ t t _ (AirQuality_get_aq_pressure_delegates h t)).
  rewrite (run_bind _ _ t t _ (AirQuality_get_aq_present_delegates h t)).
  rewrite (run_bind _ _ t t _ (eq_refl : AirQuality.get_system_num t = (t, Ok _))).
  rewrite (run_bind _ _ t t _ (eq_refl : AirQuality.get_zone_num t = (t, Ok _))).
  rewrite (run_bind _ _ t t _ (eq_refl : AirQuality.get_aq_sensor_fw t = (t, Ok _))).
  eexists. split; [reflexivity|].
  lookup_quality.
  unfold AirQuality.inherited, AirQuality.as_devices in *.
  destruct (match Device.air_quality (AirQuality.base t) with
            | Some r => Device.aq_quality (AirQuality.base (h r))
            | None => Device.aq_quality (AirQuality.base t)
            end) as [q|]; simpl in *.
  - rewrite store_quality_lookup. lookup_quality.
    rewrite Hq. destruct (level_name q); reflexivity.
  - lookup_quality. exact Hq.
Qed.

(** C8.  Quality-level translation in [data()]: the mapping [Device.data]
    and [AirQuality.data] return holds, under the quality key, the name the
    table gives for the raw level the getter resolved (through the
    associated [AirQuality] when there is one) when the level is a key of the
    table, and holds no quality key when there is no level or the table does
    not have it.  [data()] returns and leaves the object as it was. *)
Theorem quality_level_translation (h : AirQuality.Store) :
  (forall s : Device.t, exists d,
     Device.data (AirQuality.as_devices h) s = (s, Ok d) /\
     quality_translated
       match Device.air_quality s with
       | Some r => AirQuality.inherited Device.aq_quality (h r)
       | None => Device.aq_quality s
       end d) /\
  (forall t : AirQuality.t, exists d,
     AirQuality.data h t = (t, Ok d) /\
     quality_translated
       match AirQuality.inherited Device.air_quality t with
       | Some r => AirQuality.inherited Device.aq_quality (h r)
       | None => AirQuality.inherited Device.aq_quality t
       end d).
Proof.
  split.
  - intros s.
    destruct (Device_data_quality (AirQuality.as_devices h) s) as (d & Hrun & Hq).
    exists d. split; [exact Hrun|]. apply quality_translated_intro. exact Hq.
  - intros t. destruct (AirQuality_data_quality h t) as (d & Hrun & Hq).
    exists d. split; [exact Hrun|]. apply quality_translated_intro. exact Hq.
Qed.

(** ** Construction *)

(** The spec's words for [sub_data]: the candidate locations in priority
    order, a "meta" sub-object, else a "config" sub-object, else the
    top-level mapping; the first one that contains the system-number key
    wins, and the top-level mapping is what is left when none does. *)
Definition sub_mapping (device_data : Dict) (key : string) : list Dict :=
  match dict_get device_data key with
  | PDict d => [d]
  | _ => []
  end.

Definition candidate_locations (device_data : Dict) : list Dict :=
  sub_mapping device_data API_META ++ sub_mapping device_data API_CONFIG ++ [device_data].

Definition first_location (device_data : Dict) : Dict :=
  default device_data
    (find (dict_contains API_SYSTEM_NUMBER) (candidate_locations device_data)).

Lemma dict_contains_get (d : Dict) (k : string) :
  dict_get d k <> PNone -> dict_contains k d = true.
Proof.
  intros Hget. destruct (dict_contains k d) eqn:Hc; [reflexivity|].
  exfalso. apply Hget. apply dict_get_absent. exact Hc.
Qed.

(** One probe of [sub_data] on a sub-object that is a mapping, [None] or
    missing. *)
Lemma probe_mapping (device_data : Dict) (key : string) :
  mapping_or_None (dict_get device_data key) ->
  (if dict_contains key device_data then
     py_contains API_SYSTEM_NUMBER (py_or_empty_dict (dict_get device_data key))
     ≫= (fun c : bool =>
           mret (if c then Some (py_or_empty_dict (dict_get device_data key)) else None))
   else mret None)
  = Ok (PDict <$> find (dict_contains API_SYSTEM_NUMBER) (sub_mapping device_data key)).
Proof.
  unfold sub_mapping. intros [Hnone | [d Hd]].
  - rewrite Hnone. destruct (dict_contains key device_data); reflexivity.
  - rewrite (dict_contains_get device_data key) by (rewrite Hd; discriminate).
    rewrite Hd. unfold py_or_empty_dict.
    destruct d as [|kv d]; [reflexivity|].
    change (py_truthy (PDict (kv :: d))) with true. cbv iota.
    generalize (kv :: d). intros m.
    unfold py_contains, mbind, result_bind. cbn [find].
    destruct (dict_contains API_SYSTEM_NUMBER m); reflexivity.
Qed.

Lemma find_app {A} (f : A -> bool) (l l' : list A) :
  find f (l ++ l') = match find f l with Some x => Some x | None => find f l' end.
Proof.
  induction l as [|x l IH]; simpl; [reflexivity|]. destruct (f x); [reflexivity | exact IH].
Qed.

Lemma sub_data_first_location (device_data : Dict) :
  mapping_or_None (dict_get device_data API_META) ->
  mapping_or_None (dict_get device_data API_CONFIG) ->
  Device.sub_data device_data = Ok (PDict (first_location device_data)).
Proof.
  intros Hmeta Hconfig. unfold Device.sub_data.
  rewrite (probe_mapping device_data API_META Hmeta).
  unfold first_location, candidate_locations.
  rewrite find_app.
  destruct (find _ (sub_mapping device_data API_META)) as [meta|]; [reflexivity|].
  simpl. rewrite (probe_mapping device_data API_CONFIG Hconfig).
  rewrite find_app.
  destruct (find _ (sub_mapping device_data API_CONFIG)) as [config|]; [reflexivity|].
  simpl. destruct (dict_contains API_SYSTEM_NUMBER device_data); reflexivity.
Qed.

(** The name [AirQuality.__init__] gives when the payload has none. *)
Definition default_name (system_number zone_number : Z) : string :=
  ("Air Quality " ++ format_int system_number ++ ":" ++ format_int zone_number)%string.

(** The payload of the spec's scenario. *)
Definition scenario_data : Dict :=
  [ ("meta", PDict [("systemNumber", PStr "1"); ("zoneNumber", PStr "2")]);
    ("name", PNone) ].

(** C7, as amended.  [AirQuality] construction: the payload must hold the
    device id, as [Device.__init__] reads it first.  Then, the "meta" and
    "config" sub-objects being mappings when present, [system_number] and
    [zone_number] are read from the first of the "meta" sub-object, the
    "config" sub-object and the top-level mapping that contains the
    system-number key, and integer-parsed; the name is the payload's name
    when [parse_str] yields one, else "Air Quality
    {system_number}:{zone_number}".  So the scenario's payload, with a device
    id added, yields name "Air Quality 1:2", [system_number] 1 and
    [zone_number] 2. *)
Theorem air_quality_construction (inst_id ws_id : string) :
  (forall device_data,
     mapping_or_None (dict_get device_data API_META) ->
     mapping_or_None (dict_get device_data API_CONFIG) ->
     Device.sub_data device_data = Ok (PDict (first_location device_data))) /\
  (forall device_data device_id system_number_raw zone_number_raw sn zn,
     dict_getitem device_data API_DEVICE_ID = Ok device_id ->
     mapping_or_None (dict_get device_data API_META) ->
     mapping_or_None (dict_get device_data API_CONFIG) ->
     dict_getitem (first_location device_data) API_SYSTEM_NUMBER = Ok system_number_raw ->
     py_int system_number_raw = Ok sn ->
     dict_getitem (first_location device_data) API_ZONE_NUMBER = Ok zone_number_raw ->
     py_int zone_number_raw = Ok zn ->
     exists t,
       AirQuality.init inst_id ws_id device_data = Ok t /\
       AirQuality.system_number t = sn /\
       AirQuality.zone_number t = zn /\
       AirQuality.inherited Device.name t =
         default (default_name sn zn) (parse_str (dict_get device_data API_NAME))) /\
  (forall device_id, exists t,
     AirQuality.init inst_id ws_id ((API_DEVICE_ID, device_id) :: scenario_data) = Ok t /\
     AirQuality.inherited Device.name t = "Air Quality 1:2" /\
     AirQuality.system_number t = 1 /\
     AirQuality.zone_number t = 2).
Proof.
  assert (Hinit : forall device_data device_id system_number_raw zone_number_raw sn zn,
     dict_getitem device_data API_DEVICE_ID = Ok device_id ->
     mapping_or_None (dict_get device_data API_META) ->
     mapping_or_None (dict_get device_data API_CONFIG) ->
     dict_getitem (first_location device_data) API_SYSTEM_NUMBER = Ok system_number_raw ->
     py_int system_number_raw = Ok sn ->
     dict_getitem (first_location device_data) API_ZONE_NUMBER = Ok zone_number_raw ->
     py_int zone_number_raw = Ok zn ->
     exists t,
       AirQuality.init inst_id ws_id device_data = Ok t /\
       AirQuality.system_number t = sn /\
       AirQuality.zone_number t = zn /\
       AirQuality.inherited Device.name t =
         default (default_name sn zn) (parse_str (dict_get device_data API_NAME))).
  { intros device_data device_id sn_raw zn_raw sn zn Hid Hmeta Hconfig Hsn Hsn' Hzn Hzn'.
    unfold AirQuality.init, Device.init. rewrite Hid.
    cbn [mbind result_bind mret result_ret].
    rewrite (sub_data_first_location device_data Hmeta Hconfig).
    cbn [mbind result_bind mret result_ret py_getitem].
    rewrite Hsn. cbn [mbind result_bind mret result_ret]. rewrite Hsn'.
    cbn [mbind result_bind mret result_ret]. rewrite Hzn.
    cbn [mbind result_bind mret result_ret]. rewrite Hzn'.
    cbn [mbind result_bind mret result_ret].
    eexists. split; [reflexivity|]. repeat split. }
  repeat split.
  - exact sub_data_first_location.
  - exact Hinit.
  - intros device_id.
    destruct (Hinit ((API_DEVICE_ID, device_id) :: scenario_data) device_id
                (PStr "1") (PStr "2") 1 2) as (t & Ht & Hsn & Hzn & Hname);
      try reflexivity; try (left; reflexivity); try (right; eexists; reflexivity).
    exists t. repeat split; try assumption.
    rewrite Hname. change (dict_get _ API_NAME) with PNone.
    rewrite parse_str_None. reflexivity.
Qed.

(** * Further properties *)

(** ** What [update_data] never touches *)

Ltac keeps_device :=
  apply preserves_fst; intros ?;
  unfold preserves, Device.update_data; cbv zeta; repeat frame_step.

Ltac keeps_air_quality :=
  apply preserves_fst; intros ?;
  unfold preserves, AirQuality.update_data; cbv zeta;
  frame_step;
  [ first
      [ apply preserves_super_own; reflexivity
      | apply preserves_super_inherited;
        unfold preserves, Device.update_data; cbv zeta; repeat frame_step ]
  | repeat frame_step ].

(** X1.  [update_data] never changes the identity of the object or its
    associations, whether it returns or raises: [id], [installation_id],
    [webserver_id], [name] and [air_quality] of a [Device]; these and
    [system_number], [zone_number], [systems] and [zones] of an
    [AirQuality]. *)
Theorem update_data_keeps_identity (update : EntityUpdate) :
  (forall s : Device.t,
     let s' := (Device.update_data update s).1 in
     Device.id s' = Device.id s /\
     Device.installation_id s' = Device.installation_id s /\
     Device.webserver_id s' = Device.webserver_id s /\
     Device.name s' = Device.name s /\
     Device.air_quality s' = Device.air_quality s) /\
  (forall t : AirQuality.t,
     let t' := (AirQuality.update_data update t).1 in
     AirQuality.inherited Device.id t' = AirQuality.inherited Device.id t /\
     AirQuality.inherited Device.installation_id t'
     = AirQuality.inherited Device.installation_id t /\
     AirQuality.inherited Device.webserver_id t'
     = AirQuality.inherited Device.webserver_id t /\
     AirQuality.inherited Device.name t' = AirQuality.inherited Device.name t /\
     AirQuality.inherited Device.air_quality t'
     = AirQuality.inherited Device.air_quality t /\
     AirQuality.system_number t' = AirQuality.system_number t /\
     AirQuality.zone_number t' = AirQuality.zone_number t /\
     AirQuality.systems t' = AirQuality.systems t /\
     AirQuality.zones t' = AirQuality.zones t).
Proof.
  cbv zeta. split.
  - intros s. repeat split; revert s; keeps_device.
  - intros t. repeat split; revert t; keeps_air_quality.
Qed.

(** X2.  Stickiness of the attributes that have a field parser: an
    attribute whose key is absent from the envelope, or holds a value its
    parser rejects, is after the update what it was before, whether the
    update returns or raises.  ([aq_temp], which has no such guard, is not
    among them.) *)
Theorem parsed_attributes_sticky (update : EntityUpdate) :
  let data := get_data update in
  (Device_sticky update (parse_bool (dict_get data API_IS_CONNECTED)) Device.is_connected /\
   Device_sticky update (parse_bool (dict_get data API_WS_CONNECTED)) Device.ws_connected /\
   Device_sticky update (parse_bool (dict_get data API_AQ_ACTIVE)) Device.aq_active /\
   Device_sticky update (parse_int (dict_get data API_AQ_PM_1)) Device.aq_pm_1 /\
   Device_sticky update (parse_int (dict_get data API_AQ_PM_2P5)) Device.aq_pm_2p5 /\
   Device_sticky update (parse_int (dict_get data API_AQ_PM_10)) Device.aq_pm_10 /\
   Device_sticky update (parse_int (dict_get data API_AQ_CO2)) Device.aq_co2 /\
   Device_sticky update (parse_int (dict_get data API_AQ_TVOC)) Device.aq_tvoc /\
   Device_sticky update (parse_int (dict_get data API_AQ_HUMIDITY)) Device.aq_humidity /\
   Device_sticky update (parse_bool (dict_get data API_AQ_PRESENT)) Device.aq_present /\
   Device_sticky update (parse_str (dict_get data API_AQ_QUALITY)) Device.aq_quality /\
   Device_sticky update (parse_str (dict_get data API_AQ_SCORE)) Device.aq_score /\
   Device_sticky update (parse_bool (dict_get data API_DOUBLE_SET_POINT)) Device.double_set_point /\
   Device_sticky update (parse_bool (dict_get data API_DUAL_SP_CONF)) Device.dual_sp_conf /\
   Device_sticky update (parse_bool (dict_get data API_SIMULATOR_MODE)) Device.simulator_mode) /\
  (AirQuality_sticky update (parse_bool (dict_get data API_IS_CONNECTED))
     (AirQuality.inherited Device.is_connected) /\
   AirQuality_sticky update (parse_bool (dict_get data API_WS_CONNECTED))
     (AirQuality.inherited Device.ws_connected) /\
   AirQuality_sticky update (parse_bool (dict_get data API_AQ_ACTIVE))
     (AirQuality.inherited Device.aq_active) /\
   AirQuality_sticky update (parse_int (dict_get data API_AQ_PM_1))
     (AirQuality.inherited Device.aq_pm_1) /\
   AirQuality_sticky update (parse_int (dict_get data API_AQ_PM_2P5))
     (AirQuality.inherited Device.aq_pm_2p5) /\
   AirQuality_sticky update (parse_int (dict_get data API_AQ_PM_10))
     (AirQuality.inherited Device.aq_pm_10) /\
   AirQuality_sticky update (parse_int (dict_get data API_AQ_CO2))
     (AirQuality.inherited Device.aq_co2) /\
   AirQuality_sticky update (parse_int (dict_get data API_AQ_TVOC))
     (AirQuality.inherited Device.aq_tvoc) /\
   AirQuality_sticky update (parse_int (dict_get data API_AQ_HUMIDITY))
     (AirQuality.inherited Device.aq_humidity) /\
   AirQuality_sticky update (parse_bool (dict_get data API_AQ_PRESENT))
     (AirQuality.inherited Device.aq_present) /\
   AirQuality_sticky update (parse_str (dict_get data API_AQ_QUALITY))
     (AirQuality.inherited Device.aq_quality) /\
   AirQuality_sticky update (parse_str (dict_get data API_AQ_SCORE))
     (AirQuality.inherited Device.aq_score) /\
   AirQuality_sticky update (parse_bool (dict_get data API_DOUBLE_SET_POINT))
     (AirQuality.inherited Device.double_set_point) /\
   AirQuality_sticky update (parse_bool (dict_get data API_DUAL_SP_CONF))
     (AirQuality.inherited Device.dual_sp_conf) /\
   AirQuality_sticky update (parse_bool (dict_get data API_SIMULATOR_MODE))
     (AirQuality.inherited Device.simulator_mode) /\
   AirQuality_sticky update (parse_bool (dict_get data API_AQ_VENT_ACTIVE)) AirQuality.aq_vent_active /\
   AirQuality_sticky update (parse_str (dict_get data API_AQ_SENSOR_FW)) AirQuality.aq_sensor_fw).
Proof.
  cbv zeta. split.
  - exact (Device_update_data_sticky update).
  - exact (AirQuality_update_data_sticky update).
Qed.

(** ** An envelope without the keys *)

(** The keys [Device.update_data] reads, and those
    [AirQuality.update_data] reads besides. *)
Definition Device_keys : list string :=
  [ API_IS_CONNECTED; API_WS_CONNECTED; API_AQ_ACTIVE; API_AQ_PM_1;
    API_AQ_PM_2P5; API_AQ_PM_10; API_AQ_CO2; API_AQ_TVOC; API_AQ_HUMIDITY;
    API_AQ_TEMP; API_AQ_PRESENT; API_AQ_QUALITY; API_AQ_SCORE; API_AUTO_MODE;
    API_DOUBLE_SET_POINT; API_DUAL_SP_CONF; API_ERRORS; API_MODE;
    API_MODE_AVAIL; API_SIMULATOR_MODE; API_WARNINGS ].

Definition AirQuality_keys : list string :=
  Device_keys ++ [API_AQ_VENT_ACTIVE; API_AQ_PRESSURE; API_AQ_SENSOR_FW].

Ltac rewrite_None_keys H :=
  unfold AirQuality_keys, Device_keys in H; simpl app in H;
  repeat (let Hk := fresh in apply Forall_cons in H as [Hk H]; rewrite ?Hk; clear Hk);
  clear H;
  rewrite ?parse_bool_None, ?parse_int_None, ?parse_float_None, ?parse_str_None.

(** X3.  An envelope that holds none of the keys [update_data] reads (each
    is absent or [None]; the empty envelope is one) is a no-op:
    [update_data] returns and the object is as it was. *)
Theorem update_data_without_keys (update : EntityUpdate) :
  (Forall (fun k => dict_get (get_data update) k = PNone) Device_keys ->
   forall s, Device.update_data update s = (s, Ok tt)) /\
  (Forall (fun k => dict_get (get_data update) k = PNone) AirQuality_keys ->
   forall t, AirQuality.update_data update t = (t, Ok tt)).
Proof.
  assert (Hd : Forall (fun k => dict_get (get_data update) k = PNone) Device_keys ->
               forall s, Device.update_data update s = (s, Ok tt)).
  { intros Hkeys s. unfold Device.update_data. cbv zeta.
    rewrite_None_keys Hkeys. reflexivity. }
  split; [exact Hd|].
  intros Hkeys t.
  assert (Hkeys' := Hkeys). unfold AirQuality_keys in Hkeys'.
  apply Forall_app in Hkeys' as [Hkeys' _].
  unfold AirQuality.update_data. cbv zeta.
  rewrite (run_bind _ _ t t tt).
  - rewrite_None_keys Hkeys. reflexivity.
  - rewrite (super_run AirQuality.base AirQuality.with_base _ t _ tt
               (Hd Hkeys' (AirQuality.base t))).
    destruct t; reflexivity.
Qed.

(** ** The attributes without a field parser *)

(** X4.  The temperature: when the envelope holds a mapping under the
    temperature key, [aq_temp] is after the update what [parse_float] makes
    of the mapping's Celsius entry, [None] included, whatever it was before;
    when the key is absent or [None], [aq_temp] is what it was.  Both hold
    whether the update returns or raises, for [Device] and [AirQuality]. *)
Theorem aq_temp_follows_celsius (update : EntityUpdate) :
  (forall d, dict_get (get_data update) API_AQ_TEMP = PDict d ->
     (forall s,
        Device.aq_temp (Device.update_data update s).1
        = parse_float (dict_get d API_AQ_TEMP_CELSIUS)) /\
     (forall t,
        AirQuality.inherited Device.aq_temp (AirQuality.update_data update t).1
        = parse_float (dict_get d API_AQ_TEMP_CELSIUS))) /\
  (dict_get (get_data update) API_AQ_TEMP = PNone ->
     (forall s, Device.aq_temp (Device.update_data update s).1 = Device.aq_temp s) /\
     (forall t,
        AirQuality.inherited Device.aq_temp (AirQuality.update_data update t).1
        = AirQuality.inherited Device.aq_temp t)).
Proof.
  split.
  - intros d Hv.
    set (c := parse_float (dict_get d API_AQ_TEMP_CELSIUS)).
    assert (Hd : hoare (fun _ => True) (Device.update_data update)
                   (fun _ s => Device.aq_temp s = c) (fun _ s => Device.aq_temp s = c)).
    { unfold Device.update_data. cbv zeta. rewrite Hv. subst c.
      walk ltac:(apply (hoare_assign_celsius Device.aq_temp Device.with_aq_temp);
                 intros ? []; reflexivity). }
    split.
    + intros s. specialize (Hd s I).
      destruct (Device.update_data update s) as [s' [[]|e]]; exact Hd.
    + assert (Ht : hoare (fun _ => True) (AirQuality.update_data update)
                     (fun _ t => AirQuality.inherited Device.aq_temp t = c)
                     (fun _ t => AirQuality.inherited Device.aq_temp t = c)).
      { unfold AirQuality.update_data. cbv zeta. rewrite Hv.
        apply (hoare_bind (fun _ t => AirQuality.inherited Device.aq_temp t = c)).
        - exact (hoare_super_base AirQuality.base AirQuality.with_base _
                   (fun _ => True) (fun _ s => Device.aq_temp s = c)
                   (fun _ s => Device.aq_temp s = c)
                   AirQuality_base_with_base Hd).
        - intros _. subst c.
          walk ltac:(apply (hoare_assign_celsius (AirQuality.inherited Device.aq_temp)
                              (AirQuality.with_inherited Device.with_aq_temp));
                     intros ? [[]]; reflexivity). }
      intros t. specialize (Ht t I).
      destruct (AirQuality.update_data update t) as [t' [[]|e]]; exact Ht.
  - intros Hv.
    assert (Hd : forall c, preserves (fun s => Device.aq_temp s = c)
                             (Device.update_data update)).
    { intros c. unfold preserves, Device.update_data. cbv zeta. rewrite Hv.
      repeat frame_step. }
    split.
    + apply preserves_fst. exact Hd.
    + apply preserves_fst. intros c.
      unfold preserves, AirQuality.update_data. cbv zeta. rewrite Hv.
      frame_step; [| repeat frame_step].
      apply preserves_super_inherited. apply Hd.
Qed.

(** The assignment of a mode from a raw value that denotes a member. *)
Lemma hoare_assign_member {S} (attr : S -> option OperationMode)
    (with_attr : option OperationMode -> S -> S) (v : Any) (m : OperationMode)
    (P : S -> Prop) E :
  (forall x s, attr (with_attr x s) = x) ->
  v <> PNone ->
  OperationMode_member v = Some m ->
  hoare P
    (if_is_not_None v
       (member ← lift (OperationMode_of_raw v); setattr with_attr (Some member)))
    (fun _ s => attr s = Some m) E.
Proof.
  intros Hgs Hne Hm s _.
  assert (Hv : is_not_None v = true).
  { destruct v; try reflexivity. exfalso. apply Hne. reflexivity. }
  unfold if_is_not_None. rewrite Hv.
  unfold when, mbind, M_bind, lift.
  rewrite (OperationMode_of_raw_member v m Hm). unfold setattr. apply Hgs.
Qed.

(** X5.  The current mode and the automatic mode are assigned without the
    membership check of [set_mode]: when [Device.update_data] returns and the
    envelope holds, under the current-mode key, a value that denotes the
    member [m], [mode] is [m], whatever [modes] holds; likewise for the
    automatic mode.  When the key is absent or [None] the attribute is what
    it was, whether the update returns or raises. *)
Theorem modes_assigned_unguarded (update : EntityUpdate) :
  let data := get_data update in
  (forall s s', Device.update_data update s = (s', Ok tt) ->
     (forall m, dict_get data API_MODE <> PNone ->
        OperationMode_member (dict_get data API_MODE) = Some m ->
        Device.mode s' = Some m) /\
     (forall m, dict_get data API_AUTO_MODE <> PNone ->
        OperationMode_member (dict_get data API_AUTO_MODE) = Some m ->
        Device.auto_mode s' = Some m)) /\
  (forall s,
     let s' := (Device.update_data update s).1 in
     (dict_get data API_MODE = PNone -> Device.mode s' = Device.mode s) /\
     (dict_get data API_AUTO_MODE = PNone -> Device.auto_mode s' = Device.auto_mode s)).
Proof.
  cbv zeta. split.
  - intros s s' Hrun. split; intros m Hne Hm.
    + refine (hoare_run (fun _ => True) _ (fun _ s0 => Device.mode s0 = Some m)
                (fun _ _ => True) s s' tt _ I Hrun).
      unfold Device.update_data. cbv zeta.
      walk ltac:(apply (hoare_assign_member Device.mode Device.with_mode);
                 [ intros ? []; reflexivity | exact Hne | exact Hm ]).
    + refine (hoare_run (fun _ => True) _ (fun _ s0 => Device.auto_mode s0 = Some m)
                (fun _ _ => True) s s' tt _ I Hrun).
      unfold Device.update_data. cbv zeta.
      walk ltac:(apply (hoare_assign_member Device.auto_mode Device.with_auto_mode);
                 [ intros ? []; reflexivity | exact Hne | exact Hm ]).
  - intros s. split; intros Hv; revert s; apply preserves_fst; intros c;
      unfold preserves, Device.update_data; cbv zeta; rewrite Hv; repeat frame_step.
Qed.

(** ** Composition with the getters and [set_mode] *)

(** X6.  Once [set_air_quality] has associated a sensor, no update of the
    device changes what its [get_aq_*] accessors return: after
    [set_air_quality(r)] and then [update_data], each accessor still returns
    the attribute of the sensor [r], and leaves the device as it is. *)
Theorem delegation_survives_update (h : Device.Store) (r : ref)
    (update : EntityUpdate) (s : Device.t) :
  let s1 := (Device.set_air_quality r s).1 in
  let s2 := (Device.update_data update s1).1 in
  Device.get_aq_active h s2 = (s2, Ok (Device.aq_active (h r))) /\
  Device.get_aq_quality h s2 = (s2, Ok (Device.aq_quality (h r))) /\
  Device.get_aq_score h s2 = (s2, Ok (Device.aq_score (h r))) /\
  Device.get_aq_pm_1 h s2 = (s2, Ok (Device.aq_pm_1 (h r))) /\
  Device.get_aq_pm_2p5 h s2 = (s2, Ok (Device.aq_pm_2p5 (h r))) /\
  Device.get_aq_pm_10 h s2 = (s2, Ok (Device.aq_pm_10 (h r))) /\
  Device.get_aq_co2 h s2 = (s2, Ok (Device.aq_co2 (h r))) /\
  Device.get_aq_tvoc h s2 = (s2, Ok (Device.aq_tvoc (h r))) /\
  Device.get_aq_temp h s2 = (s2, Ok (Device.aq_temp (h r))) /\
  Device.get_aq_humidity h s2 = (s2, Ok (Device.aq_humidity (h r))) /\
  Device.get_aq_present h s2 = (s2, Ok (Device.aq_present (h r))).
Proof.
  cbv zeta.
  set (s1 := (Device.set_air_quality r s).1).
  assert (Haq : Device.air_quality (Device.update_data update s1).1 = Some r).
  { transitivity (Device.air_quality s1); [| destruct s; reflexivity].
    generalize s1. keeps_device. }
  generalize dependent (Device.update_data update s1).1. intros s2 Haq.
  repeat split;
    first
      [ rewrite Device_get_aq_active_delegates
      | rewrite Device_get_aq_quality_delegates
      | rewrite Device_get_aq_score_delegates
      | rewrite Device_get_aq_pm_1_delegates
      | rewrite Device_get_aq_pm_2p5_delegates
      | rewrite Device_get_aq_pm_10_delegates
      | rewrite Device_get_aq_co2_delegates
      | rewrite Device_get_aq_tvoc_delegates
      | rewrite Device_get_aq_temp_delegates
      | rewrite Device_get_aq_humidity_delegates
      | rewrite Device_get_aq_present_delegates ];
    rewrite Haq; reflexivity.
Qed.

(** The mode of the device, when it has one, is one of its modes. *)
Definition mode_valid (s : Device.t) : Prop :=
  forall m, Device.mode s = Some m -> m ∈ Device.modes s.

(** X7.  [set_mode] keeps the mode among the available modes: if the mode of
    the device is one of its modes before the call, it is after, whatever the
    argument; the call changes no attribute but [mode]; and it raises, with
    [ValueError] and no change at all, exactly when the argument is a raw
    value that denotes no member. *)
Theorem set_mode_keeps_mode_valid (mode : Any + OperationMode) (s : Device.t) :
  let s' := (Device.set_mode mode s).1 in
  let outcome := (Device.set_mode mode s).2 in
  (mode_valid s -> mode_valid s') /\
  s' = Device.with_mode (Device.mode s') s /\
  (outcome = Ok tt \/ outcome = Raise ValueError /\ s' = s) /\
  (outcome = Raise ValueError <->
   exists v, mode = inl v /\ OperationMode_member v = None).
Proof.
  cbv zeta.
  assert (Heta : forall s0 : Device.t, s0 = Device.with_mode (Device.mode s0) s0)
    by (intros []; reflexivity).
  assert (Hrun : Device.set_mode mode s =
                 match OperationMode_of mode with
                 | Ok m => (if bool_decide (m ∈ Device.modes s)
                            then Device.with_mode (Some m) s else s, Ok tt)
                 | Raise e => (s, Raise e)
                 end).
  { unfold Device.set_mode, mbind, M_bind, lift, getattr.
    destruct (OperationMode_of mode) as [m|e]; [|reflexivity].
    destruct (bool_decide (m ∈ Device.modes s)); reflexivity. }
  rewrite Hrun. clear Hrun.
  assert (Hof : (exists m, OperationMode_of mode = Ok m /\
                   ~ exists v, mode = inl v /\ OperationMode_member v = None) \/
                (OperationMode_of mode = Raise ValueError /\
                   exists v, mode = inl v /\ OperationMode_member v = None)).
  { destruct mode as [v|m]; simpl.
    - unfold OperationMode_of_raw.
      destruct (OperationMode_member v) as [m|] eqn:Hv.
      + left. exists m. split; [reflexivity|].
        intros (v' & [= <-] & Hv'). congruence.
      + right. split; [reflexivity|]. exists v. split; [reflexivity | exact Hv].
    - left. exists m. split; [reflexivity|]. intros (v' & [=] & _). }
  destruct Hof as [(m & -> & Hno) | (-> & Hyes)]; simpl.
  - split; [|split; [|split; [|split]]].
    + intros Hvalid. case_bool_decide as Hin; [|exact Hvalid].
      intros m' Hm'. destruct s; simpl in *. injection Hm' as <-. exact Hin.
    + case_bool_decide; [destruct s; reflexivity | apply Heta].
    + left. reflexivity.
    + discriminate.
    + intros Hex. destruct (Hno Hex).
  - split; [|split; [|split; [|split]]].
    + auto.
    + apply Heta.
    + right. split; reflexivity.
    + intros _. exact Hyes.
    + intros _. reflexivity.
Qed.
(** ** Exactly when [update_data] returns *)

(** The values [for x in v] and [len(v)] accept. *)
Definition iterable_or_None (v : Any) : Prop :=
  v = PNone \/ exists l, py_iter v = Ok l.

(** The values the available-modes block accepts: those that can be
    iterated and whose items all denote members. *)
Definition members_or_None (v : Any) : Prop :=
  v = PNone \/ exists l ms, py_iter v = Ok l /\ mapM OperationMode_member l = Some ms.

(** The envelopes [update_data] accepts. *)
Record accepted (data : Dict) : Prop := {
  accepted_aq_temp : mapping_or_None (dict_get data API_AQ_TEMP);
  accepted_auto_mode : mode_or_None (dict_get data API_AUTO_MODE);
  accepted_errors : iterable_or_None (dict_get data API_ERRORS);
  accepted_mode : mode_or_None (dict_get data API_MODE);
  accepted_mode_avail : members_or_None (dict_get data API_MODE_AVAIL);
  accepted_warnings : iterable_or_None (dict_get data API_WARNINGS)
}.

Lemma py_len_iter (v : Any) (l : list Any) :
  py_iter v = Ok l -> py_len v = Ok (Z.of_nat (length l)).
Proof.
  destruct v; simpl; intros [= <-]; try reflexivity.
  - f_equal. f_equal. induction s as [|a s IH]; simpl; [reflexivity | f_equal; exact IH].
  - rewrite length_map. reflexivity.
Qed.

Lemma py_iter_len (v : Any) (n : Z) :
  py_len v = Ok n -> exists l, py_iter v = Ok l /\ n = Z.of_nat (length l).
Proof.
  intros Hn. destruct (py_iter v) as [l|e] eqn:Hv.
  - exists l. split; [reflexivity|]. rewrite (py_len_iter v l Hv) in Hn. congruence.
  - destruct v; discriminate.
Qed.

(** The test [mode_avail is not None and len(mode_avail) > 0]. *)
Definition nonempty_test (v : Any) : result bool :=
  if is_not_None v then n ← py_len v; mret (0 <? n)%Z else mret false.

Lemma nonempty_test_iter (v : Any) (l : list Any) :
  py_iter v = Ok l ->
  nonempty_test v = Ok (is_not_None v && negb (Nat.eqb (length l) 0)).
Proof.
  intros Hv. unfold nonempty_test. rewrite (py_len_iter v l Hv).
  destruct (is_not_None v); [|reflexivity]. simpl. destruct l; reflexivity.
Qed.

Lemma collect_modes_iter (v : Any) (l : list Any) (ms : list OperationMode) :
  py_iter v = Ok l ->
  mapM OperationMode_member l = Some ms ->
  (items ← py_iter v;
   fold_result
     (fun modes' mode' => member ← OperationMode_of_raw mode'; mret (modes' ++ [member]))
     [] items) = Ok ms.
Proof. intros -> Hms. exact (collect_modes_mapM l [] ms Hms). Qed.

Lemma Device_update_data_accepts (update : EntityUpdate) :
  accepted (get_data update) -> returns (Device.update_data update).
Proof.
  intros [Htemp Hauto Herrors Hmode Havail Hwarnings].
  unfold returns, Device.update_data. cbv zeta.
  fold (nonempty_test (dict_get (get_data update) API_MODE_AVAIL)).
  destruct Htemp as [-> | [d ->]];
  (destruct Hauto as [-> | [m1 Hm1%OperationMode_of_raw_member]];
     [| rewrite Hm1]);
  (destruct Herrors as [-> | [l1 Hl1]]);
  (destruct Hmode as [-> | [m2 Hm2%OperationMode_of_raw_member]];
     [| rewrite Hm2]);
  (destruct Havail as [-> | (l2 & ms & Hl2 & Hms)];
     [| rewrite (nonempty_test_iter _ _ Hl2), (collect_modes_iter _ _ _ Hl2 Hms)]);
  (destruct Hwarnings as [-> | [l3 Hl3]]);
  repeat frame_step.
Qed.

(** What each block of [update_data] tells about its value when it
    returns. *)
Lemma hoare_celsius_shape {S} (with_attr : option float -> S -> S) (v : Any)
    (P : S -> Prop) :
  hoare P
    (if_is_not_None v
       (celsius ← lift (py_get v API_AQ_TEMP_CELSIUS);
        setattr with_attr (parse_float celsius)))
    (fun _ _ => mapping_or_None v) (fun _ _ => True).
Proof.
  intros s _. unfold hoare, if_is_not_None, when, mbind, M_bind, lift, setattr.
  destruct v; simpl; try exact I;
    [ left; reflexivity | right; eexists; reflexivity ].
Qed.

Lemma hoare_member_shape {S} (with_attr : option OperationMode -> S -> S) (v : Any)
    (P : S -> Prop) :
  hoare P
    (if_is_not_None v
       (member ← lift (OperationMode_of_raw v); setattr with_attr (Some member)))
    (fun _ _ => mode_or_None v) (fun _ _ => True).
Proof.
  intros s _. unfold if_is_not_None, when, mbind, M_bind, lift, OperationMode_of_raw.
  destruct (is_not_None v) eqn:Hv.
  - destruct (OperationMode_member v) as [m|] eqn:Hm; simpl; [|exact I].
    right. exists m. exact Hm.
  - left. destruct v; try discriminate Hv. reflexivity.
Qed.

Lemma hoare_iterable_shape {S} (get : S -> list Any) (set : list Any -> S -> S)
    (v : Any) (P : S -> Prop) :
  hoare P
    (if_is_not_None v
       (setattr set [] ;;
        for_in v (fun x => es ← getattr get; setattr set (es ++ [x]))))
    (fun _ _ => iterable_or_None v) (fun _ _ => True).
Proof.
  intros s _. unfold if_is_not_None, when.
  destruct (is_not_None v) eqn:Hv.
  - unfold mbind at 1, M_bind at 1, setattr at 1, for_in.
    unfold mbind at 1, M_bind at 1, lift.
    destruct (py_iter v) as [l|e] eqn:Hl; [|exact I].
    match goal with |- match ?r with _ => _ end => destruct r as [s' [[]|e]] end;
      [|exact I].
    right. exists l. exact Hl.
  - left. destruct v; try discriminate Hv. reflexivity.
Qed.

Lemma hoare_members_shape {S} (with_attr : list OperationMode -> S -> S) (v : Any)
    (nonempty : bool) (P : S -> Prop) :
  nonempty_test v = Ok nonempty ->
  hoare P
    (when nonempty
       (modes' ← lift
          (items ← py_iter v;
           fold_result
             (fun modes' mode' =>
                member ← OperationMode_of_raw mode'; mret (modes' ++ [member]))
             [] items);
        setattr with_attr modes'))
    (fun _ _ => members_or_None v) (fun _ _ => True).
Proof.
  unfold nonempty_test. intros Htest s _.
  destruct (is_not_None v) eqn:Hv.
  - destruct (py_len v) as [n|e] eqn:Hn; [|discriminate Htest].
    destruct (py_iter_len v n Hn) as (l & Hl & ->).
    injection Htest as <-. unfold when, mbind at 1, M_bind at 1, lift.
    rewrite Hl.
    destruct l as [|x l]; simpl.
    + right. exists [], []. split; [exact Hl | reflexivity].
    + match goal with
      | |- match (match ?r with _ => _ end) with _ => _ end =>
          destruct r as [ms|e] eqn:Hr
      end; [|exact I].
      simpl. destruct (collect_modes_Ok (x :: l) [] ms Hr) as (ms' & Hms & _).
      right. exists (x :: l), ms'. split; [exact Hl | exact Hms].
  - injection Htest as <-. simpl.
    left. destruct v; try discriminate Hv. reflexivity.
Qed.

Lemma Device_update_data_accepted (update : EntityUpdate) (s s' : Device.t) :
  Device.update_data update s = (s', Ok tt) -> accepted (get_data update).
Proof.
  intros Hrun.
  split.
  - refine (hoare_run (fun _ => True) _ (fun _ _ => _) (fun _ _ => True)
              s s' tt _ I Hrun).
    unfold Device.update_data. cbv zeta.
    walk ltac:(apply (hoare_celsius_shape Device.with_aq_temp
                        (dict_get (get_data update) API_AQ_TEMP))).
  - refine (hoare_run (fun _ => True) _ (fun _ _ => _) (fun _ _ => True)
              s s' tt _ I Hrun).
    unfold Device.update_data. cbv zeta.
    walk ltac:(apply (hoare_member_shape Device.with_auto_mode
                        (dict_get (get_data update) API_AUTO_MODE))).
  - refine (hoare_run (fun _ => True) _ (fun _ _ => _) (fun _ _ => True)
              s s' tt _ I Hrun).
    unfold Device.update_data. cbv zeta.
    walk ltac:(apply (hoare_iterable_shape Device.errors Device.with_errors
                        (dict_get (get_data update) API_ERRORS))).
  - refine (hoare_run (fun _ => True) _ (fun _ _ => _) (fun _ _ => True)
              s s' tt _ I Hrun).
    unfold Device.update_data. cbv zeta.
    walk ltac:(apply (hoare_member_shape Device.with_mode
                        (dict_get (get_data update) API_MODE))).
  - refine (hoare_run (fun _ => True) _ (fun _ _ => _) (fun _ _ => True)
              s s' tt _ I Hrun).
    unfold Device.update_data. cbv zeta.
    fold (nonempty_test (dict_get (get_data update) API_MODE_AVAIL)).
    walk ltac:(apply (hoare_members_shape Device.with_modes
                        (dict_get (get_data update) API_MODE_AVAIL));
               eassumption).
  - refine (hoare_run (fun _ => True) _ (fun _ _ => _) (fun _ _ => True)
              s s' tt _ I Hrun).
    unfold Device.update_data. cbv zeta.
    walk ltac:(apply (hoare_iterable_shape Device.warnings Device.with_warnings
                        (dict_get (get_data update) API_WARNINGS))).
Qed.

Lemma bind_run_Ok {S A B} (m : M S A) (k : A -> M S B) (s s' : S) (b : B) :
  (m ≫= k) s = (s', Ok b) ->
  exists s1 a, m s = (s1, Ok a) /\ k a s1 = (s', Ok b).
Proof.
  unfold mbind, M_bind. destruct (m s) as [s1 [a|e]]; intros Hrun.
  - exists s1, a. split; [reflexivity | exact Hrun].
  - discriminate Hrun.
Qed.

Lemma super_run_Ok {S T A} (get : T -> S) (set : S -> T -> T) (m : M S A)
    (t t' : T) (a : A) :
  super get set m t = (t', Ok a) -> exists s', m (get t) = (s', Ok a).
Proof.
  unfold super. destruct (m (get t)) as [s' r]. intros [= _ ->].
  exists s'. reflexivity.
Qed.

Lemma AirQuality_update_data_accepts (update : EntityUpdate) :
  accepted (get_data update) -> returns (AirQuality.update_data update).
Proof.
  intros Hshape. pose proof (Device_update_data_accepts update Hshape) as Hd.
  destruct Hshape as [Htemp _ _ _ _ _].
  unfold returns, AirQuality.update_data. cbv zeta.
  apply (hoare_bind (fun _ _ => True)).
  - exact (hoare_super_base AirQuality.base AirQuality.with_base _
             (fun _ => True) (fun _ _ => True) (fun _ _ => False)
             AirQuality_base_with_base Hd).
  - intros _. destruct Htemp as [-> | [d ->]]; repeat frame_step.
Qed.

Lemma AirQuality_update_data_accepted (update : EntityUpdate) (t t' : AirQuality.t) :
  AirQuality.update_data update t = (t', Ok tt) -> accepted (get_data update).
Proof.
  unfold AirQuality.update_data. cbv zeta. intros Hrun.
  apply bind_run_Ok in Hrun as (t1 & [] & Hsuper & _).
  apply super_run_Ok in Hsuper as [s1 Hs1].
  exact (Device_update_data_accepted update _ _ Hs1).
Qed.

(** X8.  [update_data] returns exactly on the envelopes whose values not
    handed to a field parser have the shape their block needs: the
    temperature a mapping, the current and the auto mode values that
    [OperationMode] recognises, the errors and warnings iterable, the
    available modes iterable with recognised items, each of them possibly
    absent or [None].  On every other envelope it raises.  This does not
    depend on the state of the object, and it is the same set of envelopes
    for [Device] and [AirQuality]. *)
Theorem update_data_returns_iff_accepted (update : EntityUpdate) :
  (forall s,
     (exists s', Device.update_data update s = (s', Ok tt))
     <-> accepted (get_data update)) /\
  (forall t,
     (exists t', AirQuality.update_data update t = (t', Ok tt))
     <-> accepted (get_data update)).
Proof.
  split.
  - intros s. split.
    + intros [s' Hrun]. exact (Device_update_data_accepted update s s' Hrun).
    + intros Hshape.
      exact (returns_run _ s (Device_update_data_accepts update Hshape)).
  - intros t. split.
    + intros [t' Hrun]. exact (AirQuality_update_data_accepted update t t' Hrun).
    + intros Hshape.
      exact (returns_run _ t (AirQuality_update_data_accepts update Hshape)).
Qed.

(** ** Which exceptions an update raises *)

(** The method raises only exceptions in [K]. *)
Definition raises_only {S A} (K : exn -> Prop) (m : M S A) : Prop :=
  hoare (fun _ => True) m (fun _ _ => True) (fun e _ => K e).

Lemma raises_only_run {S A} (K : exn -> Prop) (m : M S A) (s : S) (e : exn) :
  raises_only K m -> (m s).2 = Raise e -> K e.
Proof.
  intros Hm Hrun. specialize (Hm s I).
  destruct (m s) as [s' [a|e']]; simpl in Hrun; [discriminate Hrun|].
  injection Hrun as ->. exact Hm.
Qed.

Lemma raises_only_bind {S A B} (K : exn -> Prop) (m : M S A) (k : A -> M S B) :
  raises_only K m -> (forall a, raises_only K (k a)) -> raises_only K (m ≫= k).
Proof. intros Hm Hk. exact (hoare_bind (fun _ _ => True) _ m k _ _ Hm Hk). Qed.

Lemma raises_only_ret {S A} (K : exn -> Prop) (a : A) :
  raises_only K (mret a : M S A).
Proof. intros s _. exact I. Qed.

Lemma raises_only_setattr {S A} (K : exn -> Prop) (set : A -> S -> S) (v : A) :
  raises_only K (setattr set v).
Proof. intros s _. exact I. Qed.

Lemma raises_only_getattr {S A} (K : exn -> Prop) (get : S -> A) :
  raises_only K (getattr get).
Proof. intros s _. exact I. Qed.

Lemma raises_only_lift {S A} (K : exn -> Prop) (r : result A) :
  (forall e, r = Raise e -> K e) -> raises_only K (lift r : M S A).
Proof. intros Hr s _. unfold lift. destruct r as [a|e]; [exact I | exact (Hr e eq_refl)]. Qed.

Lemma raises_only_if_not_None {S A} (K : exn -> Prop) (x : option A)
    (body : A -> M S unit) :
  (forall v, raises_only K (body v)) -> raises_only K (if_not_None x body).
Proof.
  intros Hbody. apply hoare_if_not_None.
  - intros v _. apply Hbody.
  - intros _ s _. exact I.
Qed.

Lemma raises_only_when {S} (K : exn -> Prop) (c : bool) (body : M S unit) :
  raises_only K body -> raises_only K (when c body).
Proof.
  intros Hbody. apply hoare_when.
  - intros _. exact Hbody.
  - intros _ s _. exact I.
Qed.

Lemma raises_only_if_is_not_None {S} (K : exn -> Prop) (v : Any) (body : M S unit) :
  (v <> PNone -> raises_only K body) -> raises_only K (if_is_not_None v body).
Proof.
  intros Hbody. apply hoare_if_is_not_None.
  - exact Hbody.
  - intros _ s _. exact I.
Qed.

Lemma raises_only_for_in {S} (K : exn -> Prop) (v : Any) (body : Any -> M S unit) :
  K TypeError ->
  (forall x, raises_only K (body x)) ->
  raises_only K (for_in v body).
Proof.
  intros HK Hbody. refine (hoare_for_in (fun _ => True) v body _ Hbody _).
  intros e s Hv _. destruct v; simpl in Hv; congruence.
Qed.

Lemma raises_only_super {S T A} (K : exn -> Prop) (get : T -> S)
    (set : S -> T -> T) (m : M S A) :
  raises_only K m -> raises_only K (super get set m).
Proof.
  intros Hm t _. specialize (Hm (get t) I). unfold super.
  destruct (m (get t)) as [s' [a|e]]; exact Hm.
Qed.

(** What the expressions of [update_data] raise. *)
Lemma py_get_raises (v : Any) (k : string) (e : exn) :
  py_get v k = Raise e -> e = AttributeError.
Proof. destruct v; simpl; congruence. Qed.

Lemma OperationMode_of_raw_raises (v : Any) (e : exn) :
  OperationMode_of_raw v = Raise e -> e = ValueError.
Proof. unfold OperationMode_of_raw. destruct (OperationMode_member v); congruence. Qed.

Lemma nonempty_test_raises (v : Any) (e : exn) :
  nonempty_test v = Raise e -> e = TypeError.
Proof.
  unfold nonempty_test. destruct (is_not_None v); [|discriminate].
  destruct (py_len v) as [n|e'] eqn:Hn; cbn; [discriminate|].
  intros [= <-]. destruct v; simpl in Hn; congruence.
Qed.

Lemma collect_modes_raises (l : list Any) (acc : list OperationMode) (e : exn) :
  fold_result
    (fun modes' mode' => member ← OperationMode_of_raw mode'; mret (modes' ++ [member]))
    acc l = Raise e ->
  e = ValueError.
Proof.
  revert acc. induction l as [|x l IH]; intros acc; simpl; [discriminate|].
  destruct (OperationMode_of_raw x) as [m|e'] eqn:Hx; simpl.
  - apply IH.
  - intros [= <-]. exact (OperationMode_of_raw_raises x e' Hx).
Qed.

Lemma collect_modes_iter_raises (v : Any) (e : exn) :
  (items ← py_iter v;
   fold_result
     (fun modes' mode' => member ← OperationMode_of_raw mode'; mret (modes' ++ [member]))
     [] items) = Raise e ->
  e = TypeError \/ e = ValueError.
Proof.
  destruct (py_iter v) as [l|e'] eqn:Hv; simpl.
  - intros Hl. right. exact (collect_modes_raises l [] e Hl).
  - intros [= <-]. left. destruct v; simpl in Hv; congruence.
Qed.

(** The exceptions of an update whose temperature value is a mapping or
    [None]. *)
Definition shape_error (e : exn) : Prop := e = TypeError \/ e = ValueError.

Ltac raises_step :=
  lazymatch goal with
  | |- raises_only _ (mbind _ _) => apply raises_only_bind; [| intros ?]
  | |- raises_only _ (mret _) => apply raises_only_ret
  | |- raises_only _ (setattr _ _) => apply raises_only_setattr
  | |- raises_only _ (getattr _) => apply raises_only_getattr
  | |- raises_only _ (if_not_None _ _) => apply raises_only_if_not_None; intros ?
  | |- raises_only _ (if_is_not_None _ _) =>
      apply raises_only_if_is_not_None; intros ?; try congruence
  | |- raises_only _ (when _ _) => apply raises_only_when
  | |- raises_only _ (for_in _ _) =>
      apply raises_only_for_in; [left; reflexivity | intros ?]
  | |- raises_only _ (lift _) =>
      apply raises_only_lift; intros ? ?;
      first
        [ discriminate
        | right; eapply OperationMode_of_raw_raises; eassumption
        | left; eapply nonempty_test_raises; eassumption
        | eapply collect_modes_iter_raises; eassumption ]
  end.

Lemma Device_update_data_shape_error (update : EntityUpdate) :
  mapping_or_None (dict_get (get_data update) API_AQ_TEMP) ->
  raises_only shape_error (Device.update_data update).
Proof.
  intros Htemp. unfold Device.update_data. cbv zeta.
  fold (nonempty_test (dict_get (get_data update) API_MODE_AVAIL)).
  destruct Htemp as [-> | [d ->]]; repeat raises_step.
Qed.

Lemma AirQuality_update_data_shape_error (update : EntityUpdate) :
  mapping_or_None (dict_get (get_data update) API_AQ_TEMP) ->
  raises_only shape_error (AirQuality.update_data update).
Proof.
  intros Htemp. pose proof (Device_update_data_shape_error update Htemp) as Hd.
  unfold AirQuality.update_data. cbv zeta.
  apply raises_only_bind.
  - apply raises_only_super. exact Hd.
  - intros _. destruct Htemp as [-> | [d ->]]; repeat raises_step.
Qed.

(** A method run from no state at all. *)
Lemma hoare_absurd {S A} (m : M S A) Q E : hoare (fun _ : S => False) m Q E.
Proof. intros s []. Qed.

(** The temperature block on a value that is neither a mapping nor
    [None]. *)
Lemma hoare_celsius_raises {S} (with_attr : option float -> S -> S) (v : Any)
    (P : S -> Prop) :
  ~ mapping_or_None v ->
  hoare P
    (if_is_not_None v
       (celsius ← lift (py_get v API_AQ_TEMP_CELSIUS);
        setattr with_attr (parse_float celsius)))
    (fun _ _ => False) (fun e _ => e = AttributeError).
Proof.
  intros Hv s _. unfold if_is_not_None, when, mbind, M_bind, lift, setattr.
  destruct v; simpl; try reflexivity.
  - apply Hv. left. reflexivity.
  - apply Hv. right. eexists. reflexivity.
Qed.

Lemma Device_update_data_AttributeError (update : EntityUpdate) :
  ~ mapping_or_None (dict_get (get_data update) API_AQ_TEMP) ->
  hoare (fun _ => True) (Device.update_data update)
    (fun _ _ => False) (fun e _ => e = AttributeError).
Proof.
  intros Htemp. unfold Device.update_data. cbv zeta.
  repeat (apply (hoare_bind (fun _ _ => True)); [solve [repeat frame_step] | intros ?]).
  eapply hoare_bind.
  - apply hoare_celsius_raises. exact Htemp.
  - intros ?. apply hoare_absurd.
Qed.

Lemma hoare_outcome {S A} (m : M S A) (s : S) (e0 : exn) :
  hoare (fun _ => True) m (fun _ _ => False) (fun e _ => e = e0) ->
  (m s).2 = Raise e0.
Proof.
  intros Hm. specialize (Hm s I). destruct (m s) as [s' [a|e']]; [destruct Hm|].
  simpl. congruence.
Qed.

(** X9.  The exceptions of [update_data], for [Device] and [AirQuality].  A
    temperature value that is neither a mapping nor [None] always ends the
    update in [AttributeError], whatever else the envelope holds; with any
    other temperature value the update raises nothing but [TypeError] (a
    value that cannot be iterated or measured) and [ValueError] (a mode
    [OperationMode] does not recognise). *)
Theorem update_data_exceptions (update : EntityUpdate) :
  let temp := dict_get (get_data update) API_AQ_TEMP in
  (~ mapping_or_None temp ->
     (forall s, (Device.update_data update s).2 = Raise AttributeError) /\
     (forall t, (AirQuality.update_data update t).2 = Raise AttributeError)) /\
  (mapping_or_None temp ->
     (forall s e, (Device.update_data update s).2 = Raise e ->
        e = TypeError \/ e = ValueError) /\
     (forall t e, (AirQuality.update_data update t).2 = Raise e ->
        e = TypeError \/ e = ValueError)).
Proof.
  cbv zeta. split.
  - intros Htemp.
    pose proof (Device_update_data_AttributeError update Htemp) as Hd.
    split.
    + intros s. exact (hoare_outcome _ s AttributeError Hd).
    + intros t. unfold AirQuality.update_data. cbv zeta.
      unfold mbind at 1, M_bind at 1, super.
      pose proof (hoare_outcome _ (AirQuality.base t) AttributeError Hd)
        as Hs.
      destruct (Device.update_data update (AirQuality.base t)) as [s' r].
      simpl in Hs. subst r. reflexivity.
  - intros Htemp. split.
    + intros s e.
      exact (raises_only_run shape_error _ s e
               (Device_update_data_shape_error update Htemp)).
    + intros t e.
      exact (raises_only_run shape_error _ t e
               (AirQuality_update_data_shape_error update Htemp)).
Qed.

(** ** [AirQuality.update_data] over [Device.update_data] *)

(** Assigning to an inherited attribute the value it holds changes nothing
    of the inherited part. *)
Lemma hoare_reassign {A B} (attr : Device.t -> A)
    (with_attr : A -> Device.t -> Device.t) (inj : B -> A) (parsed : option B)
    (a : A) (d : Device.t) :
  attr d = match parsed with Some v => inj v | None => a end ->
  (forall s, with_attr (attr s) s = s) ->
  hoare (fun t => AirQuality.base t = d)
    (if_not_None parsed
       (fun v => setattr (AirQuality.with_inherited with_attr) (inj v)))
    (fun _ t => AirQuality.base t = d) (fun _ _ => False).
Proof.
  intros Hd Hid. apply hoare_if_not_None.
  - intros v ->. apply hoare_setattr. intros t Ht.
    unfold AirQuality.with_inherited. rewrite AirQuality_base_with_base, Ht, <- Hd.
    apply Hid.
  - intros _ t Ht. exact Ht.
Qed.

Lemma hoare_reassign_celsius (v : Any) (d : Device.t) :
  (forall c, v = PDict c ->
     Device.aq_temp d = parse_float (dict_get c API_AQ_TEMP_CELSIUS)) ->
  mapping_or_None v ->
  hoare (fun t => AirQuality.base t = d)
    (if_is_not_None v
       (celsius ← lift (py_get v API_AQ_TEMP_CELSIUS);
        setattr (AirQuality.with_inherited Device.with_aq_temp) (parse_float celsius)))
    (fun _ t => AirQuality.base t = d) (fun _ _ => False).
Proof.
  intros Hd [-> | [c ->]] t Ht.
  - exact Ht.
  - unfold if_is_not_None, when, mbind, M_bind, lift, setattr,
      AirQuality.with_inherited. simpl.
    rewrite Ht, <- (Hd c eq_refl). destruct d. reflexivity.
Qed.

(** The temperature after [Device.update_data], whether it returns or
    raises. *)
Lemma Device_update_data_celsius (update : EntityUpdate) (d : Dict) (s : Device.t) :
  dict_get (get_data update) API_AQ_TEMP = PDict d ->
  Device.aq_temp (Device.update_data update s).1
  = parse_float (dict_get d API_AQ_TEMP_CELSIUS).
Proof.
  intros Hv.
  set (c := parse_float (dict_get d API_AQ_TEMP_CELSIUS)).
  assert (Hd : hoare (fun _ => True) (Device.update_data update)
                 (fun _ s => Device.aq_temp s = c) (fun _ s => Device.aq_temp s = c)).
  { unfold Device.update_data. cbv zeta. rewrite Hv. subst c.
    walk ltac:(apply (hoare_assign_celsius Device.aq_temp Device.with_aq_temp);
               intros ? []; reflexivity). }
  specialize (Hd s I).
  destruct (Device.update_data update s) as [s' [[]|e]]; exact Hd.
Qed.

Lemma Device_merged_run {A B} (update : EntityUpdate) (parsed : option B)
    (inj : B -> A) (attr : Device.t -> A) (s s' : Device.t) :
  Device_merges update parsed inj attr ->
  Device.update_data update s = (s', Ok tt) ->
  attr s' = match parsed with Some v => inj v | None => attr s end.
Proof.
  intros Hm Hrun.
  exact (hoare_run _ _ _ _ s s' tt (Hm (attr s)) eq_refl Hrun).
Qed.

Lemma bind_run_Raise {S A B} (m : M S A) (k : A -> M S B) (s s' : S) (e : exn) :
  m s = (s', Raise e) -> (m ≫= k) s = (s', Raise e).
Proof. intros Hm. unfold mbind, M_bind. rewrite Hm. reflexivity. Qed.

Lemma super_run_Raise {S T A} (get : T -> S) (set : S -> T -> T) (m : M S A)
    (t : T) (s' : S) (e : exn) :
  m (get t) = (s', Raise e) -> super get set m t = (set s' t, Raise e).
Proof. intros Hm. unfold super. rewrite Hm. reflexivity. Qed.

Ltac reassign_step :=
  lazymatch goal with
  | |- hoare ?P (mbind _ _) _ _ => apply (hoare_bind (fun _ => P)); [| intros ?]
  | |- hoare _ (if_not_None _ (fun v => setattr (AirQuality.with_inherited _) _)) _ _ =>
      eapply (hoare_reassign _ _ Some); [eassumption | intros []; reflexivity]
  | |- hoare _ (if_is_not_None _ (mbind _ _)) _ _ =>
      apply hoare_reassign_celsius; assumption
  | |- hoare _ _ _ _ => solve [repeat frame_step]
  end.

Lemma AirQuality_update_data_tail (update : EntityUpdate) (t : AirQuality.t)
    (d : Device.t) :
  Device.update_data update (AirQuality.base t) = (d, Ok tt) ->
  exists t',
    AirQuality.update_data update t = (t', Ok tt) /\ AirQuality.base t' = d.
Proof.
  intros Hrun.
  pose proof (Device_update_data_accepted update _ _ Hrun) as [Htemp _ _ _ _ _].
  destruct (Device_update_data_merges update)
    as (_ & _ & _ & Hpm_1 & Hpm_2p5 & Hpm_10 & Hco2 & Htvoc & Hhumidity
        & Hpresent & Hquality & Hscore & _).
  apply (fun H => Device_merged_run update _ _ _ _ _ H Hrun) in
    Hpm_1, Hpm_2p5, Hpm_10, Hco2, Htvoc, Hhumidity, Hpresent, Hquality, Hscore.
  assert (Hcelsius : forall c, dict_get (get_data update) API_AQ_TEMP = PDict c ->
            Device.aq_temp d = parse_float (dict_get c API_AQ_TEMP_CELSIUS)).
  { intros c Hc. pose proof (Device_update_data_celsius update c (AirQuality.base t) Hc) as Hd.
    rewrite Hrun in Hd. exact Hd. }
  unfold AirQuality.update_data. cbv zeta.
  rewrite (run_bind _ _ t (AirQuality.with_base d t) tt
             (super_run AirQuality.base AirQuality.with_base _ t d tt Hrun)).
  match goal with
  | |- exists t', ?m ?t0 = _ /\ _ =>
      assert (Htail : hoare (fun t => AirQuality.base t = d) m
                        (fun _ t => AirQuality.base t = d) (fun _ _ => False))
  end.
  { repeat reassign_step. }
  match goal with
  | |- exists t', ?m ?t0 = _ /\ _ =>
      specialize (Htail t0 eq_refl); destruct (m t0) as [t' [[]|e]]
  end; [|destruct Htail].
  exists t'. split; [reflexivity | exact Htail].
Qed.

(** X10.  [AirQuality.update_data] is [Device.update_data] on the inherited
    attributes: it ends as the base method ends on them, returning when it
    returns and raising what it raises, and the inherited attributes are
    afterwards what the base method alone leaves.  The assignments the
    subclass repeats after the call to the base method change no inherited
    attribute, and nothing after that call raises. *)
Theorem AirQuality_update_data_extends_Device (update : EntityUpdate)
    (t : AirQuality.t) :
  (AirQuality.update_data update t).2
  = (Device.update_data update (AirQuality.base t)).2 /\
  AirQuality.base (AirQuality.update_data update t).1
  = (Device.update_data update (AirQuality.base t)).1.
Proof.
  destruct (Device.update_data update (AirQuality.base t)) as [d [[]|e]] eqn:Hrun.
  - destruct (AirQuality_update_data_tail update t d Hrun) as (t' & -> & Ht').
    split; [reflexivity | exact Ht'].
  - unfold AirQuality.update_data. cbv zeta.
    rewrite (bind_run_Raise _ _ t (AirQuality.with_base d t) e
               (super_run_Raise AirQuality.base AirQuality.with_base _ t d e Hrun)).
    split; reflexivity.
Qed.

(** ** An update that stops halfway *)

(** A mode block on a value that denotes no member: it raises, and leaves
    the object as it found it. *)
Lemma hoare_member_aborts {S} (with_attr : option OperationMode -> S -> S)
    (v : Any) (P : S -> Prop) :
  v <> PNone ->
  OperationMode_member v = None ->
  hoare P
    (if_is_not_None v
       (member ← lift (OperationMode_of_raw v); setattr with_attr (Some member)))
    (fun _ _ => False) (fun e s => e = ValueError /\ P s).
Proof.
  intros Hne Hm s Hs.
  assert (Hv : is_not_None v = true).
  { destruct v; try reflexivity. exfalso. apply Hne. reflexivity. }
  unfold if_is_not_None, when, mbind, M_bind, lift, OperationMode_of_raw.
  rewrite Hv, Hm. split; [reflexivity | exact Hs].
Qed.

Lemma aborts_outcome {S A} (m : M S A) (e0 : exn) (s : S) :
  hoare (fun _ => True) m (fun _ _ => False) (fun e _ => e = e0 /\ True) ->
  (m s).2 = Raise e0.
Proof.
  intros Hm. specialize (Hm s I).
  destruct (m s) as [s' [a|e]]; [destruct Hm|].
  destruct Hm as [-> _]. reflexivity.
Qed.

Lemma aborts_merged {S A B C} (m : M S A) (parsed : option C) (inj : C -> B)
    (attr : S -> B) (e0 : exn) (s : S) :
  (forall a,
     hoare (fun s => attr s = a) m (fun _ _ => False)
       (fun e s' =>
          e = e0 /\ attr s' = match parsed with Some v => inj v | None => a end)) ->
  merged parsed inj attr s (m s).1.
Proof.
  intros Hm. specialize (Hm (attr s) s eq_refl). unfold merged.
  destruct (m s) as [s' [a|e]]; [destruct Hm|].
  exact (proj2 Hm).
Qed.

Lemma aborts_kept {S A B} (m : M S A) (attr : S -> B) (e0 : exn) (s : S) :
  (forall c,
     hoare (fun s => attr s = c) m (fun _ _ => False)
       (fun e s' => e = e0 /\ attr s' = c)) ->
  attr (m s).1 = attr s.
Proof.
  intros Hm. specialize (Hm (attr s) s eq_refl).
  destruct (m s) as [s' [a|e]]; [destruct Hm|].
  exact (proj2 Hm).
Qed.

(** Walks a method body up to the step that raises. *)
Ltac abort_walk own :=
  repeat lazymatch goal with
  | |- hoare ?P (mbind _ _) _ _ =>
      first [ eapply hoare_bind; [ solve [own] | intros ?; try apply hoare_absurd ]
            | apply (hoare_bind (fun _ => P)); [ solve [repeat frame_step] | intros ? ] ]
  end.

Ltac member_aborts :=
  lazymatch goal with
  | |- hoare ?P _ _ _ => apply (hoare_member_aborts _ _ P); assumption
  end.

Ltac stops_at_auto_mode Htemp :=
  unfold Device.update_data; cbv zeta;
  let Hv := fresh "Hv" in
  destruct Htemp as [Hv | [? Hv]]; rewrite Hv in *;
  abort_walk ltac:(first
    [ apply (hoare_assign_parsed _ _ (fun v => v)); intros ? []; reflexivity
    | apply (hoare_assign_parsed _ _ Some); intros ? []; reflexivity
    | member_aborts ]).

(** What an update that stopped at the automatic mode has done and has left
    undone. *)
Definition stopped_at_auto_mode (data : Dict) (s s' : Device.t) : Prop :=
  (merged (parse_bool (dict_get data API_IS_CONNECTED)) id Device.is_connected s s' /\
   merged (parse_bool (dict_get data API_WS_CONNECTED)) id Device.ws_connected s s' /\
   merged (parse_bool (dict_get data API_AQ_ACTIVE)) Some Device.aq_active s s' /\
   merged (parse_int (dict_get data API_AQ_PM_1)) Some Device.aq_pm_1 s s' /\
   merged (parse_int (dict_get data API_AQ_PM_2P5)) Some Device.aq_pm_2p5 s s' /\
   merged (parse_int (dict_get data API_AQ_PM_10)) Some Device.aq_pm_10 s s' /\
   merged (parse_int (dict_get data API_AQ_CO2)) Some Device.aq_co2 s s' /\
   merged (parse_int (dict_get data API_AQ_TVOC)) Some Device.aq_tvoc s s' /\
   merged (parse_int (dict_get data API_AQ_HUMIDITY)) Some Device.aq_humidity s s' /\
   merged (parse_bool (dict_get data API_AQ_PRESENT)) Some Device.aq_present s s' /\
   merged (parse_str (dict_get data API_AQ_QUALITY)) Some Device.aq_quality s s' /\
   merged (parse_str (dict_get data API_AQ_SCORE)) Some Device.aq_score s s') /\
  (Device.auto_mode s' = Device.auto_mode s /\
   Device.double_set_point s' = Device.double_set_point s /\
   Device.dual_sp_conf s' = Device.dual_sp_conf s /\
   Device.errors s' = Device.errors s /\
   Device.mode s' = Device.mode s /\
   Device.modes s' = Device.modes s /\
   Device.simulator_mode s' = Device.simulator_mode s /\
   Device.warnings s' = Device.warnings s).

(** X11.  An update is not all or nothing.  When the value under the
    automatic-mode key denotes no member of [OperationMode] (and the
    temperature value is a mapping or [None], so that the method gets that
    far), [Device.update_data] raises [ValueError]; by then the connection
    flags and the air-quality readings hold what the envelope gave for them,
    and the attributes whose blocks come later (the modes, the set-point
    flags, the errors and warnings, the simulator flag) are as they were,
    whatever the envelope holds for them. *)
Theorem update_data_stops_at_unrecognised_auto_mode (update : EntityUpdate)
    (s : Device.t) :
  mapping_or_None (dict_get (get_data update) API_AQ_TEMP) ->
  dict_get (get_data update) API_AUTO_MODE <> PNone ->
  OperationMode_member (dict_get (get_data update) API_AUTO_MODE) = None ->
  (Device.update_data update s).2 = Raise ValueError /\
  stopped_at_auto_mode (get_data update) s (Device.update_data update s).1.
Proof.
  intros Htemp Hne Hm. split; [| split].
  - apply (aborts_outcome _ ValueError s). stops_at_auto_mode Htemp.
  - repeat apply conj;
      apply (aborts_merged _ _ _ _ ValueError s); intros ?;
      stops_at_auto_mode Htemp.
  - repeat apply conj;
      apply (aborts_kept _ _ ValueError s); intros ?;
      stops_at_auto_mode Htemp.
Qed.

(** ** What [data()] returns *)

Lemma lookup_store_if_not_None_eq {A} (key : string) (inj : A -> Value)
    (x : option A) (d : gmap string Value) :
  store_if_not_None key inj x d !! key
  = match x with Some v => Some (inj v) | None => d !! key end.
Proof. destruct x; simpl; [apply lookup_insert_eq | reflexivity]. Qed.

Lemma lookup_if_insert_eq (c : bool) (key : string) (v : Value)
    (d : gmap string Value) :
  (if c then <[key := v]> d else d) !! key = if c then Some v else d !! key.
Proof. destruct c; [apply lookup_insert_eq | reflexivity]. Qed.

Lemma lookup_store_quality_ne (q k : string) (d : gmap string Value) :
  AZD_AQ_QUALITY <> k -> store_quality q d !! k = d !! k.
Proof.
  intros Hne. unfold store_quality.
  revert d. induction API_AQ_QUALITY_LEVELS as [|[key value] table IH];
    intros d; simpl; [reflexivity|].
  rewrite IH. destruct (String.eqb q key); [|reflexivity].
  apply lookup_insert_ne. exact Hne.
Qed.

Lemma lookup_quality_ne (x : option string) (k : string) (d : gmap string Value) :
  AZD_AQ_QUALITY <> k ->
  match x with Some q => store_quality q d | None => d end !! k = d !! k.
Proof. intros Hne. destruct x; [apply lookup_store_quality_ne; exact Hne | reflexivity]. Qed.

Lemma lookup_quality_eq (x : option string) (d : gmap string Value) :
  match x with Some q => store_quality q d | None => d end !! AZD_AQ_QUALITY
  = match x ≫= level_name with
    | Some name => Some (VStr name)
    | None => d !! AZD_AQ_QUALITY
    end.
Proof. destruct x as [q|]; simpl; [apply store_quality_lookup | reflexivity]. Qed.

Lemma positive_length_truthy {A} (l : list A) :
  (0 <? Z.of_nat (length l))%Z = Device.list_truthy l.
Proof. destruct l; reflexivity. Qed.

(** The run of [Device.data]: every getter returns and leaves the object as
    it is. *)
Ltac run_Device_data h s :=
  unfold Device.data;
  rewrite (run_bind _ _ s s _ (Device_get_available_run s));
  rewrite (run_bind _ _ s s _ (Device_get_double_set_point_run s));
  rewrite (run_bind _ _ s s _ (eq_refl : Device.get_id s = (s, Ok _)));
  rewrite (run_bind _ _ s s _ (eq_refl : Device.get_installation s = (s, Ok _)));
  rewrite (run_bind _ _ s s _ (eq_refl : Device.get_is_connected s = (s, Ok _)));
  rewrite (run_bind _ _ s s _ (eq_refl : Device.get_name s = (s, Ok _)));
  rewrite (run_bind _ _ s s _ (Device_get_problems_run s));
  rewrite (run_bind _ _ s s _ (eq_refl : Device.get_webserver s = (s, Ok _)));
  rewrite (run_bind _ _ s s _ (eq_refl : Device.get_ws_connected s = (s, Ok _)));
  cbv zeta;
  rewrite (run_bind _ _ s s _ (Device_get_aq_active_delegates h s));
  rewrite (run_bind _ _ s s _ (Device_get_aq_quality_delegates h s));
  rewrite (run_bind _ _ s s _ (Device_get_aq_score_delegates h s));
  rewrite (run_bind _ _ s s _ (Device_get_aq_pm_1_delegates h s));
  rewrite (run_bind _ _ s s _ (Device_get_aq_pm_2p5_delegates h s));
  rewrite (run_bind _ _ s s _ (Device_get_aq_pm_10_delegates h s));
  rewrite (run_bind _ _ s s _ (Device_get_aq_co2_delegates h s));
  rewrite (run_bind _ _ s s _ (Device_get_aq_tvoc_delegates h s));
  rewrite (run_bind _ _ s s _ (Device_get_aq_humidity_delegates h s));
  rewrite (run_bind _ _ s s _ (Device_get_aq_temp_delegates h s));
  rewrite (run_bind _ _ s s _ (Device_get_aq_present_delegates h s));
  rewrite (run_bind _ _ s s _ (eq_refl : Device.get_dual_sp_conf s = (s, Ok _)));
  rewrite (run_bind _ _ s s _ (eq_refl : Device.get_errors s = (s, Ok _)));
  rewrite (run_bind _ _ s s _ (eq_refl : Device.get_mode s = (s, Ok _)));
  rewrite (run_bind _ _ s s _ (eq_refl : Device.get_mode_auto s = (s, Ok _)));
  rewrite (run_bind _ _ s s _ (Device_get_modes_run s));
  rewrite (run_bind _ _ s s _ (eq_refl : Device.get_simulator_mode s = (s, Ok _)));
  rewrite (run_bind _ _ s s _ (eq_refl : Device.get_warnings s = (s, Ok _))).

(** Looks a key up through the stores of [data()]; [other] shows that two
    keys differ. *)
Ltac lookup_key other :=
  unfold Device.dict_display; simpl fold_left;
  repeat first
    [ rewrite lookup_store_if_not_None by other
    | rewrite lookup_if_insert by other
    | rewrite lookup_insert_ne by other
    | rewrite lookup_quality_ne by other
    | rewrite lookup_store_if_not_None_eq
    | rewrite lookup_if_insert_eq
    | rewrite lookup_insert_eq
    | rewrite lookup_quality_eq
    | rewrite lookup_empty ].

(** The keys of the mapping [Device.data] returns. *)
Definition Device_data_keys : list string :=
  [ AZD_AVAILABLE; AZD_DOUBLE_SET_POINT; AZD_ID; AZD_INSTALLATION;
    AZD_IS_CONNECTED; AZD_NAME; AZD_PROBLEMS; AZD_WEBSERVER; AZD_WS_CONNECTED;
    AZD_AQ_ACTIVE; AZD_AQ_QUALITY; AZD_AQ_SCORE; AZD_AQ_PM_1; AZD_AQ_PM_2P5;
    AZD_AQ_PM_10; AZD_AQ_CO2; AZD_AQ_TVOC; AZD_AQ_HUMIDITY; AZD_AQ_TEMP;
    AZD_AQ_PRESENT; AZD_DUAL_SP_CONF; AZD_ERRORS; AZD_MODE; AZD_MODE_AUTO;
    AZD_MODES; AZD_SIMULATOR_MODE; AZD_WARNINGS ].

(** An air-quality attribute as the getters resolve it: read through the
    associated [AirQuality] object when there is one. *)
Definition resolved {A} (h : Device.Store) (s : Device.t) (x : Device.t -> A) : A :=
  match Device.air_quality s with
  | Some r => x (h r)
  | None => x s
  end.

(** The entries that are always there. *)
Definition Device_fixed_entries (s : Device.t) (d : gmap string Value) : Prop :=
  d !! AZD_AVAILABLE = Some (VBool (Device.is_connected s && Device.ws_connected s)) /\
  d !! AZD_DOUBLE_SET_POINT = Some (VBool (default false (Device.double_set_point s))) /\
  d !! AZD_ID = Some (VStr (Device.id s)) /\
  d !! AZD_INSTALLATION = Some (VStr (Device.installation_id s)) /\
  d !! AZD_IS_CONNECTED = Some (VBool (Device.is_connected s)) /\
  d !! AZD_NAME = Some (VStr (Device.name s)) /\
  d !! AZD_PROBLEMS =
    Some (VBool (Device.list_truthy (Device.errors s)
                 || Device.list_truthy (Device.warnings s))) /\
  d !! AZD_WEBSERVER = Some (VStr (Device.webserver_id s)) /\
  d !! AZD_WS_CONNECTED = Some (VBool (Device.ws_connected s)).

(** The entries that are there when the object has a value for them. *)
Definition Device_optional_entries (h : Device.Store) (s : Device.t)
    (d : gmap string Value) : Prop :=
  d !! AZD_AQ_ACTIVE = VBool <$> resolved h s Device.aq_active /\
  d !! AZD_AQ_QUALITY = VStr <$> (resolved h s Device.aq_quality ≫= level_name) /\
  d !! AZD_AQ_SCORE = VStr <$> resolved h s Device.aq_score /\
  d !! AZD_AQ_PM_1 = VInt <$> resolved h s Device.aq_pm_1 /\
  d !! AZD_AQ_PM_2P5 = VInt <$> resolved h s Device.aq_pm_2p5 /\
  d !! AZD_AQ_PM_10 = VInt <$> resolved h s Device.aq_pm_10 /\
  d !! AZD_AQ_CO2 = VInt <$> resolved h s Device.aq_co2 /\
  d !! AZD_AQ_TVOC = VInt <$> resolved h s Device.aq_tvoc /\
  d !! AZD_AQ_HUMIDITY = VInt <$> resolved h s Device.aq_humidity /\
  d !! AZD_AQ_TEMP = VFloat <$> resolved h s Device.aq_temp /\
  d !! AZD_AQ_PRESENT = VBool <$> resolved h s Device.aq_present /\
  d !! AZD_DUAL_SP_CONF = VBool <$> Device.dual_sp_conf s /\
  d !! AZD_ERRORS =
    (if Device.list_truthy (Device.errors s) then Some (VList (Device.errors s))
     else None) /\
  d !! AZD_MODE = VMode <$> Device.mode s /\
  d !! AZD_MODE_AUTO = VMode <$> Device.auto_mode s /\
  d !! AZD_MODES =
    (if Device.list_truthy (Device.modes s) then Some (VModes (Device.modes s))
     else None) /\
  d !! AZD_SIMULATOR_MODE = VBool <$> Device.simulator_mode s /\
  d !! AZD_WARNINGS =
    (if Device.list_truthy (Device.warnings s) then Some (VList (Device.warnings s))
     else None).

Ltac close_entry :=
  rewrite ?positive_length_truthy;
  repeat match goal with
         | |- context [Device.list_truthy ?l] => destruct (Device.list_truthy l)
         end;
  repeat match goal with
         | |- context [match ?x with _ => _ end] => destruct x
         end;
  reflexivity.

Lemma Device_data_entries (h : Device.Store) (s : Device.t) :
  exists d,
    Device.data h s = (s, Ok d) /\
    Device_fixed_entries s d /\
    Device_optional_entries h s d /\
    (forall k, k ∉ Device_data_keys -> d !! k = None).
Proof.
  run_Device_data h s.
  eexists. split; [reflexivity|].
  fold (resolved h s Device.aq_active) (resolved h s Device.aq_quality)
       (resolved h s Device.aq_score) (resolved h s Device.aq_pm_1)
       (resolved h s Device.aq_pm_2p5) (resolved h s Device.aq_pm_10)
       (resolved h s Device.aq_co2) (resolved h s Device.aq_tvoc)
       (resolved h s Device.aq_humidity) (resolved h s Device.aq_temp)
       (resolved h s Device.aq_present).
  split; [| split].
  - repeat apply conj; lookup_key discriminate; reflexivity.
  - repeat apply conj; lookup_key discriminate; close_entry.
  - intros k Hk. unfold Device_data_keys in Hk.
    repeat match goal with
           | Hk : _ ∉ _ :: _ |- _ =>
               let H := fresh in
               apply not_elem_of_cons in Hk as [H Hk]; apply not_eq_sym in H
           end.
    lookup_key assumption. reflexivity.
Qed.


(** X13.  What a reader of the mapping can rely on without looking at the
    object: the problems flag is set exactly when the mapping has an errors
    or a warnings entry, those entries are never empty lists, and the
    available flag is the conjunction of the two connection flags. *)
Theorem Device_data_consistent (h : Device.Store) (s : Device.t) :
  exists d,
    Device.data h s = (s, Ok d) /\
    (d !! AZD_PROBLEMS = Some (VBool true)
     <-> is_Some (d !! AZD_ERRORS) \/ is_Some (d !! AZD_WARNINGS)) /\
    d !! AZD_ERRORS <> Some (VList []) /\
    d !! AZD_WARNINGS <> Some (VList []) /\
    d !! AZD_MODES <> Some (VModes []) /\
    (d !! AZD_AVAILABLE = Some (VBool true)
     <-> d !! AZD_IS_CONNECTED = Some (VBool true)
         /\ d !! AZD_WS_CONNECTED = Some (VBool true)).
Proof.
  destruct (Device_data_entries h s) as (d & Hrun & Hfixed & Hoptional & _).
  exists d. split; [exact Hrun|].
  destruct Hfixed as (Havailable & _ & _ & _ & Hconnected & _ & Hproblems & _ & Hws).
  destruct Hoptional
    as (_ & _ & _ & _ & _ & _ & _ & _ & _ & _ & _ & _ & Herrors & _ & _ & Hmodes
        & _ & Hwarnings).
  rewrite Havailable, Hconnected, Hproblems, Hws, Herrors, Hmodes, Hwarnings.
  split; [| split; [| split; [| split]]].
  - destruct (Device.errors s), (Device.warnings s); simpl; split;
      solve
        [ discriminate
        | intros _; reflexivity
        | intros _; left; eexists; reflexivity
        | intros _; right; eexists; reflexivity
        | intros [[? [=]]|[? [=]]] ].
  - destruct (Device.errors s); discriminate.
  - destruct (Device.warnings s); discriminate.
  - destruct (Device.modes s); discriminate.
  - destruct (Device.is_connected s), (Device.ws_connected s); simpl; split;
      solve
        [ discriminate
        | intros _; split; reflexivity
        | intros _; reflexivity
        | intros [[=] _]
        | intros [_ [=]] ].
Qed.

(** ** [AirQuality.data] over [Device.data] *)

(** A store of the value the mapping already holds under the key. *)
Lemma lookup_store_redundant {A} (key k : string) (inj : A -> Value)
    (x : option A) (d0 d : gmap string Value) :
  d !! key = inj <$> x ->
  d0 !! k = d !! k ->
  store_if_not_None key inj x d0 !! k = d !! k.
Proof.
  intros Hd Hk. destruct x as [v|]; simpl; [|exact Hk].
  destruct (decide (key = k)) as [<-|Hne].
  - rewrite lookup_insert_eq. symmetry. exact Hd.
  - rewrite lookup_insert_ne by exact Hne. exact Hk.
Qed.

Lemma lookup_quality_redundant (x : option string) (k : string)
    (d0 d : gmap string Value) :
  d !! AZD_AQ_QUALITY = VStr <$> (x ≫= level_name) ->
  d0 !! k = d !! k ->
  match x with Some q => store_quality q d0 | None => d0 end !! k = d !! k.
Proof.
  intros Hd Hk. destruct (decide (AZD_AQ_QUALITY = k)) as [<-|Hne].
  - rewrite lookup_quality_eq, Hk, Hd.
    destruct (x ≫= level_name); reflexivity.
  - rewrite lookup_quality_ne by exact Hne. exact Hk.
Qed.

(** The keys [AirQuality.data] adds. *)
Definition AirQuality_own_keys : list string :=
  [AZD_AQ_VENT_ACTIVE; AZD_AQ_PRESSURE; AZD_SYSTEM; AZD_ZONE; AZD_FIRMWARE].

(** An attribute of the [AirQuality] object as its getters resolve it. *)
Definition resolved_own {A} (h : AirQuality.Store) (t : AirQuality.t)
    (x : AirQuality.t -> A) : A :=
  match AirQuality.inherited Device.air_quality t with
  | Some r => x (h r)
  | None => x t
  end.

Definition AirQuality_own_entries (h : AirQuality.Store) (t : AirQuality.t)
    (d : gmap string Value) : Prop :=
  d !! AZD_AQ_VENT_ACTIVE = VBool <$> resolved_own h t AirQuality.aq_vent_active /\
  d !! AZD_AQ_PRESSURE =
    (if is_not_None (resolved_own h t AirQuality.aq_pressure)
     then Some (VAny (resolved_own h t AirQuality.aq_pressure)) else None) /\
  d !! AZD_SYSTEM = Some (VInt (AirQuality.system_number t)) /\
  d !! AZD_ZONE = Some (VInt (AirQuality.zone_number t)) /\
  d !! AZD_FIRMWARE = VStr <$> AirQuality.aq_sensor_fw t.

Ltac run_AirQuality_data h t Hrun :=
  unfold AirQuality.data;
  rewrite (run_bind _ _ t t _ Hrun);
  rewrite (run_bind _ _ t t _ (AirQuality_get_aq_vent_active_delegates h t));
  rewrite (run_bind _ _ t t _ (AirQuality_get_aq_quality_delegates h t));
  rewrite (run_bind _ _ t t _ (AirQuality_get_aq_score_delegates h t));
  rewrite (run_bind _ _ t t _ (AirQuality_get_aq_pm_1_delegates h t));
  rewrite (run_bind _ _ t t _ (AirQuality_get_aq_pm_2p5_delegates h t));
  rewrite (run_bind _ _ t t _ (AirQuality_get_aq_pm_10_delegates h t));
  rewrite (run_bind _ _ t t _ (AirQuality_get_aq_co2_delegates h t));
  rewrite (run_bind _ _ t t _ (AirQuality_get_aq_tvoc_delegates h t));
  rewrite (run_bind _ _ t t _ (AirQuality_get_aq_humidity_delegates h t));
  rewrite (run_bind _ _ t t _ (AirQuality_get_aq_temp_delegates h t));
  rewrite (run_bind _ _ t t _ (AirQuality_get_aq_pressure_delegates h t));
  rewrite (run_bind _ _ t t _ (AirQuality_get_aq_present_delegates h t));
  rewrite (run_bind _ _ t t _ (eq_refl : AirQuality.get_system_num t = (t, Ok _)));
  rewrite (run_bind _ _ t t _ (eq_refl : AirQuality.get_zone_num t = (t, Ok _)));
  rewrite (run_bind _ _ t t _ (eq_refl : AirQuality.get_aq_sensor_fw t = (t, Ok _))).

Lemma AirQuality_own_keys_fresh (k : string) :
  k ∈ AirQuality_own_keys -> k ∉ Device_data_keys.
Proof.
  unfold AirQuality_own_keys, Device_data_keys. intros Hk.
  repeat (apply elem_of_cons in Hk as [-> | Hk];
          [ repeat (apply not_elem_of_cons; split; [discriminate|]);
            apply not_elem_of_nil | ]).
  apply elem_of_nil in Hk. destruct Hk.
Qed.

Lemma AirQuality_data_entries (h : AirQuality.Store) (t : AirQuality.t) :
  exists d d',
    Device.data (AirQuality.as_devices h) (AirQuality.base t)
    = (AirQuality.base t, Ok d) /\
    AirQuality.data h t = (t, Ok d') /\
    (forall k, k ∉ AirQuality_own_keys -> d' !! k = d !! k) /\
    AirQuality_own_entries h t d'.
Proof.
  destruct (Device_data_entries (AirQuality.as_devices h) (AirQuality.base t))
    as (d & Hrun & _ & Hoptional & Hnone).
  exists d. pose proof Hrun as Hsuper.
  apply (super_run AirQuality.base AirQuality.with_base) in Hsuper.
  replace (AirQuality.with_base (AirQuality.base t) t) with t in Hsuper
    by (destruct t; reflexivity).
  run_AirQuality_data h t Hsuper.
  eexists. split; [exact Hrun|]. split; [reflexivity|].
  destruct Hoptional
    as (Hactive & Hquality & Hscore & Hpm_1 & Hpm_2p5 & Hpm_10 & Hco2 & Htvoc
        & Hhumidity & Htemp & Hpresent & _).
  split.
  - intros k Hk. unfold AirQuality_own_keys in Hk.
    repeat match goal with
           | Hk : _ ∉ _ :: _ |- _ =>
               let H := fresh in
               apply not_elem_of_cons in Hk as [H Hk]; apply not_eq_sym in H
           end.
    repeat first
      [ rewrite lookup_store_if_not_None by assumption
      | rewrite lookup_if_insert by assumption
      | rewrite lookup_insert_ne by assumption
      | apply lookup_store_redundant; [assumption|]
      | apply lookup_quality_redundant; [assumption|] ].
    reflexivity.
  - assert (Hfresh : forall k, k ∈ AirQuality_own_keys -> d !! k = None).
    { intros k Hk. apply Hnone, AirQuality_own_keys_fresh, Hk. }
    unfold AirQuality_own_entries, AirQuality_own_keys in *.
    fold (resolved_own h t AirQuality.aq_vent_active)
         (resolved_own h t AirQuality.aq_pressure).
    repeat apply conj;
      repeat first
        [ rewrite lookup_store_if_not_None by discriminate
        | rewrite lookup_if_insert by discriminate
        | rewrite lookup_insert_ne by discriminate
        | rewrite lookup_quality_ne by discriminate
        | rewrite lookup_store_if_not_None_eq
        | rewrite lookup_if_insert_eq
        | rewrite lookup_insert_eq ];
      rewrite ?Hfresh by (repeat first [left | right]);
      repeat match goal with
             | |- context [match ?x with _ => _ end] => destruct x
             end;
      reflexivity.
Qed.

(** X14.  [AirQuality.data] is [Device.data] of the inherited part with
    five entries added: ventilation, pressure, system number, zone number and
    sensor firmware.  Under every other key the two mappings agree, so the
    stores the subclass repeats after [super().data()] change nothing; the
    system and zone numbers are always there, the other three when the object
    has a value for them.  The call returns and leaves the object as it was. *)
Theorem AirQuality_data_extends_Device (h : AirQuality.Store) (t : AirQuality.t) :
  exists d d',
    Device.data (AirQuality.as_devices h) (AirQuality.base t)
    = (AirQuality.base t, Ok d) /\
    AirQuality.data h t = (t, Ok d') /\
    (forall k, k ∉ AirQuality_own_keys -> d' !! k = d !! k) /\
    AirQuality_own_entries h t d'.
Proof. exact (AirQuality_data_entries h t). Qed.

(** ** Registering systems and zones *)

Lemma add_system_run (get_id : ref -> string) (system : ref) (t : AirQuality.t) :
  AirQuality.add_system get_id system t
  = (match AirQuality.systems t !! get_id system with
     | None =>
         AirQuality.with_systems (<[get_id system := system]> (AirQuality.systems t)) t
     | Some _ => t
     end, Ok tt).
Proof.
  unfold AirQuality.add_system, mbind, M_bind, getattr. cbv zeta.
  destruct (AirQuality.systems t !! get_id system); reflexivity.
Qed.

Lemma add_zone_run (get_id : ref -> string) (zone : ref) (t : AirQuality.t) :
  AirQuality.add_zone get_id zone t
  = (match AirQuality.zones t !! get_id zone with
     | None => AirQuality.with_zones (<[get_id zone := zone]> (AirQuality.zones t)) t
     | Some _ => t
     end, Ok tt).
Proof.
  unfold AirQuality.add_zone, mbind, M_bind, getattr. cbv zeta.
  destruct (AirQuality.zones t !! get_id zone); reflexivity.
Qed.

(** X15.  [add_system] and [add_zone] register an object under its id, and
    the first registration wins: afterwards the id refers to the object that
    was there before, if any, and to the new one otherwise; every other id,
    and every other attribute, is as it was; a second object with the same id
    is ignored; and the two registries do not touch each other.  Neither
    method raises. *)
Theorem registration_first_wins (get_id : ref -> string) (r r2 : ref)
    (t : AirQuality.t) :
  let t1 := (AirQuality.add_system get_id r t).1 in
  let t2 := (AirQuality.add_zone get_id r t).1 in
  ((AirQuality.add_system get_id r t).2 = Ok tt /\
   AirQuality.systems t1 !! get_id r
   = Some (default r (AirQuality.systems t !! get_id r)) /\
   (forall k, k <> get_id r -> AirQuality.systems t1 !! k = AirQuality.systems t !! k) /\
   t1 = AirQuality.with_systems (AirQuality.systems t1) t /\
   (get_id r2 = get_id r -> AirQuality.add_system get_id r2 t1 = (t1, Ok tt))) /\
  ((AirQuality.add_zone get_id r t).2 = Ok tt /\
   AirQuality.zones t2 !! get_id r
   = Some (default r (AirQuality.zones t !! get_id r)) /\
   (forall k, k <> get_id r -> AirQuality.zones t2 !! k = AirQuality.zones t !! k) /\
   t2 = AirQuality.with_zones (AirQuality.zones t2) t /\
   (get_id r2 = get_id r -> AirQuality.add_zone get_id r2 t2 = (t2, Ok tt))) /\
  (AirQuality.add_zone get_id r2 t1).1
  = (AirQuality.add_system get_id r (AirQuality.add_zone get_id r2 t).1).1.
Proof.
  cbv zeta. rewrite !add_system_run, !add_zone_run. simpl.
  split; [| split].
  - destruct (AirQuality.systems t !! get_id r) as [r0|] eqn:Hr; simpl.
    + repeat apply conj; try reflexivity.
      * exact Hr.
      * destruct t; reflexivity.
      * intros ->. rewrite Hr. reflexivity.
    + repeat apply conj; try reflexivity.
      * apply lookup_insert_eq.
      * intros k Hk. apply lookup_insert_ne. congruence.
      * intros ->. rewrite lookup_insert_eq. reflexivity.
  - destruct (AirQuality.zones t !! get_id r) as [r0|] eqn:Hr; simpl.
    + repeat apply conj; try reflexivity.
      * exact Hr.
      * destruct t; reflexivity.
      * intros ->. rewrite Hr. reflexivity.
    + repeat apply conj; try reflexivity.
      * apply lookup_insert_eq.
      * intros k Hk. apply lookup_insert_ne. congruence.
      * intros ->. rewrite lookup_insert_eq. reflexivity.
  - destruct (AirQuality.systems t !! get_id r) as [r0|] eqn:Hr,
      (AirQuality.zones t !! get_id r2) as [r1|] eqn:Hr2; simpl;
      rewrite ?Hr, ?Hr2; reflexivity.
Qed.

(** ** Construction *)

Lemma dict_getitem_contains (d : Dict) (k : string) :
  dict_getitem d k = (if dict_contains k d then Ok (dict_get d k) else Raise KeyError).
Proof.
  induction d as [|[k' v] d IH]; simpl; [reflexivity|].
  destruct (String.eqb k k'); simpl; [reflexivity | exact IH].
Qed.

(** The keys of the entries of [Device.data] that are always there. *)
Definition Device_fixed_keys : list string :=
  [ AZD_AVAILABLE; AZD_DOUBLE_SET_POINT; AZD_ID; AZD_INSTALLATION;
    AZD_IS_CONNECTED; AZD_NAME; AZD_PROBLEMS; AZD_WEBSERVER; AZD_WS_CONNECTED ].

Lemma Device_init_run (inst_id ws_id : string) (device_data : Dict) :
  dict_contains API_DEVICE_ID device_data = true ->
  exists s,
    Device.init inst_id ws_id device_data = Ok s /\
    Device.id s = py_str (dict_get device_data API_DEVICE_ID) /\
    Device.installation_id s = inst_id /\
    Device.webserver_id s = ws_id /\
    Device.name s = "Device" /\
    Device.is_connected s
    = default true (parse_bool (dict_get device_data API_IS_CONNECTED)) /\
    Device.ws_connected s = true /\
    Device.air_quality s = None /\
    Device.errors s = [] /\ Device.warnings s = [] /\ Device.modes s = [] /\
    Device.double_set_point s = None /\
    (Device.aq_active s = None /\ Device.aq_quality s = None /\
     Device.aq_score s = None /\ Device.aq_pm_1 s = None /\
     Device.aq_pm_2p5 s = None /\ Device.aq_pm_10 s = None /\
     Device.aq_co2 s = None /\ Device.aq_tvoc s = None /\
     Device.aq_humidity s = None /\ Device.aq_temp s = None /\
     Device.aq_present s = None /\ Device.dual_sp_conf s = None /\
     Device.mode s = None /\ Device.auto_mode s = None /\
     Device.simulator_mode s = None).
Proof.
  intros Hid. unfold Device.init. rewrite dict_getitem_contains, Hid.
  eexists. split; [reflexivity|]. simpl.
  destruct (parse_bool (dict_get device_data API_IS_CONNECTED));
    repeat apply conj; reflexivity.
Qed.

(** X16.  A device straight from its constructor.  [Device.__init__] raises
    [KeyError] exactly when the payload has no device id.  Otherwise the
    device is connected unless the payload says it is not, and its [data()]
    holds the nine entries that are always there and nothing else: the
    payload's id as a string, the two ids given, the name "Device", no
    problems, no double set point, and available exactly when connected. *)
Theorem fresh_Device_data (h : Device.Store) (inst_id ws_id : string)
    (device_data : Dict) :
  (Device.init inst_id ws_id device_data = Raise KeyError
   <-> dict_contains API_DEVICE_ID device_data = false) /\
  (dict_contains API_DEVICE_ID device_data = true ->
   exists s d,
     Device.init inst_id ws_id device_data = Ok s /\
     Device.data h s = (s, Ok d) /\
     d !! AZD_ID = Some (VStr (py_str (dict_get device_data API_DEVICE_ID))) /\
     d !! AZD_INSTALLATION = Some (VStr inst_id) /\
     d !! AZD_WEBSERVER = Some (VStr ws_id) /\
     d !! AZD_NAME = Some (VStr "Device") /\
     d !! AZD_IS_CONNECTED
     = Some (VBool (default true (parse_bool (dict_get device_data API_IS_CONNECTED)))) /\
     d !! AZD_WS_CONNECTED = Some (VBool true) /\
     d !! AZD_AVAILABLE = d !! AZD_IS_CONNECTED /\
     d !! AZD_PROBLEMS = Some (VBool false) /\
     d !! AZD_DOUBLE_SET_POINT = Some (VBool false) /\
     (forall k, k ∉ Device_fixed_keys -> d !! k = None)).
Proof.
  split.
  - unfold Device.init. rewrite dict_getitem_contains.
    destruct (dict_contains API_DEVICE_ID device_data); simpl; split;
      solve [ discriminate | reflexivity ].
  - intros Hid.
    destruct (Device_init_run inst_id ws_id device_data Hid)
      as (s & Hinit & Hid' & Hinst & Hws & Hname & Hconn & Hwsc & Haq & Herr & Hwarn
          & Hmodes & Hdsp & Hrest).
    destruct (Device_data_entries h s) as (d & Hrun & Hfixed & Hoptional & Hnone).
    exists s, d. split; [exact Hinit|]. split; [exact Hrun|].
    destruct Hfixed as (Ha & Hd & Hi & Hin & Hic & Hn & Hp & Hw & Hwc).
    rewrite Ha, Hd, Hi, Hin, Hic, Hn, Hp, Hw, Hwc.
    rewrite Hid', Hinst, Hws, Hname, Hconn, Hwsc, Herr, Hwarn, Hdsp.
    repeat apply conj; try reflexivity.
    + rewrite andb_true_r. reflexivity.
    + intros k Hk.
      destruct (decide (k ∈ Device_data_keys)) as [Hin'|Hout]; [|exact (Hnone k Hout)].
      unfold Device_optional_entries, resolved in Hoptional.
      rewrite Haq, Herr, Hwarn, Hmodes in Hoptional.
      destruct Hrest as (R1 & R2 & R3 & R4 & R5 & R6 & R7 & R8 & R9 & R10 & R11
                         & R12 & R13 & R14 & R15).
      rewrite R1, R2, R3, R4, R5, R6, R7, R8, R9, R10, R11, R12, R13, R14, R15
        in Hoptional.
      unfold Device_data_keys in Hin'. unfold Device_fixed_keys in Hk.
      repeat (apply elem_of_cons in Hin' as [-> | Hin'];
              [ first [ solve [exfalso; apply Hk; repeat first [left | right]]
                      | repeat match goal with
                               | H : _ /\ _ |- _ => destruct H
                               end; assumption ] | ]).
      apply elem_of_nil in Hin'. destruct Hin'.
Qed.

(** What [AirQuality.__init__] does when a number is missing. *)
Lemma AirQuality_init_located (inst_id ws_id : string) (device_data : Dict) :
  dict_contains API_DEVICE_ID device_data = true ->
  mapping_or_None (dict_get device_data API_META) ->
  mapping_or_None (dict_get device_data API_CONFIG) ->
  (dict_contains API_SYSTEM_NUMBER (first_location device_data) = false ->
   AirQuality.init inst_id ws_id device_data = Raise KeyError) /\
  (forall sn,
     py_int (dict_get (first_location device_data) API_SYSTEM_NUMBER) = Ok sn ->
     dict_contains API_SYSTEM_NUMBER (first_location device_data) = true ->
     dict_contains API_ZONE_NUMBER (first_location device_data) = false ->
     AirQuality.init inst_id ws_id device_data = Raise KeyError) /\
  (forall e,
     py_int (dict_get (first_location device_data) API_SYSTEM_NUMBER) = Raise e ->
     dict_contains API_SYSTEM_NUMBER (first_location device_data) = true ->
     AirQuality.init inst_id ws_id device_data = Raise e).
Proof.
  intros Hid Hmeta Hconfig.
  split; [| split].
  - intros Hsn. unfold AirQuality.init, Device.init.
    rewrite dict_getitem_contains, Hid.
    cbn [mbind result_bind mret result_ret].
    rewrite (sub_data_first_location device_data Hmeta Hconfig).
    cbn [mbind result_bind mret result_ret py_getitem].
    rewrite (dict_getitem_contains _ API_SYSTEM_NUMBER), Hsn. reflexivity.
  - intros sn Hint Hsn Hzn. unfold AirQuality.init, Device.init.
    rewrite dict_getitem_contains, Hid.
    cbn [mbind result_bind mret result_ret].
    rewrite (sub_data_first_location device_data Hmeta Hconfig).
    cbn [mbind result_bind mret result_ret py_getitem].
    rewrite (dict_getitem_contains _ API_SYSTEM_NUMBER), Hsn.
    cbn [mbind result_bind mret result_ret]. rewrite Hint.
    cbn [mbind result_bind mret result_ret].
    rewrite (dict_getitem_contains _ API_ZONE_NUMBER), Hzn. reflexivity.
  - intros e Hint Hsn. unfold AirQuality.init, Device.init.
    rewrite dict_getitem_contains, Hid.
    cbn [mbind result_bind mret result_ret].
    rewrite (sub_data_first_location device_data Hmeta Hconfig).
    cbn [mbind result_bind mret result_ret py_getitem].
    rewrite (dict_getitem_contains _ API_SYSTEM_NUMBER), Hsn.
    cbn [mbind result_bind mret result_ret]. rewrite Hint. reflexivity.
Qed.

(** X17.  [AirQuality.__init__] has no fall-back for a missing number.  With
    a device id in the payload, and the "meta" and "config" sub-objects
    mappings when present: when none of the three locations holds the
    system-number key the construction raises [KeyError]; when the location
    that holds the system number does not hold the zone-number key, and
    [int] accepts the system number, the construction raises [KeyError] as
    well, even if another location has the zone number; and when [int]
    rejects the system number, the construction raises what [int] raises,
    before the zone number is looked at. *)
Theorem AirQuality_init_missing_number (inst_id ws_id : string)
    (device_data : Dict) :
  dict_contains API_DEVICE_ID device_data = true ->
  mapping_or_None (dict_get device_data API_META) ->
  mapping_or_None (dict_get device_data API_CONFIG) ->
  (dict_contains API_SYSTEM_NUMBER (first_location device_data) = false ->
   AirQuality.init inst_id ws_id device_data = Raise KeyError) /\
  (forall sn,
     py_int (dict_get (first_location device_data) API_SYSTEM_NUMBER) = Ok sn ->
     dict_contains API_SYSTEM_NUMBER (first_location device_data) = true ->
     dict_contains API_ZONE_NUMBER (first_location device_data) = false ->
     AirQuality.init inst_id ws_id device_data = Raise KeyError) /\
  (forall e,
     py_int (dict_get (first_location device_data) API_SYSTEM_NUMBER) = Raise e ->
     dict_contains API_SYSTEM_NUMBER (first_location device_data) = true ->
     AirQuality.init inst_id ws_id device_data = Raise e).
Proof. exact (AirQuality_init_located inst_id ws_id device_data). Qed.

(** ** No handler: what reaches the caller *)

Lemma mapping_or_None_dec (v : Any) : mapping_or_None v \/ ~ mapping_or_None v.
Proof.
  destruct v;
    first [ left; left; reflexivity
          | left; right; eexists; reflexivity
          | right; intros [Hv | [d Hv]]; discriminate Hv ].
Qed.

Definition update_error (e : exn) : Prop :=
  e = AttributeError \/ e = TypeError \/ e = ValueError.

Lemma Device_update_data_raises (update : EntityUpdate) (s s' : Device.t) (e : exn) :
  Device.update_data update s = (s', Raise e) -> update_error e.
Proof.
  intros Hrun.
  destruct (mapping_or_None_dec (dict_get (get_data update) API_AQ_TEMP))
    as [Htemp | Htemp].
  - pose proof (raises_only_run shape_error _ s e
                  (Device_update_data_shape_error update Htemp)) as He.
    rewrite Hrun in He. right. exact (He eq_refl).
  - pose proof (hoare_outcome _ s AttributeError
                  (Device_update_data_AttributeError update Htemp)) as He.
    rewrite Hrun in He. simpl in He. left. congruence.
Qed.

Lemma AirQuality_update_data_outcome (update : EntityUpdate) (t : AirQuality.t) :
  (AirQuality.update_data update t).2
  = (Device.update_data update (AirQuality.base t)).2.
Proof.
  destruct (Device.update_data update (AirQuality.base t)) as [d [[]|e]] eqn:Hrun.
  - destruct (AirQuality_update_data_tail update t d Hrun) as (t' & -> & _).
    reflexivity.
  - unfold AirQuality.update_data. cbv zeta.
    rewrite (bind_run_Raise _ _ t (AirQuality.with_base d t) e
               (super_run_Raise AirQuality.base AirQuality.with_base _ t d e Hrun)).
    reflexivity.
Qed.

Lemma AirQuality_update_data_raises (update : EntityUpdate) (t t' : AirQuality.t)
    (e : exn) :
  AirQuality.update_data update t = (t', Raise e) -> update_error e.
Proof.
  intros Hrun. pose proof (AirQuality_update_data_outcome update t) as Hout.
  rewrite Hrun in Hout. simpl in Hout.
  destruct (Device.update_data update (AirQuality.base t)) as [d r] eqn:Hd.
  simpl in Hout. subst r.
  exact (Device_update_data_raises update _ _ e Hd).
Qed.

Lemma Device_update_data_stops (update : EntityUpdate) (s : Device.t) :
  mapping_or_None (dict_get (get_data update) API_AQ_TEMP) ->
  dict_get (get_data update) API_AUTO_MODE <> PNone ->
  OperationMode_member (dict_get (get_data update) API_AUTO_MODE) = None ->
  (Device.update_data update s).2 = Raise ValueError /\
  stopped_at_auto_mode (get_data update) s (Device.update_data update s).1.
Proof.
  intros Htemp Hne Hm. split; [| split].
  - apply (aborts_outcome _ ValueError s). stops_at_auto_mode Htemp.
  - repeat apply conj;
      apply (aborts_merged _ _ _ _ ValueError s); intros ?;
      stops_at_auto_mode Htemp.
  - repeat apply conj;
      apply (aborts_kept _ _ ValueError s); intros ?;
      stops_at_auto_mode Htemp.
Qed.

(** C2, as amended.  [update_data] has no handler of its own.  It returns
    exactly on the envelopes whose values not handed to a field parser have
    the shape their block needs ([accepted]); then a value a field parser
    rejects costs nothing but its own attribute: every attribute assigned
    behind a guard on the parsed value holds the parsed value of its key when
    there is one, and its old value otherwise.  On every other envelope the
    exception of the offending block, [AttributeError], [TypeError] or
    [ValueError], reaches the caller.  So, the temperature being a mapping or
    [None], a value under the automatic-mode key that denotes no member
    raises [ValueError], and the attributes whose blocks come later are left
    as they were. *)
Theorem update_data_has_no_handler (update : EntityUpdate) :
  (forall s,
     (accepted (get_data update) ->
      exists s',
        Device.update_data update s = (s', Ok tt) /\
        Device_fields_merged (get_data update) s s') /\
     (~ accepted (get_data update) ->
      exists s' e,
        Device.update_data update s = (s', Raise e) /\ update_error e)) /\
  (forall t,
     (accepted (get_data update) ->
      exists t',
        AirQuality.update_data update t = (t', Ok tt) /\
        AirQuality_fields_merged (get_data update) t t') /\
     (~ accepted (get_data update) ->
      exists t' e,
        AirQuality.update_data update t = (t', Raise e) /\ update_error e)) /\
  (mapping_or_None (dict_get (get_data update) API_AQ_TEMP) ->
   dict_get (get_data update) API_AUTO_MODE <> PNone ->
   OperationMode_member (dict_get (get_data update) API_AUTO_MODE) = None ->
   forall s,
     (Device.update_data update s).2 = Raise ValueError /\
     stopped_at_auto_mode (get_data update) s (Device.update_data update s).1).
Proof.
  split; [| split].
  - intros s. split.
    + intros Hshape.
      destruct (returns_run _ s (Device_update_data_accepts update Hshape))
        as [s' Hrun].
      exists s'. split; [exact Hrun|].
      exact (Device_update_data_fields_merged update s s' Hrun).
    + intros Hshape.
      destruct (Device.update_data update s) as [s' [[]|e]] eqn:Hrun.
      * exfalso. apply Hshape. exact (Device_update_data_accepted update s s' Hrun).
      * exists s', e. split; [reflexivity|].
        exact (Device_update_data_raises update s s' e Hrun).
  - intros t. split.
    + intros Hshape.
      destruct (returns_run _ t (AirQuality_update_data_accepts update Hshape))
        as [t' Hrun].
      exists t'. split; [exact Hrun|].
      exact (AirQuality_update_data_fields_merged update t t' Hrun).
    + intros Hshape.
      destruct (AirQuality.update_data update t) as [t' [[]|e]] eqn:Hrun.
      * exfalso. apply Hshape.
        exact (AirQuality_update_data_accepted update t t' Hrun).
      * exists t', e. split; [reflexivity|].
        exact (AirQuality_update_data_raises update t t' e Hrun).
  - intros Htemp Hne Hm s. exact (Device_update_data_stops update s Htemp Hne Hm).
Qed.
End Properties.

(** * Examples, with the example instances *)

#[local] Existing Instance example_common.
#[local] Existing Instance example_quality_levels.
#[local] Existing Instance example_builtins.

(** A device with a temperature, an error and two available modes. *)
Definition example_device : Device.t (H := example_common) :=
  {| Device.air_quality := None; Device.auto_mode := None;
     Device.aq_active := None; Device.aq_pm_1 := Some 99; Device.aq_pm_2p5 := None;
     Device.aq_pm_10 := None; Device.aq_co2 := None; Device.aq_tvoc := None;
     Device.aq_humidity := None; Device.aq_temp := Some 21.5%float;
     Device.aq_present := None; Device.aq_quality := Some "2";
     Device.aq_score := None; Device.double_set_point := None;
     Device.dual_sp_conf := None; Device.errors := [PStr "E1"];
     Device.id := "dev1"; Device.installation_id := "inst1";
     Device.mode := Some AUTO; Device.modes := [AUTO; COOLING];
     Device.name := "Device"; Device.simulator_mode := None;
     Device.warnings := []; Device.webserver_id := "ws1";
     Device.ws_connected := true; Device.is_connected := true |}.

(** An air-quality sensor that reads 12 for PM 1. *)
Definition example_air_quality : AirQuality.t (H := example_common) :=
  {| AirQuality.base :=
       Device.with_aq_quality (Some "3")
         (Device.with_aq_pm_1 (Some 12) (Device.with_name "Air Quality 1:2" example_device));
     AirQuality.aq_sensor_fw := None; AirQuality.systems := ∅;
     AirQuality.zones := ∅; AirQuality.aq_vent_active := None;
     AirQuality.aq_pressure := PNone; AirQuality.system_number := 1;
     AirQuality.zone_number := 2 |}.

(** A store whose references all denote that sensor. *)
Definition example_store : AirQuality.Store (H := example_common) :=
  fun _ => example_air_quality.

(** The example device associated with the sensor. *)
Definition example_device_with_sensor : Device.t (H := example_common) :=
  Device.with_air_quality (Some 1%positive) example_device.

(** C1.  Field stickiness fails for [aq_temp]: an envelope whose temperature
    sub-object has no Celsius entry clears the temperature the object held,
    in [Device.update_data] and in [AirQuality.update_data]. *)
Theorem aq_temp_not_sticky :
  let update := {| get_data := [(API_AQ_TEMP, PDict [])] |} in
  Device.aq_temp example_device = Some 21.5%float /\
  Device.update_data (H := example_common) update example_device
  = (Device.with_aq_temp None example_device, Ok tt) /\
  AirQuality.inherited Device.aq_temp example_air_quality = Some 21.5%float /\
  AirQuality.update_data (H := example_common) update example_air_quality
  = (AirQuality.with_inherited Device.with_aq_temp None example_air_quality, Ok tt).
Proof. cbv zeta. repeat split; reflexivity. Qed.

(** C2, as stated, fails: a raw automatic mode that denotes no member makes
    [update_data] raise [ValueError] to the caller, and the errors of the
    same envelope are not processed. *)
Lemma update_data_raises_on_unrecognized_mode :
  let update :=
    {| get_data := [(API_AUTO_MODE, PInt 99); (API_ERRORS, PList [PStr "E7"])] |} in
  Device.update_data (H := example_common) update example_device
  = (example_device, Raise ValueError) /\
  AirQuality.update_data (H := example_common) update example_air_quality
  = (example_air_quality, Raise ValueError) /\
  Device.errors example_device = [PStr "E1"].
Proof. cbv zeta. repeat split; reflexivity. Qed.

(** An envelope with a PM 1 value that does not parse, a PM 10 value and an
    empty list of errors. *)
Definition example_update : EntityUpdate :=
  {| get_data :=
       [(API_AQ_PM_1, PStr "n/a"); (API_AQ_PM_10, PInt 7); (API_ERRORS, PList [])] |}.

Lemma example_update_accepted :
  accepted (H := example_common) (get_data example_update).
Proof.
  split; first [ left; reflexivity | right; eexists; reflexivity
               | right; eexists; eexists; split; reflexivity ].
Qed.

(** C2, as amended, at [example_update]: the PM 1 value does not parse and
    costs nothing but its own attribute, which keeps its 99; the PM 10 value
    is taken. *)
Lemma update_data_returns_example :
  accepted (H := example_common) (get_data example_update) /\
  (exists s',
     Device.update_data (H := example_common) example_update example_device = (s', Ok tt) /\
     Device.aq_pm_1 s' = Some 99 /\ Device.aq_pm_10 s' = Some 7).
Proof.
  split; [exact example_update_accepted|].
  destruct (update_data_has_no_handler (H := example_common) example_update)
    as [Hd _].
  destruct (proj1 (Hd example_device) example_update_accepted) as (s' & Hrun & Hm).
  exists s'. split; [exact Hrun|].
  destruct Hm as (_ & _ & _ & Hpm1 & _ & Hpm10 & _). split; [exact Hpm1 | exact Hpm10].
Defined.

(** C3, as stated, fails for [modes]: an empty list under the
    available-modes key leaves the available modes as they were. *)
Lemma empty_mode_list_keeps_modes :
  let update := {| get_data := [(API_MODE_AVAIL, PList [])] |} in
  dict_contains API_MODE_AVAIL (get_data update) = true /\
  Device.modes example_device = [AUTO; COOLING] /\
  Device.update_data (H := example_common) update example_device
  = (example_device, Ok tt).
Proof. cbv zeta. repeat split; reflexivity. Qed.

(** C3, as amended, at an envelope whose errors are the empty list: the
    error of the device is gone, its modes are as they were. *)
Lemma list_fields_replaced_example :
  let update := {| get_data := [(API_ERRORS, PList [])] |} in
  let s' := Device.with_errors [] example_device in
  Device.errors example_device = [PStr "E1"] /\
  Device.update_data (H := example_common) update example_device = (s', Ok tt) /\
  Device.errors s' = [] /\
  Device.modes s' = [AUTO; COOLING].
Proof.
  cbv zeta.
  assert (Hrun : Device.update_data (H := example_common)
                   {| get_data := [(API_ERRORS, PList [])] |} example_device
                 = (Device.with_errors [] example_device, Ok tt))
    by reflexivity.
  destruct (list_fields_replaced (H := example_common)
              {| get_data := [(API_ERRORS, PList [])] |}) as [Hreplaced _].
  destruct (Hreplaced example_device (Device.with_errors [] example_device) Hrun)
    as (Herrors & _ & _).
  split; [reflexivity|]. split; [exact Hrun|]. split.
  - exact (Herrors [] eq_refl).
  - reflexivity.
Defined.

(** Delegation at the example device: with the sensor associated the getter
    returns the sensor's 12, not the device's own 99, and the device is as it
    was. *)
Lemma air_quality_delegation_example :
  Device.aq_pm_1 example_device_with_sensor = Some 99 /\
  Device.get_aq_pm_1 (AirQuality.as_devices example_store) example_device_with_sensor
  = (example_device_with_sensor, Ok (Some 12)) /\
  Device.get_aq_pm_1 (AirQuality.as_devices example_store) example_device
  = (example_device, Ok (Some 99)).
Proof.
  pose proof (air_quality_delegation (H := example_common) example_store) as Hd.
  cbv zeta in Hd. destruct Hd as [(_ & _ & _ & Hpm1 & _) _].
  split; [reflexivity|]. split.
  - exact (Hpm1 example_device_with_sensor).
  - exact (Hpm1 example_device).
Defined.

(** C5.  Air-quality delegation fails for one accessor.  [get_aq_status] is a
    [get_aq_*] accessor of [Device], but it does not read through the
    associated [AirQuality] object as its eleven siblings do: on the example
    device with the sensor associated, the call returns nothing, whatever the
    recursion limit, while [get_aq_pm_1] on the same device returns the
    sensor's reading. *)
Theorem get_aq_status_does_not_delegate :
  Device.air_quality example_device_with_sensor = Some 1%positive /\
  Device.get_aq_pm_1 (AirQuality.as_devices example_store) example_device_with_sensor
  = (example_device_with_sensor, Ok (Some 12)) /\
  forall limit,
    Device.get_aq_status (H := example_common) limit example_device_with_sensor
    = (example_device_with_sensor, Raise RecursionError).
Proof.
  split; [reflexivity|]. split; [reflexivity|].
  induction limit as [|limit IH]; simpl.
  - reflexivity.
  - unfold mbind, M_bind. rewrite IH. reflexivity.
Qed.

(** C6, as stated, fails: [set_mode] takes a raw integer as well, and one
    that denotes no mode raises [ValueError] to the caller. *)
Lemma set_mode_raises_on_unrecognized_value :
  Device.set_mode (H := example_common) (inl (PInt 99)) example_device
  = (example_device, Raise ValueError).
Proof. reflexivity. Qed.

(** C6, as amended, at the example device, whose modes are auto and cooling
    and whose mode is auto: heating is rejected, cooling is set. *)
Lemma set_mode_guard_example :
  Device.mode example_device = Some AUTO /\
  Device.set_mode (H := example_common) (inr HEATING) example_device
  = (example_device, Ok tt) /\
  (exists s',
     Device.set_mode (H := example_common) (inr COOLING) example_device = (s', Ok tt) /\
     Device.mode s' = Some COOLING /\
     Device.modes s' = [AUTO; COOLING]).
Proof.
  split; [reflexivity|]. split.
  - refine (proj1 (proj2 (set_mode_guard (H := example_common) example_device HEATING)) _).
    intros Hin. apply list_elem_of_In in Hin.
    destruct Hin as [Hin|[Hin|[]]]; discriminate Hin.
  - destruct (proj1 (set_mode_guard (H := example_common) example_device COOLING))
      as (s' & Hrun & Hmode & Hsame).
    + right. left.
    + exists s'. split; [exact Hrun|]. split; [exact Hmode|].
      destruct Hsame as (_ & _ & _ & _ & _ & _ & _ & _ & _ & _ & _ & _ & _ & _ & _ & _
                         & _ & _ & Hmodes & _).
      exact Hmodes.
Defined.

(** C7, as stated, fails: the scenario's payload holds no device id, and the
    construction raises [KeyError]. *)
Lemma scenario_without_device_id_raises :
  AirQuality.init (H := example_common) (H1 := example_builtins) "inst1" "ws1" scenario_data
  = Raise KeyError.
Proof. reflexivity. Qed.

(** C7, as amended, at a payload whose numbers are in the "config"
    sub-object and which has a name. *)
Definition example_payload : Dict :=
  [ (API_DEVICE_ID, PStr "aq7");
    ("meta", PDict [("zoneNumber", PInt 9)]);
    ("config", PDict [("systemNumber", PInt 3); ("zoneNumber", PStr "4")]);
    ("name", PStr "Kitchen") ].

Lemma air_quality_construction_example :
  exists t,
    AirQuality.init (H := example_common) (H1 := example_builtins) "inst1" "ws1"
      example_payload = Ok t /\
    AirQuality.system_number t = 3 /\
    AirQuality.zone_number t = 4 /\
    AirQuality.inherited Device.name t = "Kitchen".
Proof.
  destruct (air_quality_construction (H := example_common) (H1 := example_builtins)
              "inst1" "ws1") as (_ & Hinit & _).
  refine (Hinit example_payload (PStr "aq7") (PInt 3) (PStr "4") 3 4
            eq_refl _ _ eq_refl eq_refl eq_refl eq_refl);
    right; eexists; reflexivity.
Defined.

(** C8 at the example device, with the example table: the device's level "2"
    is "regular"; through the sensor the level is "3", "bad". *)
Lemma quality_level_translation_example :
  (exists d,
     Device.data (H := example_common) (H0 := example_quality_levels)
       (AirQuality.as_devices example_store) example_device = (example_device, Ok d) /\
     d !! AZD_AQ_QUALITY = Some (VStr "regular")) /\
  (exists d,
     Device.data (H := example_common) (H0 := example_quality_levels)
       (AirQuality.as_devices example_store) example_device_with_sensor
     = (example_device_with_sensor, Ok d) /\
     d !! AZD_AQ_QUALITY = Some (VStr "bad")).
Proof.
  destruct (quality_level_translation (H := example_common)
              (H0 := example_quality_levels) example_store) as [Hd _].
  split.
  - destruct (Hd example_device) as (d & Hrun & Hq & _).
    exists d. split; [exact Hrun|].
    refine (Hq "2" "regular" eq_refl _). right. left.
  - destruct (Hd example_device_with_sensor) as (d & Hrun & Hq & _).
    exists d. split; [exact Hrun|].
    refine (Hq "3" "bad" eq_refl _). right. right. left.
Defined.

(** X11 at the example device: the envelope disconnects the device, names an
    automatic mode that does not exist and lists an error.  The update raises
    [ValueError]; the device is disconnected, its error is still the old
    one. *)
Lemma update_data_stops_at_unrecognised_auto_mode_example :
  let update :=
    {| get_data :=
         [ (API_IS_CONNECTED, PBool false); (API_AUTO_MODE, PInt 99);
           (API_ERRORS, PList [PStr "E7"]) ] |} in
  (Device.update_data (H := example_common) update example_device).2
  = Raise ValueError /\
  Device.is_connected (Device.update_data (H := example_common) update example_device).1
  = false /\
  Device.errors (Device.update_data (H := example_common) update example_device).1
  = [PStr "E1"].
Proof.
  cbv zeta.
  destruct (update_data_stops_at_unrecognised_auto_mode (H := example_common)
              {| get_data :=
                   [ (API_IS_CONNECTED, PBool false); (API_AUTO_MODE, PInt 99);
                     (API_ERRORS, PList [PStr "E7"]) ] |} example_device)
    as (Hout & (Hconnected & _) & (_ & _ & _ & Herrors & _)).
  - left. reflexivity.
  - discriminate.
  - reflexivity.
  - split; [exact Hout|]. split; [exact Hconnected | exact Herrors].
Defined.

(** A payload whose "meta" sub-object has the system number only; the zone
    number is at the top level. *)
Definition example_payload_split : Dict :=
  [ ("deviceId", PStr "aq9");
    ("meta", PDict [("systemNumber", PInt 1)]);
    ("zoneNumber", PInt 2) ].

(** X17 at that payload: the zone number at the top level is not looked
    for. *)
Lemma AirQuality_init_missing_number_example :
  AirQuality.init (H := example_common) (H1 := example_builtins) "inst1" "ws1"
    example_payload_split = Raise KeyError.
Proof.
  refine (proj1 (proj2 (AirQuality_init_missing_number (H := example_common)
                          (H1 := example_builtins) "inst1" "ws1" example_payload_split
                          eq_refl _ _)) 1 eq_refl eq_refl eq_refl).
  - right. eexists. reflexivity.
  - left. reflexivity.
Defined.
